(** * OSCAL component model and SSP assembly: a shallow embedding

    The Python sources embedded here are
    - [blueprintapi/oscal/component.py]: the pydantic classes of an OSCAL
      component definition and the lookups of [Component];
    - [projects/downloads.py]: the class [OscalSSP] that assembles a System
      Security Plan from a project.
    Three collaborators of these files are not among the sources and are
    modelled from the specification, each under a comment that says so: the
    element classes and the serializer of [oscal.py], the classes of
    [ssp.py], and the control-aggregation engine.

    Python values are modelled as follows.  A [str] is a [string]; a
    [List[X]] is a [list X]; an [Optional[X]] is an [option X] ([None] is
    Python's [None]); a pydantic class is a record, one module per class so
    that the fields keep their Python names; a method that may raise returns
    a [result]; a method that mutates [self] returns the new [self]. *)

From Stdlib Require Import ZArith Ascii String List Bool Lia.
From Stdlib Require Import DecimalString DecimalN.
From stdpp Require Import base option list gmap sets strings.

Local Open Scope Z_scope.

(** ** Exceptions and results *)

Inductive exn : Type :=
| KeyError (msg : string)
| ValueError (msg : string)
| IndexError (msg : string)
| TypeError (msg : string)
| AttributeError (msg : string)
| SchemaViolation (field : string)
| ControlNotFound (control_id : string).

Inductive result (A : Type) : Type :=
| Ok (a : A)
| Raise (e : exn).

Arguments Ok {A} a.
Arguments Raise {A} e.

#[global] Instance result_ret : MRet result := fun A a => Ok a.

#[global] Instance result_bind : MBind result := fun A B k m =>
  match m with
  | Ok a => k a
  | Raise e => Raise e
  end.

#[global] Instance result_fmap : FMap result := fun A B f m =>
  match m with
  | Ok a => Ok (f a)
  | Raise e => Raise e
  end.

Definition is_ok {A : Type} (m : result A) : bool :=
  match m with Ok _ => true | Raise _ => false end.

(** ** Python truthiness and membership *)

(** [not xs] for an [Optional[List[X]]]: [None] and [[]] are falsy. *)
Definition list_truthy {A : Type} (xs : option (list A)) : bool :=
  match xs with
  | None => false
  | Some [] => false
  | Some (_ :: _) => true
  end.

(** [not s] for a [str] argument whose default is [None]. *)
Definition str_truthy (s : option string) : bool :=
  match s with
  | None => false
  | Some EmptyString => false
  | Some (String _ _) => true
  end.

(** [key == obj] where [key] is a [str] and [obj] an instance of a pydantic
    model: [str.__eq__] declines ([NotImplemented]) for an operand that is
    not a [str], and the reflected [BaseModel.__eq__] compares the model's
    [dict()] with the [str], which Python evaluates to [False].  The answer
    does not depend on the fields of [obj]. *)
Definition str_eq_model {A : Type} (key : string) (obj : A) : bool := false.

(** [key in objs]: list membership, [any(key is o or key == o for o in objs)];
    a [str] is never identical to a model instance. *)
Definition str_in_models {A : Type} (key : string) (objs : list A) : bool :=
  existsb (str_eq_model key) objs.

(** [next(filter(pred, xs))]: the first element satisfying [pred], or
    [StopIteration], modelled as [None]. *)
Fixpoint next_filter {A : Type} (pred : A -> bool) (xs : list A) : option A :=
  match xs with
  | [] => None
  | x :: rest => if pred x then Some x else next_filter pred rest
  end.

(** ** Identifiers *)

(** A [uuid.UUID] is its 128-bit integer. *)
Definition UUID : Type := N.

(** [NCName], [MarkupLine] and [MarkupMultiLine] are [str] types of
    [blueprintapi/oscal/oscal.py]. *)
Definition NCName : Type := string.
Definition MarkupLine : Type := string.
Definition MarkupMultiLine : Type := string.

(** ** Element classes of [blueprintapi/oscal/oscal.py]

    Modelled from the spec: [oscal.py] is not among the sources.  A Property
    is a name/value pair; [add_parameter] reads [param_id] of a Parameter;
    Link and ResponsibleRole are kept to their identifying field.  The
    classes Property and Parameter are the modules [Property_] and
    [Parameter_]. *)

Module Property_.
Record t : Type := mk { name : string; value : string }.
End Property_.

Module Parameter_.
Record t : Type := mk { param_id : string; values : list string }.
End Parameter_.

Module Link.
Record t : Type := mk { href : string }.
End Link.

Module ResponsibleRole.
Record t : Type := mk { role_id : string }.
End ResponsibleRole.

(** ** [component.py] *)

Inductive ComponentTypeEnum : Type :=
| software | hardware | service | interconnection | policy | process
| procedure | plan | guidance | standard | validation.

Module Statement.
Record t : Type := mk {
  statement_id : NCName;
  uuid : UUID;
  description : MarkupMultiLine;
  props : option (list Property_.t);
  links : option (list Link.t);
  responsible_roles : option (list ResponsibleRole.t);
  remarks : option MarkupMultiLine
}.
End Statement.

Module ImplementedRequirement.
Record t : Type := mk {
  uuid : UUID;
  control_id : string;
  description : MarkupMultiLine;
  props : option (list Property_.t);
  links : option (list Link.t);
  set_parameters : option (list Parameter_.t);
  responsible_roles : option (list ResponsibleRole.t);
  statements : option (list Statement.t);
  remarks : option MarkupMultiLine
}.

Definition with_statements (self : t) (v : option (list Statement.t)) : t :=
  mk (uuid self) (control_id self) (description self) (props self)
     (links self) (set_parameters self) (responsible_roles self) v
     (remarks self).

Definition with_set_parameters (self : t) (v : option (list Parameter_.t)) : t :=
  mk (uuid self) (control_id self) (description self) (props self)
     (links self) v (responsible_roles self) (statements self)
     (remarks self).

Definition with_props (self : t) (v : option (list Property_.t)) : t :=
  mk (uuid self) (control_id self) (description self) v
     (links self) (set_parameters self) (responsible_roles self)
     (statements self) (remarks self).

(** [_props_filter]: the value of the first property called [name]. *)
Definition _props_filter (self : t) (name : string) : option string :=
  match props self with
  | None => None
  | Some ps =>
      match next_filter (fun prop => String.eqb (Property_.name prop) name) ps with
      | None => None
      | Some property_ => Some (Property_.value property_)
      end
  end.

Definition responsibility (self : t) : option string :=
  _props_filter self "security_control_type".

Definition provider (self : t) : option string :=
  _props_filter self "provider".

(** The messages are an f-string followed by a plain literal: only [{key}]
    is interpolated, the text [{self.control_id}] is emitted as it stands. *)
Definition add_statement (self : t) (statement : Statement.t) : result t :=
  let key := Statement.statement_id statement in
  self1 ←
    (if negb (list_truthy (statements self))
     then Ok (with_statements self (Some []))
     else if str_in_models key (default [] (statements self))
     then Raise (KeyError ("Statement " +:+ key +:+
                           " already in ImplementedRequirement" +:+
                           " for {self.control_id}"))
     else Ok self);
  Ok (with_statements self1
        (Some (default [] (statements self1) ++ [statement]))).

Definition add_parameter (self : t) (set_parameter : Parameter_.t) : result t :=
  let key := Parameter_.param_id set_parameter in
  self1 ←
    (if negb (list_truthy (set_parameters self))
     then Ok (with_set_parameters self (Some []))
     else if str_in_models key (default [] (set_parameters self))
     then Raise (KeyError ("SetParameter " +:+ key +:+
                           " already in ImplementedRequirement" +:+
                           " for {self.control_id}"))
     else Ok self);
  Ok (with_set_parameters self1
        (Some (default [] (set_parameters self1) ++ [set_parameter]))).

Definition add_property (self : t) (property : Property_.t) : result t :=
  let key := Property_.name property in
  self1 ←
    (if negb (list_truthy (props self))
     then Ok (with_props self (Some []))
     else if str_in_models key (default [] (props self))
     then Raise (KeyError ("Property " +:+ key +:+
                           " already in ImplementedRequirement" +:+
                           " for {self.control_id}"))
     else Ok self);
  Ok (with_props self1 (Some (default [] (props self1) ++ [property]))).
End ImplementedRequirement.

Module ControlImplementation.
Record t : Type := mk {
  uuid : UUID;
  source : string;
  description : MarkupMultiLine;
  props : option (list Property_.t);
  links : option (list Link.t);
  implemented_requirements : list ImplementedRequirement.t
}.
End ControlImplementation.

(** [class Protocol(OSCALElement): pass] has no field. *)
Module Protocol.
Record t : Type := mk { }.
End Protocol.

Module Component.
Record t : Type := mk {
  uuid : UUID;
  type : ComponentTypeEnum;
  title : MarkupLine;
  description : MarkupMultiLine;
  purpose : option MarkupLine;
  props : option (list Property_.t);
  links : option (list Link.t);
  responsible_roles : option (list ResponsibleRole.t);
  protocols : option (list Protocol.t);
  control_implementations : list ControlImplementation.t;
  remarks : option MarkupMultiLine
}.

Definition get_control_implementation (self : t) (catalog_version : string)
  : result ControlImplementation.t :=
  match next_filter
          (fun imp => String.eqb (ControlImplementation.description imp)
                                 catalog_version)
          (control_implementations self) with
  | Some imp => Ok imp
  | None =>
      Raise (KeyError
               ("Provided catalog version is not in control implementations: '"
                +:+ catalog_version +:+ "'."))
  end.

(** The comprehension over both loops, in the order Python evaluates it. *)
Definition all_requirements (self : t) : list ImplementedRequirement.t :=
  implementation ← control_implementations self;
  ControlImplementation.implemented_requirements implementation.

(** [list({...})]: the elements of a set, in the order the set yields them. *)
Definition control_ids (self : t) : list string :=
  elements (list_to_set (ImplementedRequirement.control_id <$>
                           all_requirements self) : gset string).

Definition controls (self : t) (catalog_version : option string)
  : result (list ImplementedRequirement.t) :=
  if negb (str_truthy catalog_version)
  then Ok (all_requirements self)
  else
    imp ← get_control_implementation self (default "" catalog_version);
    Ok (ControlImplementation.implemented_requirements imp).

Definition get_control (self : t) (control_id catalog_version : string)
  : result ImplementedRequirement.t :=
  implementation ← get_control_implementation self catalog_version;
  match next_filter
          (fun req => String.eqb (ImplementedRequirement.control_id req)
                                 control_id)
          (ControlImplementation.implemented_requirements implementation) with
  | Some req => Ok req
  | None =>
      Raise (KeyError (control_id +:+ " is not implemented in this component."))
  end.

Section catalog_versions.
(** [Catalog.Version] is an enumeration of [catalogs.models] whose members
    are not listed in the sources: [Catalog_Version s] is the call
    [Catalog.Version(s)], which returns the member whose value is [s] or
    raises. *)
Context {Version : Type} `{Countable Version}.
Variable Catalog_Version : string -> result Version.

(** The [for] loop: [versions.add(...)] inside [try], [continue] on
    [ValueError]; any other exception leaves the loop and the property. *)
Fixpoint catalog_versions_loop (items : list ControlImplementation.t)
    (versions : gset Version) : result (gset Version) :=
  match items with
  | [] => Ok versions
  | item :: rest =>
      match Catalog_Version (ControlImplementation.description item) with
      | Ok v => catalog_versions_loop rest (versions ∪ {[ v ]})
      | Raise (ValueError _) => catalog_versions_loop rest versions
      | Raise e => Raise e
      end
  end.

Definition catalog_versions (self : t) : result (list Version) :=
  versions ← catalog_versions_loop (control_implementations self) ∅;
  Ok (elements versions).
End catalog_versions.
End Component.

(** ** Insertion-ordered dictionaries

    A Python [dict] whose order matters is the list of its items in
    insertion order; [d[k] = v] replaces the value of a key that is present,
    where it stands, and appends a new key. *)

Fixpoint dict_set {V : Type} (d : list (string * V)) (k : string) (v : V)
  : list (string * V) :=
  match d with
  | [] => [(k, v)]
  | (k', v') :: rest =>
      if String.eqb k' k then (k, v) :: rest else (k', v') :: dict_set rest k v
  end.

Fixpoint dict_get {V : Type} (d : list (string * V)) (k : string) : option V :=
  match d with
  | [] => None
  | (k', v') :: rest => if String.eqb k' k then Some v' else dict_get rest k
  end.

(** ** The control-aggregation engine

    Modelled from the spec: the project-facing aggregation (section 4.4) is
    not among the sources; only [Component.get_control], which it calls for
    every attached component, is.  The catalog, the project snapshot and
    the view are those of sections 3 and 4.4; the buckets are dictionaries
    keyed by component title, as the tests of [projects/tests.py] read
    them. *)

Module Control.
Record t : Type := mk {
  control_id : string;
  control_label : string;
  sort_id : string;
  title : string;
  next_id : option string;
  previous_id : option string
}.
End Control.

Module Catalog.
Record t : Type := mk {
  version : string;
  impact_level : string;
  controls : list Control.t
}.

Definition get_control (self : t) (control_id : string) : result Control.t :=
  match next_filter (fun c => String.eqb (Control.control_id c) control_id)
                    (controls self) with
  | Some c => Ok c
  | None => Raise (ControlNotFound control_id)
  end.
End Catalog.

Module Aggregation.
(** A component attached to a project: its title, whether it is the
    project's private "this-system" component, its OSCAL tree, and the
    enabled flag the persistence layer records for it. *)
Record Attached : Type := mkAttached {
  title : string;
  private : bool;
  component : Component.t;
  enabled : bool
}.

Record Project : Type := mkProject {
  catalog_version : string;
  attached : list Attached;
  completed : list string
}.

Record Narrative : Type := mkNarrative {
  description : string;
  narrative_enabled : bool
}.






(** The component declares the control for the version: its implementation
    for that version (the first one tagged with it) holds a requirement for
    the control. *)
Definition declares (c : Component.t) (control_id version : string) : bool :=
  match next_filter
          (fun imp => String.eqb (ControlImplementation.description imp) version)
          (Component.control_implementations c) with
  | None => false
  | Some imp =>
      existsb (fun req => String.eqb (ImplementedRequirement.control_id req)
                                     control_id)
              (ControlImplementation.implemented_requirements imp)
  end.

Definition inherits (control_id version : string) (c : Attached) : bool :=
  negb (private c) && declares (component c) control_id version.
End Aggregation.

(** The entry a component contributes to the "inherited" bucket: none unless
    it is a non-private component that declares the control. *)
Definition inherited_entry (control_id version : string)
    (c : Aggregation.Attached) : option (string * Aggregation.Narrative) :=
  if Aggregation.private c then None
  else
    match Component.get_control (Aggregation.component c) control_id version with
    | Ok requirement =>
        Some (Aggregation.title c,
              Aggregation.mkNarrative
                (ImplementedRequirement.description requirement)
                (Aggregation.enabled c))
    | Raise _ => None
    end.

(** ** JSON values

    What [json.load] returns and what a Django [JSONField] holds: Python
    [dict]s (items in insertion order), [list]s, [str]s, integers, booleans
    and [None]. *)

#[local] Unset Elimination Schemes.

Inductive json : Type :=
| JNull
| JBool (b : bool)
| JNum (n : Z)
| JStr (s : string)
| JArr (items : list json)
| JObj (members : list (string * json)).

#[local] Set Elimination Schemes.

(** ** Python [str] methods used by [downloads.py]

    Characters are the 8-bit [ascii].  The case maps and the whitespace
    test below are Python's on ASCII text only: Python's own follow
    Unicode, so that outside ASCII they change characters these leave
    alone, may change the length of a string, and count further characters
    as whitespace.  What these functions return is therefore stated for
    ASCII text, [isascii] being [str.isascii]. *)

Module Str.
Fixpoint isascii (s : string) : bool :=
  match s with
  | EmptyString => true
  | String c rest => (N_of_ascii c <? 128)%N && isascii rest
  end.

Definition isspace (c : ascii) : bool :=
  let n := N_of_ascii c in
  ((9 <=? n) && (n <=? 13) || (28 <=? n) && (n <=? 32))%N.

Definition lower_char (c : ascii) : ascii :=
  let n := N_of_ascii c in
  if ((65 <=? n) && (n <=? 90))%N then ascii_of_N (n + 32) else c.

Definition upper_char (c : ascii) : ascii :=
  let n := N_of_ascii c in
  if ((97 <=? n) && (n <=? 122))%N then ascii_of_N (n - 32) else c.

Fixpoint map (f : ascii -> ascii) (s : string) : string :=
  match s with
  | EmptyString => EmptyString
  | String c rest => String (f c) (map f rest)
  end.

Definition lower (s : string) : string := map lower_char s.
Definition upper (s : string) : string := map upper_char s.

(** [s.replace(old, new)] for one-character [old] and [new]. *)
Definition replace (old new : ascii) (s : string) : string :=
  map (fun c => if Ascii.eqb c old then new else c) s.

Fixpoint lstrip (s : string) : string :=
  match s with
  | EmptyString => EmptyString
  | String c rest => if isspace c then lstrip rest else s
  end.

Fixpoint rstrip (s : string) : string :=
  match s with
  | EmptyString => EmptyString
  | String c rest =>
      match rstrip rest with
      | EmptyString => if isspace c then EmptyString else String c EmptyString
      | kept => String c kept
      end
  end.

Definition strip (s : string) : string := rstrip (lstrip s).

(** [s.split()]: the maximal runs of non-whitespace characters. *)
Fixpoint split (s : string) : list string :=
  match s with
  | EmptyString => []
  | String c rest =>
      if isspace c then split rest
      else
        match rest with
        | EmptyString => [String c EmptyString]
        | String c' _ =>
            if isspace c' then String c EmptyString :: split rest
            else
              match split rest with
              | word :: words => String c word :: words
              | [] => [String c EmptyString]
              end
        end
  end.

(** ["".join([word[0] for word in words])]; every word that [split] yields
    has a first character. *)
Fixpoint initials (words : list string) : string :=
  match words with
  | [] => EmptyString
  | String c _ :: rest => String c (initials rest)
  | EmptyString :: rest => initials rest
  end.

(** [s.find(sub)]: the lowest index where [sub] occurs, or [-1]. *)
Fixpoint find_from (sub s : string) (i : Z) : Z :=
  if String.prefix sub s then i
  else
    match s with
    | EmptyString => -1
    | String _ rest => find_from sub rest (i + 1)
    end.

Definition find (s sub : string) : Z := find_from sub s 0.

Fixpoint take (n : nat) (s : string) : string :=
  match n, s with
  | S n', String c rest => String c (take n' rest)
  | _, _ => EmptyString
  end.

(** [s[:stop]]: a negative [stop] counts from the end. *)
Definition slice_to (s : string) (stop : Z) : string :=
  if stop <? 0
  then take (Z.to_nat (Z.of_nat (String.length s) + stop)) s
  else take (Z.to_nat stop) s.
End Str.

(** ** The regular expression of [set_roles]

    [re.search(r"\((.*?)\)", key)] and [group(1)] of its match: the search
    tries every opening parenthesis from the left; after one, the lazy
    [.*?] stops at the first closing parenthesis and cannot cross a newline,
    which [.] does not match. *)

Fixpoint lazy_group (s : string) : option string :=
  match s with
  | EmptyString => None
  | String c rest =>
      if Ascii.eqb c ")" then Some EmptyString
      else if Ascii.eqb c "010" then None
      else String c <$> lazy_group rest
  end.

Fixpoint re_search_group (s : string) : option string :=
  match s with
  | EmptyString => None
  | String c rest =>
      if Ascii.eqb c "("
      then match lazy_group rest with
           | Some group1 => Some group1
           | None => re_search_group rest
           end
      else re_search_group rest
  end.

(** ** Django rows read by [downloads.py]

    The fields of [projects.models.Project], [components.models.Component]
    and the catalog controls that [OscalSSP] reads; [components.all()] and
    [controls.all()] are the lists of rows in query order. *)

Module models.
Module Component.
Record t : Type := mk {
  title : string;
  description : string;
  type : string;
  status : Z;
  controls : list string;
  component_json : json
}.
End Component.

Module Control.
Record t : Type := mk { control_id : string }.
End Control.

Module Catalog.
Record t : Type := mk { source : string }.
End Catalog.

Module Project.
Record t : Type := mk {
  title : string;
  acronym : string;
  impact_level : string;
  catalog : Catalog.t;
  components : list Component.t;
  controls : list Control.t
}.
End Project.
End models.

(** The [extras] argument, a dictionary.  [extras.get("stakeholders")] is
    [None] when the key is missing, and otherwise a list of dictionaries
    from a title to a value, itself a dictionary; [value.get("props")] is
    [None] when the value has no ["props"], and otherwise a dictionary that
    holds a name and a value. *)
Record Props : Type := mkProps {
  props_name : string;
  props_value : string
}.

Record StakeholderValue : Type := mkStakeholderValue {
  get_props : option Props
}.

Definition Stakeholder : Type := list (string * StakeholderValue).

Record Extras : Type := mkExtras {
  stakeholders : option (list Stakeholder)
}.

(** ** Classes of [blueprintapi/oscal/ssp.py]

    Modelled from the spec: [ssp.py] is not among the sources.  Each class
    has the fields that [downloads.py] passes to its constructor, and a
    [uuid] drawn by [uuid4] on construction where the element is one the
    data model identifies by a UUID. *)

Module ssp.
Module Role.
Record t : Type := mk { id : string; title : string; short_name : string }.
End Role.

Module User.
Record t : Type := mk {
  uuid : UUID;
  role_ids : list string;
  title : string;
  short_name : string;
  props : list Property_.t
}.
End User.

Module Metadata.
Record t : Type := mk {
  title : string;
  version : string;
  oscal_version : string;
  roles : option (list Role.t)
}.
End Metadata.

Module SystemStatus.
Record t : Type := mk { state : string }.
End SystemStatus.

Module Component.
Record t : Type := mk {
  uuid : UUID;
  title : string;
  type : string;
  description : string;
  status : SystemStatus.t
}.
End Component.

Module SystemImplementation.
Record t : Type := mk {
  users : list User.t;
  components : list Component.t
}.
End SystemImplementation.

Module ByComponent.
Record t : Type := mk {
  uuid : UUID;
  component_uuid : UUID;
  description : string
}.
End ByComponent.

Module ImplementedRequirement.
Record t : Type := mk {
  uuid : UUID;
  control_id : string;
  by_components : list ByComponent.t
}.

(** [add_by_component] appends to the requirement's list, in place. *)
Definition add_by_component (self : t) (by_component : ByComponent.t) : t :=
  mk (uuid self) (control_id self) (by_components self ++ [by_component]).
End ImplementedRequirement.

Module ControlImplementation.
Record t : Type := mk {
  description : string;
  implemented_requirements : list ImplementedRequirement.t
}.
End ControlImplementation.

Module SystemId.
Record t : Type := mk { id : UUID; identifier_type : string }.
End SystemId.

Module Impact.
Record t : Type := mk { base : string }.
End Impact.

Module InformationType.
Record t : Type := mk {
  uuid : UUID;
  title : string;
  description : string;
  confidentiality_impact : Impact.t;
  integrity_impact : Impact.t;
  availability_impact : Impact.t
}.
End InformationType.

Module SystemInformation.
Record t : Type := mk { information_types : list InformationType.t }.
End SystemInformation.

Module SecurityImpactLevel.
Record t : Type := mk {
  security_objective_confidentiality : string;
  security_objective_availability : string;
  security_objective_integrity : string
}.
End SecurityImpactLevel.

Module NetworkDiagram.
Record t : Type := mk { description : string }.
End NetworkDiagram.

Module SystemCharacteristics.
Record t : Type := mk {
  system_ids : list SystemId.t;
  system_name : string;
  description : string;
  security_sensitivity_level : string;
  system_information : SystemInformation.t;
  security_impact_level : SecurityImpactLevel.t;
  authorization_boundary : NetworkDiagram.t;
  status : SystemStatus.t
}.
End SystemCharacteristics.

Module ImportProfile.
Record t : Type := mk { href : string }.
End ImportProfile.

Module Resource.
Record t : Type := mk { uuid : UUID; title : string }.
End Resource.

Module BackMatter.
Record t : Type := mk { resources : list Resource.t }.
End BackMatter.

Module SystemSecurityPlan.
Record t : Type := mk {
  uuid : UUID;
  metadata : Metadata.t;
  import_profile : ImportProfile.t;
  system_characteristics : SystemCharacteristics.t;
  system_implementation : SystemImplementation.t;
  control_implementation : ControlImplementation.t;
  back_matter : BackMatter.t
}.
End SystemSecurityPlan.

Module Model.
Record t : Type := mk { system_security_plan : SystemSecurityPlan.t }.
End Model.
End ssp.

(** ** Runs that draw fresh UUIDs

    A computation that calls [uuid.uuid4] is a function of the number of
    calls made so far; it returns its value with the new count, or raises. *)

Definition gen (A : Type) : Type := nat -> result (A * nat).

#[global] Instance gen_ret : MRet gen := fun A a n => Ok (a, n).

#[global] Instance gen_bind : MBind gen := fun A B k m n =>
  match m n with
  | Ok (a, n') => k a n'
  | Raise e => Raise e
  end.

(** [uuid.uuid4()], when [uuid4_values n] is what the [n]-th call of the run
    returns. *)
Definition uuid4 (uuid4_values : nat -> UUID) : gen UUID :=
  fun n => Ok (uuid4_values n, S n).

#[global] Instance gen_fmap : FMap gen := fun A B g m n =>
  match m n with
  | Ok (a, n') => Ok (g a, n')
  | Raise e => Raise e
  end.

(** A step that draws nothing. *)
Definition lift {A : Type} (m : result A) : gen A := fun n =>
  match m with
  | Ok a => Ok (a, n)
  | Raise e => Raise e
  end.

(** [xs[0]]. *)
Definition index0 {A : Type} (xs : list A) : result A :=
  match xs with
  | x :: _ => Ok x
  | [] => Raise (IndexError "list index out of range")
  end.

(** [d[k]] on a dictionary. *)
Definition dict_item {V : Type} (d : list (string * V)) (k : string) : result V :=
  match dict_get d k with
  | Some v => Ok v
  | None => Raise (KeyError k)
  end.

(** ** [downloads.py]: the class [OscalSSP]

    Every method is given the attributes of [self] that it reads and
    returns the ones that it assigns; [__init__] threads them in the order
    of the source. *)

Module OscalSSP.

(** The [ImplementedRequirement] objects that [add_implemented_requirements]
    creates, by address, and the list
    [control_implementations.implemented_requirements], which holds
    addresses: appending an object to the list does not copy it, and a later
    [add_by_component] on the object shows through every entry. *)
Record Requirements : Type := mkRequirements {
  objects : list ssp.ImplementedRequirement.t;
  listed : list nat
}.

Record t : Type := mk {
  project : models.Project.t;
  extras : Extras;
  metadata : ssp.Metadata.t;
  users : list ssp.User.t;
  component_ref : list (string * UUID);
  system_implementation : ssp.SystemImplementation.t;
  control_implementations_description : string;
  control_implementations : Requirements
}.

Definition NAMESPACE_OID : UUID := 0x6ba7b8129dad11d180b400c04fd430c8%N.

Definition set_metadata (project : models.Project.t) : ssp.Metadata.t :=
  ssp.Metadata.mk (models.Project.title project) "0.1" "1.0.2" None.

(** The body of the loop over [stakeholder.items()], for one key: the
    title and the short name. *)
Definition stakeholder_entry (key : string) : string * string :=
  match re_search_group key with
  | Some group1 => (Str.slice_to key (Str.find key " ("), group1)
  | None => (key, Str.initials (Str.split key))
  end.

(** The loop over [stakeholder.items()] from the values [title],
    [short_name] and [properties] hold when it starts.  On a value without
    ["props"], [value.get("props")] is [None] and the call of [get] on it
    raises. *)
Fixpoint items_loop (items : Stakeholder)
    (vars : string * string * option Property_.t)
  : result (string * string * option Property_.t) :=
  match items with
  | [] => Ok vars
  | (key, value) :: rest =>
      let '(title, short_name) := stakeholder_entry key in
      match get_props value with
      | None =>
          Raise (AttributeError "'NoneType' object has no attribute 'get'")
      | Some props =>
          items_loop rest
            (title, short_name,
             Some (Property_.mk (props_name props) (props_value props)))
      end
  end.

Definition role_id_of (title : string) : string :=
  Str.lower (Str.replace " " "-" title).

(** The attributes and locals that the loop of [set_roles] updates. *)
Record Roles : Type := mkRoles {
  ids : list string;
  properties : option Property_.t;
  roles_users : list ssp.User.t;
  roles : list ssp.Role.t
}.

(** What the serializer prints for the list: the object behind each
    address, as it is when the document is written. *)
Definition resolve (reqs : Requirements) : list ssp.ImplementedRequirement.t :=
  omap (fun address => objects reqs !! address) (listed reqs).

Section run.
(** [uuid4_values] are the values that [uuid.uuid4] returns during the run
    and [uuid5] is [uuid.uuid5].  [ComponentTools] and
    [get_control_by_id] are the constructor and the method of
    [components.componentio.ComponentTools], which is not among the
    sources; the method returns a list of JSON objects. *)
Variable uuid4_values : nat -> UUID.
Variable uuid5 : UUID -> string -> UUID.
Context {Tools : Type}.
Variable ComponentTools : json -> result Tools.
Variable get_control_by_id : Tools -> string -> result (list json).

Fixpoint stakeholders_loop (stakeholders : list Stakeholder) (st : Roles)
  : gen Roles :=
  match stakeholders with
  | [] => mret st
  | stakeholder :: rest =>
      '(title, short_name, properties) ←
        lift (items_loop stakeholder ("", "", properties st));
      let role_id := role_id_of title in
      if negb (String.eqb title "") && negb (existsb (String.eqb role_id) (ids st))
      then
        props ← lift (match properties with
                      | Some p => Ok [p]
                      | None => Raise (SchemaViolation "props")
                      end);
        uuid ← uuid4 uuid4_values;
        stakeholders_loop rest
          (mkRoles (ids st ++ [role_id]) properties
             (roles_users st ++
                [ssp.User.mk uuid [role_id] title short_name props])
             (roles st ++
                [ssp.Role.mk role_id (Str.strip title) (Str.upper short_name)]))
      else stakeholders_loop rest (mkRoles (ids st) properties
                                     (roles_users st) (roles st))
  end.

(** Without ["stakeholders"] the [for] loop iterates over [None]. *)
Definition set_roles (metadata : ssp.Metadata.t) (extras : Extras)
  : gen (ssp.Metadata.t * list ssp.User.t) :=
  match stakeholders extras with
  | None => lift (Raise (TypeError "'NoneType' object is not iterable"))
  | Some entries =>
      st ← stakeholders_loop entries (mkRoles [] None [] []);
      mret (ssp.Metadata.mk (ssp.Metadata.title metadata)
              (ssp.Metadata.version metadata)
              (ssp.Metadata.oscal_version metadata) (Some (roles st)),
            roles_users st)
  end.

Definition operational : ssp.SystemStatus.t := ssp.SystemStatus.mk "operational".

Fixpoint components_loop (project : models.Project.t)
    (components : list models.Component.t)
    (st : ssp.SystemImplementation.t * list (string * UUID))
  : gen (ssp.SystemImplementation.t * list (string * UUID)) :=
  match components with
  | [] => mret st
  | component :: rest =>
      uuid ← uuid4 uuid4_values;
      let cpt :=
        if models.Component.status component =? 1
        then ssp.Component.mk uuid "This System" "this-system"
               (models.Project.title project) operational
        else ssp.Component.mk uuid (models.Component.title component)
               (models.Component.type component)
               (models.Component.description component) operational in
      components_loop project rest
        (ssp.SystemImplementation.mk
           (ssp.SystemImplementation.users (fst st))
           (ssp.SystemImplementation.components (fst st) ++ [cpt]),
         dict_set (snd st) (models.Component.title component)
           (ssp.Component.uuid cpt))
  end.

Definition add_components (project : models.Project.t)
    (users : list ssp.User.t)
  : gen (ssp.SystemImplementation.t * list (string * UUID)) :=
  components_loop project (models.Project.components project)
    (ssp.SystemImplementation.mk users [], []).

(** [ctrl[0].get("description")], as the [description] of a [ByComponent]. *)
Definition control_description (control : json) : result string :=
  match control with
  | JObj members =>
      match dict_get members "description" with
      | Some (JStr text) => Ok text
      | _ => Raise (SchemaViolation "description")
      end
  | _ => Raise (AttributeError "get")
  end.

(** The inner loop of [add_implemented_requirements], for the requirement
    object at [address]. *)
Fixpoint by_components_loop (control_id : string) (address : nat)
    (component_ref : list (string * UUID))
    (components : list models.Component.t) (st : Requirements)
  : gen Requirements :=
  match components with
  | [] => mret st
  | component :: rest =>
      cmp ← lift (ComponentTools (models.Component.component_json component));
      if existsb (String.eqb control_id) (models.Component.controls component)
      then
        ctrl ← lift (get_control_by_id cmp control_id);
        component_uuid ←
          lift (dict_item component_ref (models.Component.title component));
        first ← lift (index0 ctrl);
        description ← lift (control_description first);
        uuid ← uuid4 uuid4_values;
        let by_component :=
          ssp.ByComponent.mk uuid component_uuid description in
        by_components_loop control_id address component_ref rest
          (mkRequirements
             (alter (fun requirement =>
                       ssp.ImplementedRequirement.add_by_component
                         requirement by_component)
                    address (objects st))
             (listed st ++ [address]))
      else by_components_loop control_id address component_ref rest st
  end.

Fixpoint controls_loop (component_ref : list (string * UUID))
    (components : list models.Component.t)
    (controls : list models.Control.t) (st : Requirements)
  : gen Requirements :=
  match controls with
  | [] => mret st
  | control :: rest =>
      uuid ← uuid4 uuid4_values;
      let address := length (objects st) in
      st' ← by_components_loop (models.Control.control_id control) address
              component_ref components
              (mkRequirements
                 (objects st ++
                    [ssp.ImplementedRequirement.mk uuid
                       (models.Control.control_id control) []])
                 (listed st));
      controls_loop component_ref components rest st'
  end.

Definition add_implemented_requirements (project : models.Project.t)
    (component_ref : list (string * UUID)) : gen (string * Requirements) :=
  reqs ← controls_loop component_ref (models.Project.components project)
            (models.Project.controls project) (mkRequirements [] []);
  mret ("[INSERT SYSTEM DESCRIPTION HERE]", reqs).

Definition init (project : models.Project.t) (extras : Extras) : gen t :=
  let metadata := set_metadata project in
  '(metadata, users) ← set_roles metadata extras;
  '(system_implementation, component_ref) ← add_components project users;
  '(description, reqs) ← add_implemented_requirements project component_ref;
  mret (mk project extras metadata users component_ref system_implementation
           description reqs).

Definition fips_199 (impact_level : string) : string :=
  "fips-199-" +:+ impact_level.

Definition get_impact_level (self : t) : ssp.SecurityImpactLevel.t :=
  let level := fips_199 (models.Project.impact_level (project self)) in
  ssp.SecurityImpactLevel.mk level level level.

Definition get_import_profile (self : t) : ssp.ImportProfile.t :=
  ssp.ImportProfile.mk
    (models.Catalog.source (models.Project.catalog (project self))).

Definition get_information_type (self : t) : gen ssp.InformationType.t :=
  let impact :=
    ssp.Impact.mk (fips_199 (models.Project.impact_level (project self))) in
  uuid ← uuid4 uuid4_values;
  mret (ssp.InformationType.mk uuid (models.Project.title (project self))
          (models.Project.title (project self)) impact impact impact).

Definition get_system_information (self : t) : gen ssp.SystemInformation.t :=
  information_type ← get_information_type self;
  mret (ssp.SystemInformation.mk [information_type]).

Definition get_system_characteristics (self : t)
  : gen ssp.SystemCharacteristics.t :=
  let system_ids :=
    [ssp.SystemId.mk (uuid5 NAMESPACE_OID (models.Project.title (project self)))
       "https://ietf.org/rfc/rfc4122"] in
  system_information ← get_system_information self;
  mret (ssp.SystemCharacteristics.mk system_ids
          (models.Project.title (project self))
          (models.Project.acronym (project self))
          (models.Project.impact_level (project self))
          system_information (get_impact_level self)
          (ssp.NetworkDiagram.mk "INSERT AUTHORIZATION BOUNDARY")
          operational).

Definition get_back_matter : gen ssp.BackMatter.t :=
  uuid ← uuid4 uuid4_values;
  mret (ssp.BackMatter.mk [ssp.Resource.mk uuid "Test Resource"]).

(** [get_ssp] returns the JSON text of [root]; the document below is the
    tree that [root.json(indent=2)] prints, every entry of the requirement
    list being the object behind it. *)
Definition get_ssp (self : t) : gen ssp.Model.t :=
  let import_profile := get_import_profile self in
  system_characteristics ← get_system_characteristics self;
  back_matter ← get_back_matter;
  uuid ← uuid4 uuid4_values;
  mret (ssp.Model.mk
          (ssp.SystemSecurityPlan.mk uuid (metadata self) import_profile
             system_characteristics (system_implementation self)
             (ssp.ControlImplementation.mk
                (control_implementations_description self)
                (resolve (control_implementations self)))
             back_matter)).

(** One download: [OscalSSP(project, extras).get_ssp()]. *)
Definition download (project : models.Project.t) (extras : Extras)
  : result ssp.Model.t :=
  match (self ← init project extras; get_ssp self) 0%nat with
  | Ok (document, _) => Ok document
  | Raise e => Raise e
  end.
End run.
End OscalSSP.

(** ** Stakeholder keys

    The characters of a string, and what the role derivation reads in a
    stakeholder key: its first parenthesised group, the text before its
    first " (", and its words. *)

Definition chars (s : string) : list ascii := list_ascii_of_string s.

(** [sub] occurs in [s]. *)
Definition occurs (sub s : string) : Prop :=
  exists before after, s = before +:+ sub +:+ after.

(** A parenthesised group on one line: [group] stands in [key] between an
    opening parenthesis and the first closing one after it, and holds no
    newline. *)
Definition group_at (key before group after : string) : Prop :=
  key = before +:+ "(" +:+ group +:+ ")" +:+ after /\
  (")"%char ∉ chars group) /\ ("010"%char ∉ chars group).

(** The first such group of [key]: none opens further to the left. *)
Definition first_group (key group : string) : Prop :=
  exists before after,
    group_at key before group after /\
    forall before' group' after',
      group_at key before' group' after' ->
      (String.length before <= String.length before')%nat.

(** Whitespace only, and a word: not empty and without whitespace. *)
Definition blank (s : string) : Prop :=
  forall c, c ∈ chars s -> Str.isspace c = true.

Definition word (w : string) : Prop :=
  w <> "" /\ forall c, c ∈ chars w -> Str.isspace c = false.

(** [words s ws]: [ws] are the words of [s] in order, the runs of
    characters other than whitespace that whitespace or the ends of [s]
    delimit. *)
Inductive words : string -> list string -> Prop :=
| words_nil (gap : string) : blank gap -> words gap []
| words_cons (gap w rest : string) (ws : list string) :
    blank gap -> word w ->
    (rest = "" \/
     exists c rest', rest = String c rest' /\ Str.isspace c = true) ->
    words rest ws ->
    words (gap +:+ w +:+ rest) (w :: ws).

(** [key_shape key title short] : either [key] has a parenthesised group
    and holds " (", [short] being the text inside its first group and
    [title] the text before its first " ("; or [key] has no parenthesised
    group and is the [title], of whose words [short] collects the first
    letters. *)
Inductive key_shape : string -> string -> string -> Prop :=
| key_with_abbreviation (key title rest group : string) :
    first_group key group ->
    key = title +:+ " (" +:+ rest ->
    ~ occurs " (" title ->
    key_shape key title group
| key_of_words (key : string) (ws : list string) (letters : list ascii) :
    (forall before group after, ~ group_at key before group after) ->
    words key ws ->
    Forall2 (fun w letter => exists tail, w = String letter tail) ws letters ->
    key_shape key key (string_of_list_ascii letters).

(** The title that the loop over the items of one stakeholder leaves: the
    one of its last key. *)
Definition stakeholder_title (stakeholder : Stakeholder) : string :=
  match last stakeholder with
  | Some (key, _) => fst (OscalSSP.stakeholder_entry key)
  | None => EmptyString
  end.

(** Every value of the stakeholder holds ["props"]; every key of the
    stakeholder is ASCII text. *)
Definition has_props (stakeholder : Stakeholder) : Prop :=
  Forall (fun item => is_Some (get_props item.2)) stakeholder.

Definition ascii_keys (stakeholder : Stakeholder) : Prop :=
  Forall (fun item => Str.isascii item.1 = true) stakeholder.

(** ** Renaming the UUIDs drawn during a download

    [Rename.model f] applies [f] to every UUID of the document that a call
    of [uuid4] produced: the [uuid] of the plan, users, components,
    requirements, by-components, information types and resources, and the
    [component_uuid] references to components.  The [id] of a system
    identifier, which [uuid5] computes from the project title, is left
    alone.  Masking is renaming with a constant. *)

Module Rename.
Section rename.
Variable f : UUID -> UUID.

Definition user (u : ssp.User.t) : ssp.User.t :=
  ssp.User.mk (f (ssp.User.uuid u)) (ssp.User.role_ids u) (ssp.User.title u)
    (ssp.User.short_name u) (ssp.User.props u).

Definition component (c : ssp.Component.t) : ssp.Component.t :=
  ssp.Component.mk (f (ssp.Component.uuid c)) (ssp.Component.title c)
    (ssp.Component.type c) (ssp.Component.description c)
    (ssp.Component.status c).

Definition system_implementation (s : ssp.SystemImplementation.t)
  : ssp.SystemImplementation.t :=
  ssp.SystemImplementation.mk (user <$> ssp.SystemImplementation.users s)
    (component <$> ssp.SystemImplementation.components s).

Definition by_component (b : ssp.ByComponent.t) : ssp.ByComponent.t :=
  ssp.ByComponent.mk (f (ssp.ByComponent.uuid b))
    (f (ssp.ByComponent.component_uuid b)) (ssp.ByComponent.description b).

Definition requirement (r : ssp.ImplementedRequirement.t)
  : ssp.ImplementedRequirement.t :=
  ssp.ImplementedRequirement.mk (f (ssp.ImplementedRequirement.uuid r))
    (ssp.ImplementedRequirement.control_id r)
    (by_component <$> ssp.ImplementedRequirement.by_components r).

Definition control_implementation (c : ssp.ControlImplementation.t)
  : ssp.ControlImplementation.t :=
  ssp.ControlImplementation.mk (ssp.ControlImplementation.description c)
    (requirement <$> ssp.ControlImplementation.implemented_requirements c).

Definition information_type (i : ssp.InformationType.t)
  : ssp.InformationType.t :=
  ssp.InformationType.mk (f (ssp.InformationType.uuid i))
    (ssp.InformationType.title i) (ssp.InformationType.description i)
    (ssp.InformationType.confidentiality_impact i)
    (ssp.InformationType.integrity_impact i)
    (ssp.InformationType.availability_impact i).

Definition system_characteristics (s : ssp.SystemCharacteristics.t)
  : ssp.SystemCharacteristics.t :=
  ssp.SystemCharacteristics.mk (ssp.SystemCharacteristics.system_ids s)
    (ssp.SystemCharacteristics.system_name s)
    (ssp.SystemCharacteristics.description s)
    (ssp.SystemCharacteristics.security_sensitivity_level s)
    (ssp.SystemInformation.mk
       (information_type <$>
          ssp.SystemInformation.information_types
            (ssp.SystemCharacteristics.system_information s)))
    (ssp.SystemCharacteristics.security_impact_level s)
    (ssp.SystemCharacteristics.authorization_boundary s)
    (ssp.SystemCharacteristics.status s).

Definition resource (r : ssp.Resource.t) : ssp.Resource.t :=
  ssp.Resource.mk (f (ssp.Resource.uuid r)) (ssp.Resource.title r).

Definition back_matter (b : ssp.BackMatter.t) : ssp.BackMatter.t :=
  ssp.BackMatter.mk (resource <$> ssp.BackMatter.resources b).

Definition plan (p : ssp.SystemSecurityPlan.t) : ssp.SystemSecurityPlan.t :=
  ssp.SystemSecurityPlan.mk (f (ssp.SystemSecurityPlan.uuid p))
    (ssp.SystemSecurityPlan.metadata p)
    (ssp.SystemSecurityPlan.import_profile p)
    (system_characteristics (ssp.SystemSecurityPlan.system_characteristics p))
    (system_implementation (ssp.SystemSecurityPlan.system_implementation p))
    (control_implementation (ssp.SystemSecurityPlan.control_implementation p))
    (back_matter (ssp.SystemSecurityPlan.back_matter p)).

Definition model (m : ssp.Model.t) : ssp.Model.t :=
  ssp.Model.mk (plan (ssp.Model.system_security_plan m)).

(** The same renaming on the attributes of an [OscalSSP] object. *)
Definition roles (st : OscalSSP.Roles) : OscalSSP.Roles :=
  OscalSSP.mkRoles (OscalSSP.ids st) (OscalSSP.properties st)
    (user <$> OscalSSP.roles_users st) (OscalSSP.roles st).

Definition component_ref (d : list (string * UUID)) : list (string * UUID) :=
  prod_map id f <$> d.

Definition requirements (reqs : OscalSSP.Requirements) : OscalSSP.Requirements :=
  OscalSSP.mkRequirements (requirement <$> OscalSSP.objects reqs)
    (OscalSSP.listed reqs).

Definition object (self : OscalSSP.t) : OscalSSP.t :=
  OscalSSP.mk (OscalSSP.project self) (OscalSSP.extras self)
    (OscalSSP.metadata self) (user <$> OscalSSP.users self)
    (component_ref (OscalSSP.component_ref self))
    (system_implementation (OscalSSP.system_implementation self))
    (OscalSSP.control_implementations_description self)
    (requirements (OscalSSP.control_implementations self)).

(** The result of a run whose value is renamed by [g]. *)
Definition run {A : Type} (g : A -> A) (r : result (A * nat))
  : result (A * nat) :=
  prod_map g id <$> r.
End rename.

Definition mask : ssp.Model.t -> ssp.Model.t := model (fun _ => 0%N).
End Rename.

Definition system_ids (document : ssp.Model.t) : list ssp.SystemId.t :=
  ssp.SystemCharacteristics.system_ids
    (ssp.SystemSecurityPlan.system_characteristics
       (ssp.Model.system_security_plan document)).

(** ** The serialization contract of the component classes

    Modelled from the spec: the base class [OSCALElement] of [oscal.py],
    which serializes and validates every model, is not among the sources.
    Section 4.1 is followed: an instance is written as a JSON object whose
    members are its fields in declared order under their wire names; a
    field that holds [None] is left out; a field named in the class's
    [exclude_if_false] is left out when its value is falsy; reading looks a
    field up by its wire name, then (the classes set
    [allow_population_by_field_name]) by its Python name, fills an absent
    field with its default, and rejects an unknown member with
    [SchemaViolation].  The wire names and the [exclude_if_false] lists are
    those of the [Config] classes of [component.py]. *)

Definition json_falsy (j : json) : bool :=
  match j with
  | JNull | JBool false | JNum 0 | JStr EmptyString | JArr [] | JObj [] => true
  | _ => false
  end.

(** The members written for a list of fields: [None] marks a field that
    holds [None]. *)
Definition emitted (exclude_if_false : list string)
    (fields : list (string * option json)) : list (string * json) :=
  omap (fun field =>
          match field.2 with
          | Some j =>
              if existsb (String.eqb field.1) exclude_if_false && json_falsy j
              then None
              else Some (field.1, j)
          | None => None
          end) fields.

(** The first member whose key is not a known name. *)
Definition first_unknown (known : list string) (members : list (string * json))
  : option string :=
  fst <$> List.find (fun member => negb (existsb (String.eqb member.1) known))
                    members.

Definition lookup_field (members : list (string * json)) (alias name : string)
  : option json :=
  match dict_get members alias with
  | Some j => Some j
  | None => dict_get members name
  end.

Definition violation {A : Type} (field : string) : gen A :=
  lift (Raise (SchemaViolation field)).

Fixpoint gen_mapM {A B : Type} (g : A -> gen B) (xs : list A) : gen (list B) :=
  match xs with
  | [] => mret []
  | x :: rest => y ← g x; ys ← gen_mapM g rest; mret (y :: ys)
  end.

Definition required {A : Type} (field : string) (dec : json -> gen A)
    (v : option json) : gen A :=
  match v with
  | Some j => dec j
  | None => violation field
  end.

Definition optional {A : Type} (dec : json -> gen A) (v : option json)
  : gen (option A) :=
  match v with
  | None | Some JNull => mret None
  | Some j => Some <$> dec j
  end.

Definition with_default {A : Type} (default : gen A) (dec : json -> gen A)
    (v : option json) : gen A :=
  match v with
  | None => default
  | Some j => dec j
  end.

Definition dec_str (field : string) (j : json) : gen string :=
  match j with
  | JStr s => mret s
  | _ => violation field
  end.

Definition dec_list {A : Type} (field : string) (dec : json -> gen A)
    (j : json) : gen (list A) :=
  match j with
  | JArr items => gen_mapM dec items
  | _ => violation field
  end.

(** Reading an object: no unknown member, then the fields. *)
Definition parse_object {A : Type} (known : list string)
    (fields : list (string * json) -> gen A) (j : json) : gen A :=
  match j with
  | JObj members =>
      match first_unknown known members with
      | Some key => violation key
      | None => fields members
      end
  | _ => violation "__root__"
  end.

Definition ComponentTypeEnum_value (t : ComponentTypeEnum) : string :=
  match t with
  | software => "software" | hardware => "hardware" | service => "service"
  | interconnection => "interconnection" | policy => "policy"
  | process => "process" | procedure => "procedure" | plan => "plan"
  | guidance => "guidance" | standard => "standard"
  | validation => "validation"
  end.

Definition ComponentTypeEnum_members : list ComponentTypeEnum :=
  [ software; hardware; service; interconnection; policy; process;
    procedure; plan; guidance; standard; validation ].

Definition ComponentTypeEnum_of_value (s : string) : option ComponentTypeEnum :=
  List.find (fun t => String.eqb (ComponentTypeEnum_value t) s)
            ComponentTypeEnum_members.

Module Wire.
Section wire.
(** [uuid_str] is [str] on a UUID and [uuid_parse] the constructor
    [UUID(text)]; [uuid4_values] supplies the default of an absent [uuid]. *)
Variable uuid_str : UUID -> string.
Variable uuid_parse : string -> option UUID.
Variable uuid4_values : nat -> UUID.

Definition dec_uuid (field : string) (j : json) : gen UUID :=
  match j with
  | JStr s =>
      match uuid_parse s with
      | Some u => mret u
      | None => violation field
      end
  | _ => violation field
  end.

Definition dec_type (j : json) : gen ComponentTypeEnum :=
  match j with
  | JStr s =>
      match ComponentTypeEnum_of_value s with
      | Some t => mret t
      | None => violation "type"
      end
  | _ => violation "type"
  end.

Definition enc_list {A : Type} (enc : A -> json) (xs : list A) : json :=
  JArr (enc <$> xs).

(** *** Writing *)

Definition property_json (p : Property_.t) : json :=
  JObj (emitted [] [ ("name", Some (JStr (Property_.name p)));
                     ("value", Some (JStr (Property_.value p))) ]).

Definition link_json (l : Link.t) : json :=
  JObj (emitted [] [ ("href", Some (JStr (Link.href l))) ]).

Definition responsible_role_json (r : ResponsibleRole.t) : json :=
  JObj (emitted [] [ ("role-id", Some (JStr (ResponsibleRole.role_id r))) ]).

Definition parameter_json (p : Parameter_.t) : json :=
  JObj (emitted [] [ ("param-id", Some (JStr (Parameter_.param_id p)));
                     ("values", Some (enc_list JStr (Parameter_.values p))) ]).

Definition protocol_json (p : Protocol.t) : json := JObj (emitted [] []).

Definition statement_fields (s : Statement.t) : list (string * option json) :=
  [ ("statement-id", Some (JStr (Statement.statement_id s)));
    ("uuid", Some (JStr (uuid_str (Statement.uuid s))));
    ("description", Some (JStr (Statement.description s)));
    ("props", enc_list property_json <$> Statement.props s);
    ("links", enc_list link_json <$> Statement.links s);
    ("responsible-roles",
     enc_list responsible_role_json <$> Statement.responsible_roles s);
    ("remarks", JStr <$> Statement.remarks s) ].

Definition statement_json (s : Statement.t) : json :=
  JObj (emitted [] (statement_fields s)).

Definition requirement_exclude_if_false : list string :=
  ["statements"; "responsible-roles"; "set-parameters"].

Definition requirement_fields (r : ImplementedRequirement.t)
  : list (string * option json) :=
  [ ("uuid", Some (JStr (uuid_str (ImplementedRequirement.uuid r))));
    ("control-id", Some (JStr (ImplementedRequirement.control_id r)));
    ("description", Some (JStr (ImplementedRequirement.description r)));
    ("props", enc_list property_json <$> ImplementedRequirement.props r);
    ("links", enc_list link_json <$> ImplementedRequirement.links r);
    ("set-parameters",
     enc_list parameter_json <$> ImplementedRequirement.set_parameters r);
    ("responsible-roles",
     enc_list responsible_role_json <$>
       ImplementedRequirement.responsible_roles r);
    ("statements",
     enc_list statement_json <$> ImplementedRequirement.statements r);
    ("remarks", JStr <$> ImplementedRequirement.remarks r) ].

Definition requirement_json (r : ImplementedRequirement.t) : json :=
  JObj (emitted requirement_exclude_if_false (requirement_fields r)).

Definition implementation_fields (c : ControlImplementation.t)
  : list (string * option json) :=
  [ ("uuid", Some (JStr (uuid_str (ControlImplementation.uuid c))));
    ("source", Some (JStr (ControlImplementation.source c)));
    ("description", Some (JStr (ControlImplementation.description c)));
    ("props", enc_list property_json <$> ControlImplementation.props c);
    ("links", enc_list link_json <$> ControlImplementation.links c);
    ("implemented-requirements",
     Some (enc_list requirement_json
             (ControlImplementation.implemented_requirements c))) ].

Definition implementation_json (c : ControlImplementation.t) : json :=
  JObj (emitted [] (implementation_fields c)).

Definition component_exclude_if_false : list string :=
  ["control-implementations"].

Definition component_fields (c : Component.t) : list (string * option json) :=
  [ ("uuid", Some (JStr (uuid_str (Component.uuid c))));
    ("type", Some (JStr (ComponentTypeEnum_value (Component.type c))));
    ("title", Some (JStr (Component.title c)));
    ("description", Some (JStr (Component.description c)));
    ("purpose", JStr <$> Component.purpose c);
    ("props", enc_list property_json <$> Component.props c);
    ("links", enc_list link_json <$> Component.links c);
    ("responsible-roles",
     enc_list responsible_role_json <$> Component.responsible_roles c);
    ("protocols", enc_list protocol_json <$> Component.protocols c);
    ("control-implementations",
     Some (enc_list implementation_json (Component.control_implementations c)));
    ("remarks", JStr <$> Component.remarks c) ].

(** [Component.json()], as the tree that is printed. *)
Definition serialize (c : Component.t) : json :=
  JObj (emitted component_exclude_if_false (component_fields c)).

(** *** Reading *)

Definition parse_property : json -> gen Property_.t :=
  parse_object ["name"; "value"] (fun members =>
    name ← required "name" (dec_str "name") (dict_get members "name");
    value ← required "value" (dec_str "value") (dict_get members "value");
    mret (Property_.mk name value)).

Definition parse_link : json -> gen Link.t :=
  parse_object ["href"] (fun members =>
    href ← required "href" (dec_str "href") (dict_get members "href");
    mret (Link.mk href)).

Definition parse_responsible_role : json -> gen ResponsibleRole.t :=
  parse_object ["role-id"] (fun members =>
    role_id ← required "role-id" (dec_str "role-id")
                (dict_get members "role-id");
    mret (ResponsibleRole.mk role_id)).

Definition parse_parameter : json -> gen Parameter_.t :=
  parse_object ["param-id"; "values"] (fun members =>
    param_id ← required "param-id" (dec_str "param-id")
                 (dict_get members "param-id");
    values ← required "values" (dec_list "values" (dec_str "values"))
               (dict_get members "values");
    mret (Parameter_.mk param_id values)).

Definition parse_protocol : json -> gen Protocol.t :=
  parse_object [] (fun _ => mret Protocol.mk).

Definition parse_statement : json -> gen Statement.t :=
  parse_object
    [ "statement-id"; "statement_id"; "uuid"; "description"; "props"; "links";
      "responsible-roles"; "responsible_roles"; "remarks" ]
    (fun members =>
       statement_id ← required "statement-id" (dec_str "statement-id")
                        (lookup_field members "statement-id" "statement_id");
       uuid ← with_default (uuid4 uuid4_values) (dec_uuid "uuid")
                (dict_get members "uuid");
       description ← with_default (mret "") (dec_str "description")
                       (dict_get members "description");
       props ← optional (dec_list "props" parse_property)
                 (dict_get members "props");
       links ← optional (dec_list "links" parse_link)
                 (dict_get members "links");
       responsible_roles ←
         optional (dec_list "responsible-roles" parse_responsible_role)
           (lookup_field members "responsible-roles" "responsible_roles");
       remarks ← optional (dec_str "remarks") (dict_get members "remarks");
       mret (Statement.mk statement_id uuid description props links
               responsible_roles remarks)).

Definition parse_requirement : json -> gen ImplementedRequirement.t :=
  parse_object
    [ "uuid"; "control-id"; "control_id"; "description"; "props"; "links";
      "set-parameters"; "set_parameters"; "responsible-roles";
      "responsible_roles"; "statements"; "remarks" ]
    (fun members =>
       uuid ← with_default (uuid4 uuid4_values) (dec_uuid "uuid")
                (dict_get members "uuid");
       control_id ← required "control-id" (dec_str "control-id")
                      (lookup_field members "control-id" "control_id");
       description ← required "description" (dec_str "description")
                       (dict_get members "description");
       props ← optional (dec_list "props" parse_property)
                 (dict_get members "props");
       links ← optional (dec_list "links" parse_link)
                 (dict_get members "links");
       set_parameters ←
         optional (dec_list "set-parameters" parse_parameter)
           (lookup_field members "set-parameters" "set_parameters");
       responsible_roles ←
         optional (dec_list "responsible-roles" parse_responsible_role)
           (lookup_field members "responsible-roles" "responsible_roles");
       statements ← optional (dec_list "statements" parse_statement)
                      (dict_get members "statements");
       remarks ← optional (dec_str "remarks") (dict_get members "remarks");
       mret (ImplementedRequirement.mk uuid control_id description props
               links set_parameters responsible_roles statements remarks)).

Definition parse_implementation : json -> gen ControlImplementation.t :=
  parse_object
    [ "uuid"; "source"; "description"; "props"; "links";
      "implemented-requirements"; "implemented_requirements" ]
    (fun members =>
       uuid ← with_default (uuid4 uuid4_values) (dec_uuid "uuid")
                (dict_get members "uuid");
       source ← required "source" (dec_str "source")
                  (dict_get members "source");
       description ← required "description" (dec_str "description")
                       (dict_get members "description");
       props ← optional (dec_list "props" parse_property)
                 (dict_get members "props");
       links ← optional (dec_list "links" parse_link)
                 (dict_get members "links");
       implemented_requirements ←
         with_default (mret [])
           (dec_list "implemented-requirements" parse_requirement)
           (lookup_field members "implemented-requirements"
              "implemented_requirements");
       mret (ControlImplementation.mk uuid source description props links
               implemented_requirements)).

(** The constructor of [Component] applied to the members of a parsed
    document. *)
Definition deserialize : json -> gen Component.t :=
  parse_object
    [ "uuid"; "type"; "title"; "description"; "purpose"; "props"; "links";
      "responsible-roles"; "responsible_roles"; "protocols";
      "control-implementations"; "control_implementations"; "remarks" ]
    (fun members =>
       uuid ← with_default (uuid4 uuid4_values) (dec_uuid "uuid")
                (dict_get members "uuid");
       type ← with_default (mret software) dec_type (dict_get members "type");
       title ← required "title" (dec_str "title") (dict_get members "title");
       description ← required "description" (dec_str "description")
                       (dict_get members "description");
       purpose ← optional (dec_str "purpose") (dict_get members "purpose");
       props ← optional (dec_list "props" parse_property)
                 (dict_get members "props");
       links ← optional (dec_list "links" parse_link)
                 (dict_get members "links");
       responsible_roles ←
         optional (dec_list "responsible-roles" parse_responsible_role)
           (lookup_field members "responsible-roles" "responsible_roles");
       protocols ← optional (dec_list "protocols" parse_protocol)
                     (dict_get members "protocols");
       control_implementations ←
         with_default (mret [])
           (dec_list "control-implementations" parse_implementation)
           (lookup_field members "control-implementations"
              "control_implementations");
       remarks ← optional (dec_str "remarks") (dict_get members "remarks");
       mret (Component.mk uuid type title description purpose props links
               responsible_roles protocols control_implementations remarks)).
End wire.

(** An empty list in a field of [exclude_if_false] reads back as [None]. *)
Definition drop_empty {A : Type} (v : option (list A)) : option (list A) :=
  match v with
  | Some [] => None
  | _ => v
  end.

Definition normal_requirement (r : ImplementedRequirement.t)
  : ImplementedRequirement.t :=
  ImplementedRequirement.mk (ImplementedRequirement.uuid r)
    (ImplementedRequirement.control_id r)
    (ImplementedRequirement.description r)
    (ImplementedRequirement.props r) (ImplementedRequirement.links r)
    (drop_empty (ImplementedRequirement.set_parameters r))
    (drop_empty (ImplementedRequirement.responsible_roles r))
    (drop_empty (ImplementedRequirement.statements r))
    (ImplementedRequirement.remarks r).

Definition normal_implementation (c : ControlImplementation.t)
  : ControlImplementation.t :=
  ControlImplementation.mk (ControlImplementation.uuid c)
    (ControlImplementation.source c) (ControlImplementation.description c)
    (ControlImplementation.props c) (ControlImplementation.links c)
    (normal_requirement <$> ControlImplementation.implemented_requirements c).

Definition normal (c : Component.t) : Component.t :=
  Component.mk (Component.uuid c) (Component.type c) (Component.title c)
    (Component.description c) (Component.purpose c) (Component.props c)
    (Component.links c) (Component.responsible_roles c)
    (Component.protocols c)
    (normal_implementation <$> Component.control_implementations c)
    (Component.remarks c).
End Wire.

(** A computation that draws no UUID and returns [a]. *)
Definition pure_at {A : Type} (m : gen A) (a : A) : Prop :=
  forall n, m n = Ok (a, n).


(** ** What [add_implemented_requirements] lists

    The attached components whose [controls] hold a control id, and, for a
    listed requirement, its control id with the number of its by-component
    entries. *)

Definition implementing (control_id : string)
    (components : list models.Component.t) : list models.Component.t :=
  List.filter
    (fun c => existsb (String.eqb control_id) (models.Component.controls c))
    components.

Definition requirement_shape (r : ssp.ImplementedRequirement.t) : string * nat :=
  (ssp.ImplementedRequirement.control_id r,
   length (ssp.ImplementedRequirement.by_components r)).

Definition append_by_components (new : list ssp.ByComponent.t)
    (r : ssp.ImplementedRequirement.t) : ssp.ImplementedRequirement.t :=
  ssp.ImplementedRequirement.mk (ssp.ImplementedRequirement.uuid r)
    (ssp.ImplementedRequirement.control_id r)
    (ssp.ImplementedRequirement.by_components r ++ new).

Definition valid_addresses (reqs : OscalSSP.Requirements) : Prop :=
  forall address, address ∈ OscalSSP.listed reqs ->
                  (address < length (OscalSSP.objects reqs))%nat.

(** What one tracked control contributes to the list: its requirement, once
    for every component that implements it. *)
Definition expected_entries (components : list models.Component.t)
    (control : models.Control.t) : list (string * nat) :=
  let k := length (implementing (models.Control.control_id control) components) in
  replicate k (models.Control.control_id control, k).

(** ** [component.py]: capabilities and the component definition *)

Module IncorporatesComponent.
Record t : Type := mk { component_uuid : UUID; description : string }.
End IncorporatesComponent.

Module Capability.
Record t : Type := mk {
  uuid : UUID;
  name : string;
  description : MarkupMultiLine;
  props : option (list Property_.t);
  links : option (list Link.t);
  control_implementations : option (list ControlImplementation.t);
  incorporates_components : option (list IncorporatesComponent.t)
}.
End Capability.

Module ImportComponentDefinition.
Record t : Type := mk { href : string }.
End ImportComponentDefinition.

Module ComponentDefinition.
Section definition.
(** [Metadata] and [BackMatter] are classes of [oscal.py], which is not
    among the sources; the methods below do not look inside them.
    [uuid_str] is [str] on a UUID. *)
Context {Metadata BackMatter : Type}.
Variable uuid_str : UUID -> string.

Record t : Type := mk {
  uuid : UUID;
  metadata : Metadata;
  components : option (list Component.t);
  back_matter : option BackMatter;
  capabilities : option (list Capability.t);
  import_component_definitions : option (list ImportComponentDefinition.t)
}.

Definition with_components (self : t) (v : option (list Component.t)) : t :=
  mk (uuid self) (metadata self) v (back_matter self) (capabilities self)
     (import_component_definitions self).

Definition with_capabilities (self : t) (v : option (list Capability.t)) : t :=
  mk (uuid self) (metadata self) (components self) (back_matter self) v
     (import_component_definitions self).

Definition add_component (self : t) (component : Component.t) : result t :=
  let key := uuid_str (Component.uuid component) in
  self1 ←
    (if negb (list_truthy (components self))
     then Ok (with_components self (Some []))
     else if str_in_models key (default [] (components self))
     then Raise (KeyError ("Component " +:+ key +:+
                           " already in ComponentDefinition"))
     else Ok self);
  Ok (with_components self1
        (Some (default [] (components self1) ++ [component]))).

Definition add_capability (self : t) (capability : Capability.t) : result t :=
  let key := uuid_str (Capability.uuid capability) in
  self1 ←
    (if negb (list_truthy (capabilities self))
     then Ok (with_capabilities self (Some []))
     else if str_in_models key (default [] (capabilities self))
     then Raise (KeyError ("Capability " +:+ key +:+
                           " already in ComponentDefinition"))
     else Ok self);
  Ok (with_capabilities self1
        (Some (default [] (capabilities self1) ++ [capability]))).
End definition.
End ComponentDefinition.

(** ** [catalogs/models.py]

    The model [Catalog] and its two signal receivers.  A row keeps the
    fields of the model; [file_name] is the name stored in the [FileField]
    (the empty string when no file is attached, which makes the field
    falsy).  The receivers act on the table of saved rows and on the files
    present on disk: [Catalog.objects.get(pk=...)] is a lookup in the table,
    [os.path.isfile] a membership test and [os.remove] a removal. *)

Module catalogs.
Module Catalog.
Record t : Type := mk {
  pk : option Z;
  name : string;
  file_name : string;
  created : Z;
  updated : option Z
}.
End Catalog.

Record World : Type := mkWorld {
  table : gmap Z Catalog.t;
  files : gset string
}.

Section receivers.
(** [path name] is [FieldFile.path], the location on disk of the file
    called [name]. *)
Variable path : string -> string.

Definition os_remove (p : string) (w : World) : World :=
  mkWorld (table w) (files w ∖ {[ p ]}).

Definition auto_delete_file_on_delete (instance : Catalog.t) (w : World)
  : World :=
  if negb (String.eqb (Catalog.file_name instance) "")
  then
    if bool_decide (path (Catalog.file_name instance) ∈ files w)
    then os_remove (path (Catalog.file_name instance)) w
    else w
  else w.

(** [instance.file]: the model defines [name], [file_name], [created] and
    [updated], and no attribute called [file]. *)
Definition Catalog_file (instance : Catalog.t) : result string :=
  Raise (AttributeError "'Catalog' object has no attribute 'file'").

(** [not instance.pk]: the key of an instance that was never saved is
    [None], and [0] is falsy too. *)
Definition pk_falsy (instance : Catalog.t) : bool :=
  match Catalog.pk instance with
  | None => true
  | Some k => k =? 0
  end.

(** The receiver returns [False], or [None] when it runs to its end. *)
Definition auto_delete_file_on_change (instance : Catalog.t) (w : World)
  : result (option bool * World) :=
  if pk_falsy instance then Ok (Some false, w)
  else
    match table w !! default 0 (Catalog.pk instance) with
    | None => Ok (Some false, w)
    | Some saved =>
        let old_file := Catalog.file_name saved in
        new_file ← Catalog_file instance;
        if negb (String.eqb old_file new_file)
        then
          if bool_decide (path old_file ∈ files w)
          then Ok (None, os_remove (path old_file) w)
          else Ok (None, w)
        else Ok (None, w)
    end.
End receivers.
End catalogs.

(** ** Where a by-component entry comes from

    [by_component_from ... control_id c b]: the attached component [c] lists
    the control, [b] refers to the UUID that [component_ref] holds for the
    title of [c], and the description of [b] is the description of the
    first control that the tools of [c] return for the control id. *)
Definition by_component_from {Tools : Type}
    (ComponentTools : json -> result Tools)
    (get_control_by_id : Tools -> string -> result (list json))
    (component_ref : list (string * UUID)) (control_id : string)
    (c : models.Component.t) (b : ssp.ByComponent.t) : Prop :=
  existsb (String.eqb control_id) (models.Component.controls c) = true /\
  dict_get component_ref (models.Component.title c)
  = Some (ssp.ByComponent.component_uuid b) /\
  exists tools ctrl first,
    ComponentTools (models.Component.component_json c) = Ok tools /\
    get_control_by_id tools control_id = Ok ctrl /\
    index0 ctrl = Ok first /\
    OscalSSP.control_description first = Ok (ssp.ByComponent.description b).


(** * Sample documents

    The component of [projects/tests.py] ([TEST_COMPONENT_JSON_BLOB]) and
    small variations of it, used to run the definitions. *)

Definition sample_requirement (u : UUID) (control_id description : string)
  : ImplementedRequirement.t :=
  ImplementedRequirement.mk u control_id description
    None None None None None None.

Definition sample_implementation (u : UUID) (version : string)
    (reqs : list ImplementedRequirement.t) : ControlImplementation.t :=
  ControlImplementation.mk u
    "https://raw.githubusercontent.com/NIST/catalog.json" version
    None None reqs.

Definition sample_component (title : string)
    (imps : list ControlImplementation.t) : Component.t :=
  Component.mk 0xe35accd90cc34a02855701764c7cbe0b%N software title
    "This is a really cool component." None None None None None imps None.

Definition rev5_requirements : list ImplementedRequirement.t :=
  [ sample_requirement 0x6698d7625cdc452e9f9e3074df5292c6%N "ac-2"
      "This component satisfies a.";
    sample_requirement 0x73dd3c2e54eb43c6a488dfb7c79d9413%N "at-1"
      "This component satisfies b.";
    sample_requirement 0x73dd3c2e54eb43c6a488dfb7c79d9413%N "at-2"
      "This component satisfies c.";
    sample_requirement 0x73dd3c2e54eb43c6a488dfb7c79d9413%N "at-3"
      "This component satisfies d.";
    sample_requirement 0x73dd3c2e54eb43c6a488dfb7c79d9413%N "pe-3"
      "This component satisfies e." ].


(** Three implementations: revision 4, then two tagged revision 5. *)
Definition rev4_implementation : ControlImplementation.t :=
  sample_implementation 1%N "NIST_SP80053R4"
    [ sample_requirement 11%N "ac-2" "Revision 4 narrative." ].

Definition rev5_first : ControlImplementation.t :=
  sample_implementation 2%N "NIST_SP80053R5"
    [ sample_requirement 21%N "ac-2" "First revision 5 narrative.";
      sample_requirement 22%N "ac-3" "Access enforcement." ].

Definition rev5_second : ControlImplementation.t :=
  sample_implementation 3%N "NIST_SP80053R5"
    [ sample_requirement 31%N "ac-2" "Second revision 5 narrative." ].

Definition multi_component : Component.t :=
  sample_component "Django" [ rev4_implementation; rev5_first; rev5_second ].

(** A two-member version enumeration to run [catalog_versions] with. *)
Inductive SampleVersion : Type := NIST_SP80053R4 | NIST_SP80053R5.

#[global] Instance SampleVersion_eq_dec : EqDecision SampleVersion.
Proof. solve_decision. Defined.

#[global] Instance SampleVersion_countable : Countable SampleVersion :=
  inj_countable'
    (fun v => match v with NIST_SP80053R4 => false | NIST_SP80053R5 => true end)
    (fun b : bool => if b then NIST_SP80053R5 else NIST_SP80053R4)
    (fun v => match v with NIST_SP80053R4 => eq_refl | NIST_SP80053R5 => eq_refl end).

Definition sample_Version (s : string) : result SampleVersion :=
  if String.eqb s "NIST_SP80053R4" then Ok NIST_SP80053R4
  else if String.eqb s "NIST_SP80053R5" then Ok NIST_SP80053R5
  else Raise (ValueError ("'" +:+ s +:+ "' is not a valid Version")).

Definition untagged_component : Component.t :=
  sample_component "Legacy"
    [ sample_implementation 4%N "NIST 800-53 rev 3" [];
      sample_implementation 5%N "" [] ].

(** An implemented requirement that already holds one statement, one
    parameter and one property. *)
Definition sample_statement (u : UUID) (text : string) : Statement.t :=
  Statement.mk "ac-2_smt.a" u text None None None None.

Definition requirement_with_children : ImplementedRequirement.t :=
  ImplementedRequirement.mk 41%N "ac-2" "Accounts are managed."
    (Some [ Property_.mk "provider" "no" ]) None
    (Some [ Parameter_.mk "ac-2_prm_1" ["monthly"] ]) None
    (Some [ sample_statement 42%N "First narrative." ]) None.







(** A project in the shape of the one of [ProjectSspDownload], and
    stakeholders for it. *)
Definition sample_uuid4 (n : nat) : UUID := (1000 + N.of_nat n)%N.

Definition other_uuid4 (n : nat) : UUID := (7000000 + 3 * N.of_nat n)%N.

Definition sample_uuid5 (namespace : UUID) (name : string) : UUID :=
  (namespace + N.of_nat (String.length name))%N.

Definition sample_value : StakeholderValue :=
  mkStakeholderValue (Some (mkProps "type" "internal")).

Definition sample_stakeholders : list Stakeholder :=
  [ [("Information System Security Officer (ISSO)", sample_value)];
    [("system owner", sample_value)];
    [("Information System Security Officer (isso)", sample_value)] ].

(** [TEST_COMPONENT_JSON_BLOB] of [projects/tests.py]. *)
Definition json_requirement (uuid control_id description : string) : json :=
  JObj [ ("uuid", JStr uuid); ("control-id", JStr control_id);
         ("description", JStr description) ].

Definition TEST_COMPONENT_JSON_BLOB : json :=
  JObj [ ("component-definition",
    JObj [ ("uuid", JStr "ced875ac-c5e5-44a8-b34c-8ac4f8ab87e6");
           ("metadata",
            JObj [ ("title", JStr "Cool Component");
                   ("published", JStr "2021-09-04T02:25:34.558932+00:00");
                   ("last-modified", JStr "2021-09-04T02:25:34.558936+00:00");
                   ("version", JStr "1");
                   ("oscal-version", JStr "1.0.0") ]);
           ("components", JArr [
              JObj [ ("uuid", JStr "e35accd9-0cc3-4a02-8557-01764c7cbe0b");
                     ("type", JStr "software");
                     ("title", JStr "Cool Component");
                     ("description", JStr "This is a really cool component.");
                     ("control-implementations", JArr [
                        JObj [ ("uuid", JStr "f94a7f03-6ac5-4386-98eb-fa0392f26a1c");
                               ("source", JStr "https://raw.githubusercontent.com/NIST/catalog.json");
                               ("description", JStr "NIST_SP80053R5");
                               ("implemented-requirements", JArr [
                                  json_requirement "6698d762-5cdc-452e-9f9e-3074df5292c6"
                                    "ac-2" "This component satisfies a.";
                                  json_requirement "73dd3c2e-54eb-43c6-a488-dfb7c79d9413"
                                    "at-1" "This component satisfies b.";
                                  json_requirement "73dd3c2e-54eb-43c6-a488-dfb7c79d9413"
                                    "at-2" "This component satisfies c.";
                                  json_requirement "73dd3c2e-54eb-43c6-a488-dfb7c79d9413"
                                    "at-3" "This component satisfies d.";
                                  json_requirement "73dd3c2e-54eb-43c6-a488-dfb7c79d9413"
                                    "pe-3" "This component satisfies e." ]) ] ]) ] ]) ]) ].

(** A stand-in for [ComponentTools]: the implemented requirements of the
    document whose control id is the one asked for, in document order. *)
Definition json_member (k : string) (j : json) : list json :=
  match j with
  | JObj members => option_list (dict_get members k)
  | _ => []
  end.

Definition json_items (j : json) : list json :=
  match j with
  | JArr items => items
  | _ => []
  end.

Definition sample_ComponentTools (component_json : json) : result json :=
  Ok component_json.

Definition sample_get_control_by_id (doc : json) (control_id : string)
  : result (list json) :=
  Ok (definition ← json_member "component-definition" doc;
      components ← json_member "components" definition;
      component ← json_items components;
      implementations ← json_member "control-implementations" component;
      implementation ← json_items implementations;
      requirements ← json_member "implemented-requirements" implementation;
      requirement ← json_items requirements;
      match json_member "control-id" requirement with
      | [JStr id] => if String.eqb id control_id then [requirement] else []
      | _ => []
      end).

Definition ociso : models.Component.t :=
  models.Component.mk "OCISO" "OCISO Inheritable Controls" "software" 2
    ["ac-2"; "at-1"; "at-2"; "at-3"; "pe-3"] TEST_COMPONENT_JSON_BLOB.

Definition cool : models.Component.t :=
  models.Component.mk "Cool Component"
    "Probably the coolest component you ever did see. It's magical."
    "software" 2
    ["ac-2"; "at-1"; "at-2"; "at-3"; "pe-3"] TEST_COMPONENT_JSON_BLOB.

Definition bare : models.Component.t :=
  models.Component.mk "Bare Component" "Implements nothing." "policy" 2
    [] (JObj [("component-definition", JObj [])]).

Definition ordinary_project (components : list models.Component.t)
  : models.Project.t :=
  models.Project.mk "Pretty Ordinary Project" "POP" "low"
    (models.Catalog.mk "https://raw.githubusercontent.com/NIST/catalog.json")
    components [ models.Control.mk "ac-2" ].

(** Two attached components and one tracked control: implemented by one of
    them, by both, by none. *)
Definition project_one_implements : models.Project.t :=
  ordinary_project [ociso; bare].

Definition project_both_implement : models.Project.t :=
  ordinary_project [ociso; cool].

Definition project_none_implements : models.Project.t :=
  ordinary_project [bare].

Definition sample_download (uuid4_values : nat -> UUID)
    (project : models.Project.t) : result ssp.Model.t :=
  OscalSSP.download uuid4_values sample_uuid5 sample_ComponentTools
    sample_get_control_by_id project (mkExtras (Some sample_stakeholders)).

Definition listed_requirements (document : ssp.Model.t)
  : list ssp.ImplementedRequirement.t :=
  ssp.ControlImplementation.implemented_requirements
    (ssp.SystemSecurityPlan.control_implementation
       (ssp.Model.system_security_plan document)).

(** A stand-in for [str(uuid)] and [UUID(text)]: the decimal digits of the
    integer. *)
Definition sample_uuid_str (u : UUID) : string :=
  NilEmpty.string_of_uint (N.to_uint u).

Definition sample_uuid_parse (s : string) : option UUID :=
  N.of_uint <$> NilEmpty.uint_of_string s.

(** The component of the tests with one more requirement, created with
    [statements=[]]. *)
Definition requirement_without_statements : ImplementedRequirement.t :=
  ImplementedRequirement.mk 61%N "ac-3" "Access is enforced."
    None None None None (Some []) None.

Definition component_with_empty_list : Component.t :=
  sample_component "Cool Component"
    [ sample_implementation 0xf94a7f036ac5438698ebfa0392f26a1c%N
        "NIST_SP80053R5"
        (rev5_requirements ++ [requirement_without_statements]) ].

(** A document with an empty implementation list and no [type]. *)
Definition document_with_defaults : json :=
  JObj [ ("uuid", JStr "42"); ("title", JStr "Cool Component");
         ("description", JStr "This is a really cool component.");
         ("control-implementations", JArr []) ].




(** * Properties *)

(** ** Iterator helpers *)

Lemma next_filter_Some {A : Type} (pred : A -> bool) (xs : list A) (x : A) :
  next_filter pred xs = Some x <->
  exists before after,
    xs = before ++ x :: after /\ pred x = true /\
    forall y, y ∈ before -> pred y = false.
Proof.
  induction xs as [|a xs IH]; simpl.
  - split; [discriminate|]. intros (b & a & E & _). by destruct b.
  - destruct (pred a) eqn:Ha.
    + split.
      * intros [= <-]. exists [], xs. repeat split; auto. intros y Hy.
        by apply elem_of_nil in Hy.
      * intros (b & af & E & Hx & Hb). destruct b as [|b0 b].
        -- by inversion E.
        -- inversion E; subst. rewrite Hb in Ha; [done|]. apply elem_of_cons; auto.
    + rewrite IH. split.
      * intros (b & af & -> & Hx & Hb). exists (a :: b), af.
        repeat split; auto. intros y [->|Hy]%elem_of_cons; auto.
      * intros (b & af & E & Hx & Hb). destruct b as [|b0 b].
        -- inversion E; subst. congruence.
        -- inversion E; subst. exists b, af. repeat split; auto.
           intros y Hy. apply Hb, elem_of_cons; auto.
Qed.

Lemma next_filter_None {A : Type} (pred : A -> bool) (xs : list A) :
  next_filter pred xs = None <-> forall y, y ∈ xs -> pred y = false.
Proof.
  induction xs as [|a xs IH]; simpl.
  - split; [|done]. intros _ y Hy. by apply elem_of_nil in Hy.
  - destruct (pred a) eqn:Ha.
    + split; [discriminate|]. intros Hall.
      rewrite Hall in Ha; [done|]. apply elem_of_cons; auto.
    + rewrite IH. split.
      * intros Hall y [->|Hy]%elem_of_cons; auto.
      * intros Hall y Hy. apply Hall, elem_of_cons; auto.
Qed.

Lemma str_in_models_false {A : Type} (key : string) (objs : list A) :
  str_in_models key objs = false.
Proof. induction objs as [|o objs IH]; [done|]. exact IH. Qed.

(** ** [Component.get_control_implementation] *)

(** C4.  [get_control_implementation(v)] returns, among the control
    implementations of the component in list order, the first one whose
    description is exactly [v]: it returns [imp] if and only if [imp] sits
    in the list after implementations that all carry another description
    (so with several implementations tagged [v] the first wins, without
    error), and it raises the [KeyError] naming [v] if and only if no
    implementation is tagged [v]. *)
Theorem get_control_implementation_first_match
    (self : Component.t) (v : string) :
  (forall imp,
      Component.get_control_implementation self v = Ok imp <->
      exists before after,
        Component.control_implementations self = before ++ imp :: after /\
        ControlImplementation.description imp = v /\
        forall other, other ∈ before ->
                      ControlImplementation.description other <> v) /\
  (Component.get_control_implementation self v =
     Raise (KeyError
              ("Provided catalog version is not in control implementations: '"
               +:+ v +:+ "'.")) <->
   forall imp, imp ∈ Component.control_implementations self ->
               ControlImplementation.description imp <> v).
Proof.
  unfold Component.get_control_implementation.
  set (pred := fun imp => String.eqb (ControlImplementation.description imp) v).
  split.
  - intros imp.
    destruct (next_filter pred (Component.control_implementations self))
      as [found|] eqn:E.
    + split.
      * intros [= <-]. apply next_filter_Some in E as (b & a & E1 & E2 & E3).
        exists b, a. split; [done|]. split; [by apply String.eqb_eq|].
        intros o Ho. apply String.eqb_neq. by apply E3.
      * intros (b & a & E1 & E2 & E3). f_equal.
        assert (next_filter pred (Component.control_implementations self)
                = Some imp) as E'.
        { apply next_filter_Some. exists b, a. split; [done|].
          split; [by apply String.eqb_eq|].
          intros o Ho. apply String.eqb_neq. by apply E3. }
        congruence.
    + split; [discriminate|]. intros (b & a & E1 & E2 & E3).
      rewrite next_filter_None in E. specialize (E imp).
      unfold pred in E. rewrite String.eqb_neq in E. exfalso. apply E; [|done].
      rewrite E1. apply elem_of_app. right. apply elem_of_cons. by left.
  - destruct (next_filter pred (Component.control_implementations self))
      as [found|] eqn:E.
    + split; [discriminate|]. intros Hall.
      apply next_filter_Some in E as (b & a & E1 & E2 & E3).
      exfalso. apply (Hall found).
      * rewrite E1. apply elem_of_app. right. apply elem_of_cons. by left.
      * by apply String.eqb_eq.
    + split; [|done]. intros _ imp Himp. rewrite next_filter_None in E.
      apply String.eqb_neq. by apply E.
Qed.

(** On the component with two implementations tagged revision 5 the first
    one is returned, and an unknown tag raises. *)
Lemma get_control_implementation_first_match_witness :
  Component.get_control_implementation multi_component "NIST_SP80053R5"
    = Ok rev5_first /\
  Component.get_control_implementation multi_component "NIST_SP80053R3"
    = Raise (KeyError
        "Provided catalog version is not in control implementations: 'NIST_SP80053R3'.").
Proof.
  split.
  - apply (proj1 (get_control_implementation_first_match multi_component
                    "NIST_SP80053R5")).
    exists [rev4_implementation], [rev5_second].
    split; [reflexivity|]. split; [reflexivity|].
    intros other Hin. apply list_elem_of_singleton in Hin. subst other.
    vm_compute. discriminate.
  - apply (proj2 (get_control_implementation_first_match multi_component
                    "NIST_SP80053R3")).
    intros imp Hin. unfold multi_component, sample_component in Hin. simpl in Hin.
    repeat (apply elem_of_cons in Hin as [->|Hin]; [vm_compute; discriminate|]).
    by apply elem_of_nil in Hin.
Defined.

(** ** [Component.controls] *)

Lemma all_requirements_concat (self : Component.t) :
  Component.all_requirements self =
  concat (ControlImplementation.implemented_requirements <$>
            Component.control_implementations self).
Proof.
  unfold Component.all_requirements.
  induction (Component.control_implementations self) as [|imp imps IH];
    [done|].
  simpl. f_equal. exact IH.
Qed.

(** C5.  Without a catalog version, [controls()] is the concatenation of the
    implemented requirements of all control implementations, implementation
    after implementation and, inside each, in the order of its list; nothing
    is removed, so a control id carried by two versions occurs twice.  With
    a version [v] it is the list of implemented requirements of the
    implementation that [get_control_implementation(v)] selects. *)
Theorem controls_concatenation (self : Component.t) :
  Component.controls self None =
    Ok (concat (ControlImplementation.implemented_requirements <$>
                  Component.control_implementations self)) /\
  forall v before imp after,
    v <> "" ->
    Component.control_implementations self = before ++ imp :: after ->
    ControlImplementation.description imp = v ->
    (forall other, other ∈ before ->
                   ControlImplementation.description other <> v) ->
    Component.controls self (Some v) =
      Ok (ControlImplementation.implemented_requirements imp).
Proof.
  split.
  - unfold Component.controls. simpl. by rewrite all_requirements_concat.
  - intros v before imp after Hv Hsplit Hdesc Hbefore.
    unfold Component.controls. destruct v as [|c v]; [done|]. simpl.
    assert (Component.get_control_implementation self (String c v) = Ok imp)
      as ->; [|done].
    apply get_control_implementation_first_match. eauto.
Qed.

Lemma controls_concatenation_witness :
  Component.controls multi_component None =
    Ok (ControlImplementation.implemented_requirements rev4_implementation ++
        ControlImplementation.implemented_requirements rev5_first ++
        ControlImplementation.implemented_requirements rev5_second) /\
  Component.controls multi_component (Some "NIST_SP80053R5") =
    Ok (ControlImplementation.implemented_requirements rev5_first).
Proof.
  split.
  - exact (proj1 (controls_concatenation multi_component)).
  - apply (proj2 (controls_concatenation multi_component)
             "NIST_SP80053R5" [rev4_implementation] rev5_first [rev5_second]).
    + discriminate.
    + reflexivity.
    + reflexivity.
    + intros other Hin. apply list_elem_of_singleton in Hin. subst other.
      vm_compute. discriminate.
Defined.

(** An empty version string is falsy and counts as no version at all. *)
Lemma controls_empty_version (self : Component.t) :
  Component.controls self (Some "") = Component.controls self None.
Proof. reflexivity. Qed.

(** The flattened list of the three-implementation component names [ac-2]
    three times. *)
Example controls_may_repeat_control_ids :
  (ImplementedRequirement.control_id <$> Component.all_requirements multi_component)
  = ["ac-2"; "ac-2"; "ac-3"; "ac-2"].
Proof. reflexivity. Qed.

(** ** [Component.control_ids] *)

Lemma elem_of_all_requirements (self : Component.t)
    (req : ImplementedRequirement.t) :
  req ∈ Component.all_requirements self <->
  exists imp, imp ∈ Component.control_implementations self /\
              req ∈ ControlImplementation.implemented_requirements imp.
Proof.
  unfold Component.all_requirements. rewrite list_elem_of_bind.
  split; intros (imp & H1 & H2); exists imp; tauto.
Qed.

(** C9.  [control_ids] lists every control id that occurs in an implemented
    requirement of one of the component's control implementations, and lists
    it once: the result has no duplicates whatever the implementations
    repeat.  Only membership is fixed; the order is the set's. *)
Theorem control_ids_each_once (self : Component.t) :
  NoDup (Component.control_ids self) /\
  forall control_id,
    control_id ∈ Component.control_ids self <->
    exists imp req,
      imp ∈ Component.control_implementations self /\
      req ∈ ControlImplementation.implemented_requirements imp /\
      ImplementedRequirement.control_id req = control_id.
Proof.
  unfold Component.control_ids. split; [apply NoDup_elements|].
  intros cid. rewrite elem_of_elements, elem_of_list_to_set, list_elem_of_fmap.
  split.
  - intros (req & -> & Hreq). apply elem_of_all_requirements in Hreq as (imp & ? & ?).
    by exists imp, req.
  - intros (imp & req & Himp & Hreq & <-). exists req. split; [done|].
    apply elem_of_all_requirements. by exists imp.
Qed.

Lemma control_ids_each_once_witness :
  NoDup (Component.control_ids multi_component) /\
  "ac-2" ∈ Component.control_ids multi_component.
Proof.
  split.
  - exact (proj1 (control_ids_each_once multi_component)).
  - apply (proj2 (control_ids_each_once multi_component) "ac-2").
    exists rev5_second, (sample_requirement 31%N "ac-2" "Second revision 5 narrative.").
    split; [|split; [|reflexivity]].
    + unfold multi_component, sample_component. simpl.
      do 2 apply list_elem_of_further. apply list_elem_of_here.
    + unfold rev5_second, sample_implementation. simpl. apply list_elem_of_here.
Defined.

(** ** [Component.catalog_versions] *)

Section catalog_versions_facts.
Context {Version : Type} `{Countable Version}.
Variable Catalog_Version : string -> result Version.
Hypothesis lookup_raises_ValueError :
  forall s e, Catalog_Version s = Raise e -> exists msg, e = ValueError msg.

Lemma catalog_versions_loop_spec (items : list ControlImplementation.t)
    (versions : gset Version) :
  exists out,
    Component.catalog_versions_loop Catalog_Version items versions = Ok out /\
    forall v, v ∈ out <->
      v ∈ versions \/
      exists item, item ∈ items /\
        Catalog_Version (ControlImplementation.description item) = Ok v.
Proof.
  revert versions. induction items as [|item items IH]; intros versions; simpl.
  - exists versions. split; [done|]. intros v. split; [auto|].
    intros [?|(item & Hin & _)]; [done|]. by apply elem_of_nil in Hin.
  - destruct (Catalog_Version (ControlImplementation.description item))
      as [v0|e] eqn:E.
    + destruct (IH (versions ∪ {[v0]})) as (out & -> & Hout).
      exists out. split; [done|]. intros v. rewrite Hout, elem_of_union,
        elem_of_singleton. split.
      * intros [[?| ->]|(it & Hin & Hit)]; [by left| |].
        -- right. exists item. split; [apply list_elem_of_here|done].
        -- right. exists it. split; [by apply list_elem_of_further|done].
      * intros [?|(it & [->|Hin]%elem_of_cons & Hit)]; [by left; left| |].
        -- left. right. congruence.
        -- right. by exists it.
    + destruct (lookup_raises_ValueError _ _ E) as (msg & ->).
      destruct (IH versions) as (out & -> & Hout).
      exists out. split; [done|]. intros v. rewrite Hout. split.
      * intros [?|(it & Hin & Hit)]; [by left|].
        right. exists it. split; [by apply list_elem_of_further|done].
      * intros [?|(it & [->|Hin]%elem_of_cons & Hit)]; [by left| |].
        -- congruence.
        -- right. by exists it.
Qed.

(** C10.  Provided the enumeration lookup [Catalog.Version(s)] raises nothing
    but [ValueError], [catalog_versions] returns: the implementations whose
    description is not the value of a member are passed over, the result
    holds exactly the members that some description denotes, each once, and
    it is the empty list when no description is recognized. *)
Theorem catalog_versions_skips_unrecognized (self : Component.t) :
  exists versions,
    Component.catalog_versions Catalog_Version self = Ok versions /\
    NoDup versions /\
    (forall v, v ∈ versions <->
       exists item, item ∈ Component.control_implementations self /\
         Catalog_Version (ControlImplementation.description item) = Ok v) /\
    ((forall item, item ∈ Component.control_implementations self ->
        is_ok (Catalog_Version (ControlImplementation.description item)) = false) ->
     versions = []).
Proof.
  unfold Component.catalog_versions.
  destruct (catalog_versions_loop_spec (Component.control_implementations self) ∅)
    as (out & -> & Hout).
  exists (elements out). simpl. split; [done|]. split; [apply NoDup_elements|].
  assert (forall v, v ∈ elements out <->
            exists item, item ∈ Component.control_implementations self /\
              Catalog_Version (ControlImplementation.description item) = Ok v)
    as Hmem.
  { intros v. rewrite elem_of_elements, Hout. split; [|by right].
    intros [Hv|?]; [|done]. by apply not_elem_of_empty in Hv. }
  split; [exact Hmem|].
  intros Hnone. destruct (elements out) as [|v vs] eqn:E; [done|].
  destruct (proj1 (Hmem v) (list_elem_of_here _ _)) as (item & Hin & Hv).
  specialize (Hnone item Hin). by rewrite Hv in Hnone.
Qed.
End catalog_versions_facts.

Lemma sample_Version_raises_ValueError (s : string) (e : exn) :
  sample_Version s = Raise e -> exists msg, e = ValueError msg.
Proof.
  unfold sample_Version.
  destruct (String.eqb s "NIST_SP80053R4"); [discriminate|].
  destruct (String.eqb s "NIST_SP80053R5"); [discriminate|].
  intros [= <-]. eauto.
Qed.

(** Both descriptions of the legacy component are unknown to the
    enumeration: the property yields the empty list. *)
Lemma catalog_versions_skips_unrecognized_witness :
  Component.catalog_versions sample_Version untagged_component = Ok [].
Proof.
  destruct (catalog_versions_skips_unrecognized sample_Version
              sample_Version_raises_ValueError untagged_component)
    as (versions & Hrun & _ & _ & Hempty).
  rewrite Hrun. f_equal. apply Hempty.
  intros item Hin. unfold untagged_component, sample_component in Hin.
  simpl in Hin.
  repeat (apply elem_of_cons in Hin as [->|Hin]; [reflexivity|]).
  by apply elem_of_nil in Hin.
Defined.

Example catalog_versions_deduplicates :
  Component.catalog_versions sample_Version multi_component
  = Ok [NIST_SP80053R4; NIST_SP80053R5] \/
  Component.catalog_versions sample_Version multi_component
  = Ok [NIST_SP80053R5; NIST_SP80053R4].
Proof. vm_compute. auto. Qed.

(** ** Mutators of [ImplementedRequirement] *)

(** The membership test compares a key with model instances and is never
    true, so the three mutators append whatever they are given. *)
Lemma add_statement_appends (self : ImplementedRequirement.t)
    (statement : Statement.t) :
  ImplementedRequirement.add_statement self statement =
  Ok (ImplementedRequirement.with_statements self
        (Some (default [] (ImplementedRequirement.statements self)
               ++ [statement]))).
Proof.
  unfold ImplementedRequirement.add_statement.
  rewrite str_in_models_false.
  destruct self as [? ? ? ? ? ? ? [[|s0 ss]|] ?]; reflexivity.
Qed.

Lemma add_parameter_appends (self : ImplementedRequirement.t)
    (set_parameter : Parameter_.t) :
  ImplementedRequirement.add_parameter self set_parameter =
  Ok (ImplementedRequirement.with_set_parameters self
        (Some (default [] (ImplementedRequirement.set_parameters self)
               ++ [set_parameter]))).
Proof.
  unfold ImplementedRequirement.add_parameter.
  rewrite str_in_models_false.
  destruct self as [? ? ? ? ? [[|s0 ss]|] ? ? ?]; reflexivity.
Qed.

Lemma add_property_appends (self : ImplementedRequirement.t)
    (property : Property_.t) :
  ImplementedRequirement.add_property self property =
  Ok (ImplementedRequirement.with_props self
        (Some (default [] (ImplementedRequirement.props self) ++ [property]))).
Proof.
  unfold ImplementedRequirement.add_property.
  rewrite str_in_models_false.
  destruct self as [? ? ? [[|s0 ss]|] ? ? ? ? ?]; reflexivity.
Qed.

(** C2 (the code departs from it).  On a requirement that already holds the
    statement [ac-2_smt.a], the parameter [ac-2_prm_1] and the property
    [provider], adding a second statement, parameter or property with the
    same key raises nothing: each mutator returns the requirement with both
    entries attached. *)
Theorem add_duplicate_key_is_accepted :
  ImplementedRequirement.statements <$>
    ImplementedRequirement.add_statement requirement_with_children
      (sample_statement 43%N "Second narrative.")
  = Ok (Some [ sample_statement 42%N "First narrative.";
               sample_statement 43%N "Second narrative." ]) /\
  ImplementedRequirement.set_parameters <$>
    ImplementedRequirement.add_parameter requirement_with_children
      (Parameter_.mk "ac-2_prm_1" ["weekly"])
  = Ok (Some [ Parameter_.mk "ac-2_prm_1" ["monthly"];
               Parameter_.mk "ac-2_prm_1" ["weekly"] ]) /\
  ImplementedRequirement.props <$>
    ImplementedRequirement.add_property requirement_with_children
      (Property_.mk "provider" "yes")
  = Ok (Some [ Property_.mk "provider" "no"; Property_.mk "provider" "yes" ]).
Proof. repeat split. Qed.

(** ** [Component.get_control] and the aggregation engine *)


Lemma get_control_ok_declares (self : Component.t)
    (control_id version : string) :
  is_ok (Component.get_control self control_id version) =
  Aggregation.declares self control_id version.
Proof.
  unfold Component.get_control, Component.get_control_implementation,
    Aggregation.declares.
  destruct (next_filter _ (Component.control_implementations self)) as [imp|];
    simpl; [|done].
  induction (ControlImplementation.implemented_requirements imp)
    as [|req reqs IH]; simpl; [done|].
  destruct (String.eqb (ImplementedRequirement.control_id req) control_id);
    simpl; [done|exact IH].
Qed.


Lemma dict_get_app_fresh {V : Type} (d1 d2 : list (string * V)) (k : string) :
  k ∉ d1.*1 -> dict_get (d1 ++ d2) k = dict_get d2 k.
Proof.
  induction d1 as [|[k' v'] d1 IH]; simpl; [done|].
  intros Hk. apply not_elem_of_cons in Hk as [Hne Hk].
  destruct (String.eqb k' k) eqn:E; [|by apply IH].
  apply String.eqb_eq in E. congruence.
Qed.

Lemma inherited_entry_keys (control_id version : string)
    (cs : list Aggregation.Attached) :
  (omap (inherited_entry control_id version) cs).*1 =
  Aggregation.title <$>
    List.filter (Aggregation.inherits control_id version) cs.
Proof.
  induction cs as [|c cs IH]; simpl; [done|].
  unfold inherited_entry at 1, Aggregation.inherits at 1.
  rewrite <- get_control_ok_declares.
  destruct (Aggregation.private c); simpl; [exact IH|].
  destruct (Component.get_control _ _ _); simpl; [by f_equal|exact IH].
Qed.

Lemma elem_of_inherited_entry_keys (control_id version : string)
    (cs : list Aggregation.Attached) (k : string) :
  k ∈ (omap (inherited_entry control_id version) cs).*1 ->
  k ∈ Aggregation.title <$> cs.
Proof.
  rewrite inherited_entry_keys. rewrite !list_elem_of_fmap.
  intros (c & -> & Hc). exists c. split; [done|].
  apply list_elem_of_In. apply list_elem_of_In in Hc.
  by apply List.filter_In in Hc as [? _].
Qed.

Lemma dict_get_set {V : Type} (d : list (string * V)) (k k' : string) (v : V) :
  dict_get (dict_set d k v) k'
  = if String.eqb k k' then Some v else dict_get d k'.
Proof.
  induction d as [|[k0 v0] d IH]; simpl; [done|].
  destruct (String.eqb k0 k) eqn:E0; simpl.
  - apply String.eqb_eq in E0. subst k0.
    by destruct (String.eqb k k').
  - rewrite IH. destruct (String.eqb k0 k') eqn:E1; [|done].
    apply String.eqb_eq in E1. subst k0.
    by rewrite (String.eqb_sym k k'), E0.
Qed.











(** ** Strings *)

Lemma append_cons (c : ascii) (s x : string) :
  String c s +:+ x = String c (s +:+ x).
Proof. reflexivity. Qed.

Lemma append_empty (x : string) : "" +:+ x = x.
Proof. reflexivity. Qed.

Lemma chars_cons (c : ascii) (s : string) : chars (String c s) = c :: chars s.
Proof. reflexivity. Qed.

Lemma chars_append (s x : string) : chars (s +:+ x) = chars s ++ chars x.
Proof.
  induction s as [|c s IH]; [done|].
  rewrite append_cons, !chars_cons, IH. done.
Qed.

Lemma append_assoc (a b c : string) : (a +:+ b) +:+ c = a +:+ b +:+ c.
Proof.
  induction a as [|x a IH]; [done|].
  change (String x ((a +:+ b) +:+ c) = String x (a +:+ b +:+ c)).
  by rewrite IH.
Qed.

Lemma occurs_cons (sub s : string) (c : ascii) :
  occurs sub s -> occurs sub (String c s).
Proof. intros (before & after & ->). by exists (String c before), after. Qed.

Lemma occurs_chars (sub s : string) (c : ascii) :
  occurs sub s -> c ∈ chars sub -> c ∈ chars s.
Proof.
  intros (before & after & ->) Hc. rewrite !chars_append, !elem_of_app. auto.
Qed.

Lemma ascii_eqb_false (c d : ascii) : c <> d -> Ascii.eqb c d = false.
Proof. intros Hne. by apply Ascii.eqb_neq. Qed.

Lemma lazy_group_closed (group rest : string) :
  ")"%char ∉ chars group -> "010"%char ∉ chars group ->
  lazy_group (group +:+ ")" +:+ rest) = Some group.
Proof.
  induction group as [|c group IH]; intros Hclose Hnl; [done|].
  rewrite chars_cons in Hclose, Hnl.
  apply not_elem_of_cons in Hclose as [Hc1 Hclose].
  apply not_elem_of_cons in Hnl as [Hc2 Hnl].
  rewrite append_cons. simpl.
  rewrite (ascii_eqb_false c ")"), (ascii_eqb_false c "010") by done.
  by rewrite IH.
Qed.

Lemma re_search_group_first (before after group : string) :
  "("%char ∉ chars before ->
  lazy_group after = Some group ->
  re_search_group (before +:+ "(" +:+ after) = Some group.
Proof.
  induction before as [|c before IH]; intros Hopen Hgroup.
  - rewrite append_empty. change ("(" +:+ after) with (String "(" after).
    simpl. by rewrite Hgroup.
  - rewrite chars_cons in Hopen. apply not_elem_of_cons in Hopen as [Hc Hopen].
    rewrite append_cons. simpl. rewrite (ascii_eqb_false c "(") by done.
    by apply IH.
Qed.

Lemma re_search_group_none (s : string) :
  "("%char ∉ chars s -> re_search_group s = None.
Proof.
  induction s as [|c s IH]; intros Hopen; [done|].
  rewrite chars_cons in Hopen. apply not_elem_of_cons in Hopen as [Hc Hopen].
  simpl. rewrite (ascii_eqb_false c "(") by done. by apply IH.
Qed.

Lemma lazy_group_sound (s group : string) :
  lazy_group s = Some group -> exists after, s = group +:+ ")" +:+ after.
Proof.
  revert group. induction s as [|c s IH]; intros group; [discriminate|].
  simpl. destruct (Ascii.eqb c ")") eqn:Hc.
  - apply Ascii.eqb_eq in Hc. subst c. intros [= <-]. by exists s.
  - destruct (Ascii.eqb c "010"); [discriminate|].
    destruct (lazy_group s) as [g|]; [|discriminate].
    intros [= <-]. destruct (IH g eq_refl) as [after ->]. by exists after.
Qed.

Lemma re_search_group_sound (s group : string) :
  re_search_group s = Some group -> occurs ("(" +:+ group +:+ ")") s.
Proof.
  induction s as [|c s IH]; [discriminate|]. simpl.
  destruct (Ascii.eqb c "(") eqn:Hc.
  - apply Ascii.eqb_eq in Hc. subst c.
    destruct (lazy_group s) as [g|] eqn:Hg.
    + intros [= <-]. apply lazy_group_sound in Hg as [after ->].
      exists "", after. rewrite append_empty, append_assoc.
      change (("(" +:+ g) +:+ ")" +:+ after)
        with (String "(" (g +:+ ")" +:+ after)).
      by rewrite append_assoc.
    + intros Hs. by apply occurs_cons, IH.
  - intros Hs. by apply occurs_cons, IH.
Qed.

Lemma re_search_group_absent (s : string) :
  (forall group, ~ occurs ("(" +:+ group +:+ ")") s) ->
  re_search_group s = None.
Proof.
  intros Hnone. destruct (re_search_group s) as [group|] eqn:E; [|done].
  by apply re_search_group_sound, Hnone in E.
Qed.

Lemma prefix_space_paren (c : ascii) (s : string) :
  String.prefix " (" (String c s) = true ->
  c = " "%char /\ exists s', s = String "(" s'.
Proof.
  cbn [String.prefix].
  destruct (ascii_dec " " c) as [<-|]; [|discriminate].
  destruct s as [|d s]; cbn [String.prefix]; [discriminate|].
  destruct (ascii_dec "(" d) as [<-|]; [|discriminate]. eauto.
Qed.

Lemma find_from_first (title rest : string) (i : Z) :
  ~ occurs " (" title ->
  Str.find_from " (" (title +:+ " (" +:+ rest) i
  = i + Z.of_nat (String.length title).
Proof.
  revert i. induction title as [|c title IH]; intros i Hfirst.
  - rewrite append_empty.
    change (" (" +:+ rest) with (String " " (String "(" rest)).
    destruct rest; simpl; lia.
  - rewrite append_cons.
    assert (String.prefix " (" (String c (title +:+ " (" +:+ rest)) = false)
      as Hprefix.
    { destruct (String.prefix " (" (String c (title +:+ " (" +:+ rest)))
        eqn:E; [|done].
      apply prefix_space_paren in E as [-> [s' E]].
      destruct title as [|d title].
      - rewrite append_empty in E. discriminate.
      - rewrite append_cons in E. injection E as -> _.
        exfalso. apply Hfirst. by exists "", title. }
    unfold Str.find_from; fold Str.find_from. rewrite Hprefix.
    rewrite IH; [simpl String.length; lia|].
    intros Hocc. by apply Hfirst, occurs_cons.
Qed.

Lemma take_append (s x : string) : Str.take (String.length s) (s +:+ x) = s.
Proof.
  induction s as [|c s IH]; simpl.
  - by destruct x.
  - by rewrite IH.
Qed.

Lemma slice_to_find (title rest : string) :
  ~ occurs " (" title ->
  Str.slice_to (title +:+ " (" +:+ rest)
    (Str.find (title +:+ " (" +:+ rest) " (") = title.
Proof.
  intros Hfirst. unfold Str.find. rewrite find_from_first by done.
  unfold Str.slice_to.
  destruct (Z.ltb_spec (0 + Z.of_nat (String.length title)) 0) as [?|_]; [lia|].
  replace (Z.to_nat (0 + Z.of_nat (String.length title)))
    with (String.length title) by lia.
  apply take_append.
Qed.

(** Words *)

Lemma split_letter_letter (c d : ascii) (rest : string) :
  Str.isspace c = false -> Str.isspace d = false ->
  Str.split (String c (String d rest)) =
  match Str.split (String d rest) with
  | word :: words => String c word :: words
  | [] => [String c ""]
  end.
Proof.
  intros Hc Hd.
  transitivity
    (if Str.isspace c then Str.split (String d rest)
     else if Str.isspace d then String c "" :: Str.split (String d rest)
     else match Str.split (String d rest) with
          | word :: words => String c word :: words
          | [] => [String c ""]
          end); [reflexivity|].
  by rewrite Hc, Hd.
Qed.

Lemma split_space (d : ascii) (rest : string) :
  Str.isspace d = true -> Str.split (String d rest) = Str.split rest.
Proof.
  intros Hd.
  transitivity (if Str.isspace d then Str.split rest else Str.split (String d rest)).
  - destruct rest; simpl; by rewrite Hd.
  - by rewrite Hd.
Qed.

Lemma split_letter_space (c d : ascii) (rest : string) :
  Str.isspace c = false -> Str.isspace d = true ->
  Str.split (String c (String d rest)) = String c "" :: Str.split rest.
Proof.
  intros Hc Hd.
  transitivity
    (if Str.isspace c then Str.split (String d rest)
     else if Str.isspace d then String c "" :: Str.split (String d rest)
     else match Str.split (String d rest) with
          | word :: words => String c word :: words
          | [] => [String c ""]
          end); [reflexivity|].
  by rewrite Hc, Hd, split_space.
Qed.

Lemma split_letter (c : ascii) :
  Str.isspace c = false -> Str.split (String c "") = [String c ""].
Proof. intros Hc. simpl. by rewrite Hc. Qed.

Lemma split_blank (gap : string) : blank gap -> Str.split gap = [].
Proof.
  induction gap as [|c gap IH]; intros Hgap; [done|].
  rewrite split_space.
  - apply IH. intros d Hd. apply Hgap. rewrite chars_cons.
    by apply list_elem_of_further.
  - apply Hgap. rewrite chars_cons. apply list_elem_of_here.
Qed.

Lemma split_gap (gap s : string) :
  blank gap -> Str.split (gap +:+ s) = Str.split s.
Proof.
  induction gap as [|c gap IH]; intros Hgap; [done|].
  rewrite append_cons, split_space.
  - apply IH. intros d Hd. apply Hgap. rewrite chars_cons.
    by apply list_elem_of_further.
  - apply Hgap. rewrite chars_cons. apply list_elem_of_here.
Qed.

Lemma split_word_rest (w rest : string) :
  word w ->
  (rest = "" \/ exists c rest', rest = String c rest' /\ Str.isspace c = true) ->
  Str.split (w +:+ rest) = w :: Str.split rest.
Proof.
  intros [Hne Hchars] Hrest. destruct w as [|c tail]; [done|]. clear Hne.
  revert c Hchars. induction tail as [|d tail IH]; intros c Hchars.
  - rewrite append_cons, append_empty.
    assert (Str.isspace c = false) as Hc by apply Hchars, list_elem_of_here.
    destruct Hrest as [->|(e & rest' & -> & He)].
    + by rewrite split_letter.
    + rewrite split_letter_space by done. by rewrite (split_space e).
  - change (String c (String d tail) +:+ rest)
      with (String c (String d (tail +:+ rest))).
    rewrite split_letter_letter.
    + assert (Str.split (String d tail +:+ rest)
              = String d tail :: Str.split rest) as IH'.
      { apply IH. intros c' Hin. apply Hchars. rewrite chars_cons.
        by apply list_elem_of_further. }
      rewrite append_cons in IH'. by rewrite IH'.
    + apply Hchars, list_elem_of_here.
    + apply Hchars. rewrite !chars_cons.
      apply list_elem_of_further, list_elem_of_here.
Qed.

(** [split] returns the words of a string. *)
Lemma words_split (s : string) (ws : list string) :
  words s ws -> Str.split s = ws.
Proof.
  induction 1 as [gap Hgap|gap w rest ws Hgap Hw Hrest _ IH].
  - by apply split_blank.
  - rewrite split_gap by done. rewrite split_word_rest by done.
    by rewrite IH.
Qed.

Lemma initials_first_letters (ws : list string) (letters : list ascii) :
  Forall2 (fun w letter => exists tail, w = String letter tail) ws letters ->
  Str.initials ws = string_of_list_ascii letters.
Proof.
  induction 1 as [|w c ws letters [tail ->] _ IH]; [done|].
  simpl. by rewrite IH.
Qed.

(** The group that the regular expression captures is the first
    parenthesised group of the string. *)
Lemma lazy_group_group (s group : string) :
  lazy_group s = Some group ->
  exists after, s = group +:+ ")" +:+ after /\
                (")"%char ∉ chars group) /\ ("010"%char ∉ chars group).
Proof.
  revert group. induction s as [|c s IH]; intros group; [discriminate|].
  simpl. destruct (Ascii.eqb c ")") eqn:Hc.
  - apply Ascii.eqb_eq in Hc. subst c. intros [= <-]. exists s.
    split; [done|]. split; apply not_elem_of_nil.
  - destruct (Ascii.eqb c "010") eqn:Hn; [discriminate|].
    destruct (lazy_group s) as [g|]; [|discriminate].
    intros [= <-]. destruct (IH g eq_refl) as (after & -> & H1 & H2).
    exists after. split; [done|]. rewrite chars_cons.
    apply Ascii.eqb_neq in Hc, Hn.
    split; apply not_elem_of_cons; split; congruence.
Qed.

Lemma group_at_cons (c : ascii) (s before group after : string) :
  group_at (String c s) before group after ->
  (before = "" /\ c = "("%char /\ lazy_group s = Some group) \/
  (exists before', before = String c before' /\
                   group_at s before' group after).
Proof.
  intros (Hkey & Hclose & Hnl). destruct before as [|c' before'].
  - left. rewrite append_empty in Hkey.
    change ("(" +:+ group +:+ ")" +:+ after)
      with (String "(" (group +:+ ")" +:+ after)) in Hkey.
    injection Hkey as -> ->. split; [done|]. split; [done|].
    by apply lazy_group_closed.
  - right. rewrite append_cons in Hkey. injection Hkey as <- ->.
    exists before'. split; [done|]. by split.
Qed.

Lemma re_search_group_spec (s : string) :
  match re_search_group s with
  | Some group => first_group s group
  | None => forall before group after, ~ group_at s before group after
  end.
Proof.
  induction s as [|c s IH].
  - intros before group after [Hkey _]. by destruct before.
  - cbn [re_search_group].
    assert (forall group, re_search_group s = Some group ->
              (c = "("%char -> lazy_group s = None) ->
              first_group (String c s) group) as Hlater.
    { intros group Hs Hhere. rewrite Hs in IH.
      destruct IH as (before & after & (Hkey & Hclose & Hnl) & Hmin).
      exists (String c before), after. split.
      - split; [by rewrite append_cons, <- Hkey|done].
      - intros b g a [(-> & -> & Hg)|(b' & -> & Hat)]%group_at_cons.
        + rewrite Hhere in Hg; done.
        + simpl. apply le_n_S. by apply (Hmin b' g a). }
    assert (re_search_group s = None ->
              (c = "("%char -> lazy_group s = None) ->
              forall before group after,
                ~ group_at (String c s) before group after) as Hnone.
    { intros Hs Hhere b g a [(-> & -> & Hg)|(b' & -> & Hat)]%group_at_cons.
      - rewrite Hhere in Hg; done.
      - rewrite Hs in IH. by apply (IH b' g a). }
    destruct (Ascii.eqb c "(") eqn:Hc.
    + apply Ascii.eqb_eq in Hc. subst c.
      destruct (lazy_group s) as [group|] eqn:Hg.
      * apply lazy_group_group in Hg as (after & -> & Hclose & Hnl).
        exists "", after. split; [by split|]. intros b g a _. simpl. lia.
      * destruct (re_search_group s) as [group|] eqn:Hs;
          [apply Hlater|apply Hnone]; done.
    + apply Ascii.eqb_neq in Hc.
      destruct (re_search_group s) as [group|] eqn:Hs;
        [apply Hlater|apply Hnone]; done.
Qed.

Lemma append_inj_length (a b x y : string) :
  a +:+ x = b +:+ y -> String.length a = String.length b -> a = b /\ x = y.
Proof.
  revert b. induction a as [|c a IH]; intros [|d b]; try discriminate.
  - by rewrite !append_empty.
  - rewrite !append_cons. intros [= -> H] [= Hlen].
    destruct (IH b H Hlen) as [-> ->]. done.
Qed.

Lemma re_search_group_first_group (key group : string) :
  re_search_group key = Some group <-> first_group key group.
Proof.
  split.
  - intros H. pose proof (re_search_group_spec key) as Hspec.
    by rewrite H in Hspec.
  - intros (before & after & Hat & Hmin).
    pose proof (re_search_group_spec key) as Hspec.
    destruct (re_search_group key) as [group'|]; [|by apply Hspec in Hat].
    destruct Hspec as (before' & after' & Hat' & Hmin').
    pose proof (Hmin _ _ _ Hat') as H1. pose proof (Hmin' _ _ _ Hat) as H2.
    destruct Hat as (Hkey & Hclose & Hnl), Hat' as (Hkey' & Hclose' & Hnl').
    rewrite Hkey in Hkey'.
    apply append_inj_length in Hkey' as [_ Hrest]; [|lia].
    change ("(" +:+ group +:+ ")" +:+ after)
      with (String "(" (group +:+ ")" +:+ after)) in Hrest.
    change ("(" +:+ group' +:+ ")" +:+ after')
      with (String "(" (group' +:+ ")" +:+ after')) in Hrest.
    injection Hrest as Hrest.
    pose proof (lazy_group_closed group after Hclose Hnl) as Hg.
    rewrite Hrest, (lazy_group_closed group' after' Hclose' Hnl') in Hg.
    congruence.
Qed.

Lemma re_search_group_no_group (key : string) :
  re_search_group key = None <->
  forall before group after, ~ group_at key before group after.
Proof.
  pose proof (re_search_group_spec key) as Hspec. split.
  - intros H. by rewrite H in Hspec.
  - intros Hnone. destruct (re_search_group key) as [group|]; [|done].
    destruct Hspec as (before & after & Hat & _). by apply Hnone in Hat.
Qed.

Lemma append_space_paren (s x : string) :
  s +:+ " (" +:+ x = (s +:+ " ") +:+ "(" +:+ x.
Proof.
  induction s as [|c s IH]; [done|].
  change (String c (s +:+ " (" +:+ x) = String c ((s +:+ " ") +:+ "(" +:+ x)).
  by rewrite IH.
Qed.

(** ** [OscalSSP.set_roles] *)

Lemma stakeholder_entry_shape (key title short_name : string) :
  key_shape key title short_name ->
  OscalSSP.stakeholder_entry key = (title, short_name).
Proof.
  intros [k t rest g Hgroup Htitle Hfirst | k ws letters Hnone Hwords Hletters];
    unfold OscalSSP.stakeholder_entry.
  - apply re_search_group_first_group in Hgroup. rewrite Hgroup.
    rewrite Htitle. by rewrite slice_to_find.
  - apply re_search_group_no_group in Hnone. rewrite Hnone.
    by rewrite (words_split _ _ Hwords), (initials_first_letters _ _ Hletters).
Qed.

(** Deciding the side conditions of a shape on a given key. *)

Lemma find_absent (sub s : string) (i : Z) :
  0 <= i -> Str.find_from sub s i = -1 -> ~ occurs sub s.
Proof.
  intros Hi Hfind (before & after & ->). revert i Hi Hfind.
  induction before as [|c before IH]; intros i Hi.
  - rewrite append_empty. unfold Str.find_from.
    assert (String.prefix sub (sub +:+ after) = true) as Hprefix.
    { clear. induction sub as [|x sub IH]; [by destruct after|].
      rewrite append_cons. cbn [String.prefix].
      destruct (ascii_dec x x); [exact IH|done]. }
    destruct (sub +:+ after); rewrite Hprefix; lia.
  - rewrite append_cons. unfold Str.find_from; fold Str.find_from.
    destruct (String.prefix sub _); [lia|]. apply IH. lia.
Qed.

Lemma items_loop_cases (items : Stakeholder) (title short_name : string)
    (properties : option Property_.t) :
  has_props items ->
  (items = [] /\
   OscalSSP.items_loop items (title, short_name, properties)
   = Ok (title, short_name, properties)) \/
  (exists key value props earlier,
     items = earlier ++ [(key, value)] /\
     get_props value = Some props /\
     OscalSSP.items_loop items (title, short_name, properties)
     = Ok (fst (OscalSSP.stakeholder_entry key),
           snd (OscalSSP.stakeholder_entry key),
           Some (Property_.mk (props_name props) (props_value props)))).
Proof.
  revert title short_name properties.
  induction items as [|[key value] items IH];
    intros title short_name properties Hall.
  - by left.
  - right. apply Forall_cons in Hall as [[props Hprops] Hall].
    simpl in Hprops. cbn [OscalSSP.items_loop].
    destruct (OscalSSP.stakeholder_entry key) as [t s] eqn:E. rewrite Hprops.
    destruct (IH t s (Some (Property_.mk (props_name props) (props_value props)))
                Hall)
      as [[-> Hrun]|(key' & value' & props' & earlier & -> & Hprops' & Hrun)].
    + exists key, value, props, []. split; [done|]. split; [done|].
      rewrite Hrun. by rewrite E.
    + exists key', value', props', ((key, value) :: earlier).
      split; [done|]. split; [done|]. exact Hrun.
Qed.

Lemma items_loop_Ok (items : Stakeholder)
    (vars out : string * string * option Property_.t) :
  OscalSSP.items_loop items vars = Ok out -> has_props items.
Proof.
  revert vars. induction items as [|[key value] items IH]; intros vars.
  - intros _. constructor.
  - cbn [OscalSSP.items_loop].
    destruct (OscalSSP.stakeholder_entry key) as [t s].
    destruct (get_props value) as [props|] eqn:E; [|discriminate].
    intros Hrun. constructor; [simpl; by rewrite E|by apply IH in Hrun].
Qed.

Lemma items_loop_title (items : Stakeholder)
    (properties properties' : option Property_.t) (title short_name : string) :
  OscalSSP.items_loop items ("", "", properties)
  = Ok (title, short_name, properties') ->
  title = stakeholder_title items.
Proof.
  intros Hrun. pose proof (items_loop_Ok _ _ _ Hrun) as Hall.
  unfold stakeholder_title.
  destruct (items_loop_cases items "" "" properties Hall)
    as [[-> E]|(key & value & props & earlier & -> & _ & E)];
    rewrite E in Hrun; injection Hrun as <- _ _; [done|].
  by rewrite last_snoc.
Qed.

Lemma items_loop_properties (items : Stakeholder)
    (properties : option Property_.t) (title short_name : string)
    (properties' : option Property_.t) :
  OscalSSP.items_loop items ("", "", properties)
  = Ok (title, short_name, properties') ->
  title <> "" -> exists p, properties' = Some p.
Proof.
  intros Hrun. pose proof (items_loop_Ok _ _ _ Hrun) as Hall.
  destruct (items_loop_cases items "" "" properties Hall)
    as [[-> E]|(key & value & props & earlier & -> & _ & E)];
    rewrite E in Hrun.
  - injection Hrun as <- _ _. done.
  - injection Hrun as _ _ <-. eauto.
Qed.

(** One turn of the loop of [set_roles]. *)
Lemma stakeholders_loop_cons (uuid4_values : nat -> UUID)
    (stakeholder : Stakeholder) (rest : list Stakeholder)
    (st : OscalSSP.Roles) (n : nat) (title short_name : string)
    (properties : option Property_.t) :
  OscalSSP.items_loop stakeholder ("", "", OscalSSP.properties st)
  = Ok (title, short_name, properties) ->
  OscalSSP.stakeholders_loop uuid4_values (stakeholder :: rest) st n =
  (if negb (String.eqb title "") &&
      negb (existsb (String.eqb (OscalSSP.role_id_of title)) (OscalSSP.ids st))
   then
     props ← lift (match properties with
                   | Some p => Ok [p]
                   | None => Raise (SchemaViolation "props")
                   end);
     uuid ← uuid4 uuid4_values;
     OscalSSP.stakeholders_loop uuid4_values rest
       (OscalSSP.mkRoles (OscalSSP.ids st ++ [OscalSSP.role_id_of title])
          properties
          (OscalSSP.roles_users st ++
             [ssp.User.mk uuid [OscalSSP.role_id_of title] title short_name
                props])
          (OscalSSP.roles st ++
             [ssp.Role.mk (OscalSSP.role_id_of title) (Str.strip title)
                (Str.upper short_name)]))
   else OscalSSP.stakeholders_loop uuid4_values rest
          (OscalSSP.mkRoles (OscalSSP.ids st) properties
             (OscalSSP.roles_users st) (OscalSSP.roles st))) n.
Proof.
  intros E. cbn [OscalSSP.stakeholders_loop].
  unfold mbind at 1, gen_bind, lift. rewrite E. reflexivity.
Qed.

Lemma stakeholders_loop_raise (uuid4_values : nat -> UUID)
    (stakeholder : Stakeholder) (rest : list Stakeholder)
    (st : OscalSSP.Roles) (n : nat) (e : exn) :
  OscalSSP.items_loop stakeholder ("", "", OscalSSP.properties st) = Raise e ->
  OscalSSP.stakeholders_loop uuid4_values (stakeholder :: rest) st n = Raise e.
Proof.
  intros E. cbn [OscalSSP.stakeholders_loop].
  unfold mbind at 1, gen_bind, lift. by rewrite E.
Qed.

Lemma items_loop_runs (items : Stakeholder)
    (vars : string * string * option Property_.t) :
  has_props items -> exists out, OscalSSP.items_loop items vars = Ok out.
Proof.
  intros Hall. destruct vars as [[t s] p].
  destruct (items_loop_cases items t s p Hall)
    as [[_ E]|(key & value & props & earlier & _ & _ & E)]; eauto.
Qed.

(** On stakeholders whose values all hold props, the loop of [set_roles]
    does not raise, only appends roles, and records no identifier but
    those of the stakeholders it goes through. *)
Lemma stakeholders_loop_spec (uuid4_values : nat -> UUID)
    (stakeholders : list Stakeholder) (st : OscalSSP.Roles) (n : nat) :
  Forall has_props stakeholders ->
  exists st' n',
    OscalSSP.stakeholders_loop uuid4_values stakeholders st n = Ok (st', n') /\
    (exists more, OscalSSP.roles st' = OscalSSP.roles st ++ more) /\
    (forall id, id ∈ OscalSSP.ids st' ->
       id ∈ OscalSSP.ids st \/
       exists earlier, earlier ∈ stakeholders /\
         OscalSSP.role_id_of (stakeholder_title earlier) = id).
Proof.
  revert st n. induction stakeholders as [|stakeholder rest IH];
    intros st n Hall.
  - exists st, n. split; [done|]. split; [by exists []; rewrite app_nil_r|]. auto.
  - apply Forall_cons in Hall as [Hprops Hall].
    destruct (items_loop_runs stakeholder ("", "", OscalSSP.properties st) Hprops)
      as [[[title short_name] properties] E].
    rewrite (stakeholders_loop_cons _ _ _ _ _ _ _ _ E).
    pose proof (items_loop_title _ _ _ _ _ E) as Htitle.
    destruct (negb (String.eqb title "") &&
              negb (existsb (String.eqb (OscalSSP.role_id_of title))
                      (OscalSSP.ids st))) eqn:Hcond.
    + apply andb_true_iff in Hcond as [Hne _].
      apply negb_true_iff, String.eqb_neq in Hne.
      destruct (items_loop_properties _ _ _ _ _ E Hne) as [p ->].
      unfold mbind, gen_bind, lift, uuid4. simpl.
      match goal with |- context [OscalSSP.stakeholders_loop _ rest ?s ?m] =>
        destruct (IH s m Hall) as (st' & n' & -> & [more Hroles] & Hids) end.
      exists st', n'. split; [done|]. simpl in Hroles, Hids. split.
      * exists (ssp.Role.mk (OscalSSP.role_id_of title) (Str.strip title)
                  (Str.upper short_name) :: more).
        rewrite Hroles. by rewrite <- app_assoc.
      * intros id Hid. destruct (Hids id Hid) as [Hin|(earlier & Hin & Hearlier)].
        -- apply elem_of_app in Hin as [?|Hin]; [by left|].
           apply list_elem_of_singleton in Hin. right. exists stakeholder.
           split; [apply list_elem_of_here|]. by rewrite <- Htitle.
        -- right. exists earlier. split; [by apply list_elem_of_further|done].
    + match goal with |- context [OscalSSP.stakeholders_loop _ rest ?s ?m] =>
        destruct (IH s m Hall) as (st' & n' & -> & Hroles & Hids) end.
      exists st', n'. split; [done|]. split; [exact Hroles|].
      intros id Hid. destruct (Hids id Hid) as [Hin|(earlier & Hin & Hearlier)];
        [by left|].
      right. exists earlier. split; [by apply list_elem_of_further|done].
Qed.

Lemma existsb_eqb_false (id : string) (ids : list string) :
  id ∉ ids -> existsb (String.eqb id) ids = false.
Proof.
  induction ids as [|x ids IH]; [done|]. intros Hid.
  apply not_elem_of_cons in Hid as [Hne Hid]. simpl.
  rewrite IH by done. by apply String.eqb_neq in Hne as ->.
Qed.

Lemma stakeholders_loop_entry (uuid4_values : nat -> UUID)
    (before after : list Stakeholder) (key : string) (value : StakeholderValue)
    (title short_name : string) (st : OscalSSP.Roles) (n : nat) :
  Forall has_props (before ++ [(key, value)] :: after) ->
  OscalSSP.stakeholder_entry key = (title, short_name) ->
  title <> "" ->
  OscalSSP.role_id_of title ∉ OscalSSP.ids st ->
  (forall earlier, earlier ∈ before ->
     OscalSSP.role_id_of (stakeholder_title earlier)
     <> OscalSSP.role_id_of title) ->
  exists st' n',
    OscalSSP.stakeholders_loop uuid4_values
      (before ++ [(key, value)] :: after) st n = Ok (st', n') /\
    ssp.Role.mk (OscalSSP.role_id_of title) (Str.strip title)
      (Str.upper short_name) ∈ OscalSSP.roles st'.
Proof.
  intros Hall Hentry Hne. revert st n Hall.
  induction before as [|stakeholder before IH]; intros st n Hall Hfresh Hearlier.
  - simpl in Hall. apply Forall_cons in Hall as [Hprops Hall].
    destruct (items_loop_cases [(key, value)] "" "" (OscalSSP.properties st)
                Hprops)
      as [[? _]|(key' & value' & props & earlier & Hitems & _ & E)];
      [done|].
    apply (app_inj_tail []) in Hitems as [_ [= <- <-]].
    rewrite Hentry in E. cbn [fst snd] in E.
    cbn [app]. rewrite (stakeholders_loop_cons _ _ _ _ _ _ _ _ E).
    apply String.eqb_neq in Hne as Hne'. rewrite Hne'.
    rewrite existsb_eqb_false by done. simpl.
    unfold mbind, gen_bind, lift, uuid4. simpl.
    match goal with |- context [OscalSSP.stakeholders_loop _ after ?s ?m] =>
      destruct (stakeholders_loop_spec uuid4_values after s m Hall)
        as (st' & n' & -> & [more Hroles] & _) end.
    exists st', n'. split; [done|]. rewrite Hroles. simpl.
    apply elem_of_app. left. apply elem_of_app. right. apply list_elem_of_here.
  - rewrite <- app_comm_cons in Hall.
    apply Forall_cons in Hall as [Hprops Hall].
    destruct (stakeholders_loop_spec uuid4_values [stakeholder] st n)
      as (st1 & n1 & Hstep & _ & Hids); [by constructor|].
    assert (OscalSSP.stakeholders_loop uuid4_values
              ((stakeholder :: before) ++ [(key, value)] :: after) st n
            = OscalSSP.stakeholders_loop uuid4_values
                (before ++ [(key, value)] :: after) st1 n1) as ->.
    { revert Hstep.
      destruct (items_loop_runs stakeholder ("", "", OscalSSP.properties st)
                  Hprops) as [[[t s] p] E].
      rewrite <- app_comm_cons.
      rewrite !(stakeholders_loop_cons _ _ _ _ _ _ _ _ E).
      destruct (_ && _).
      - unfold mbind, gen_bind, lift, uuid4.
        destruct p; simpl; [|discriminate]. by intros [= <- <-].
      - simpl. by intros [= <- <-]. }
    apply IH; [done| |].
    + intros Hin. destruct (Hids _ Hin) as [?|(earlier & Hin' & Heq)]; [done|].
      apply list_elem_of_singleton in Hin'. subst earlier.
      revert Heq. apply Hearlier, list_elem_of_here.
    + intros earlier Hin. apply Hearlier. by apply list_elem_of_further.
Qed.

(** C8 (as amended).  Take a stakeholder with a single key of ASCII text,
    after stakeholders with ASCII keys, every value holding props.  When
    the key has a parenthesised group on one line and holds " (", the title
    is the text before the first " (" and the short name the text inside
    the first group; when the key has no such group, it is the title and
    the short name is made of the first letters of its words, whatever
    whitespace separates them.  When the title is not empty and no earlier
    stakeholder has the same role id, the roles of the metadata hold a Role
    whose id is the title with spaces replaced by hyphens, lowercased,
    whose title is the title stripped, and whose short name is that short
    name in upper case. *)
Theorem role_derivation (uuid4_values : nat -> UUID)
    (metadata : ssp.Metadata.t) (before after : list Stakeholder)
    (key : string) (value : StakeholderValue) (title short_name : string)
    (n : nat) :
  Forall has_props (before ++ [(key, value)] :: after) ->
  Forall ascii_keys before ->
  Str.isascii key = true ->
  key_shape key title short_name ->
  title <> "" ->
  (forall earlier, earlier ∈ before ->
     OscalSSP.role_id_of (stakeholder_title earlier)
     <> OscalSSP.role_id_of title) ->
  exists metadata' users n' roles,
    OscalSSP.set_roles uuid4_values metadata
      (mkExtras (Some (before ++ [(key, value)] :: after))) n
    = Ok ((metadata', users), n') /\
    ssp.Metadata.roles metadata' = Some roles /\
    ssp.Role.mk (Str.lower (Str.replace " " "-" title)) (Str.strip title)
      (Str.upper short_name) ∈ roles.
Proof.
  intros Hall _ _ Hshape Hne Hearlier. unfold OscalSSP.set_roles. simpl.
  destruct (stakeholders_loop_entry uuid4_values before after key value
              title short_name (OscalSSP.mkRoles [] None [] []) n)
    as (st' & n' & Hrun & Hrole); auto using stakeholder_entry_shape.
  { simpl. apply not_elem_of_nil. }
  unfold mbind at 1, gen_bind. rewrite Hrun.
  eexists _, _, _, _. split; [reflexivity|]. simpl. split; [reflexivity|].
  exact Hrole.
Qed.

(** ** Downloads with renamed UUIDs *)

Ltac gen_unfold :=
  unfold mbind, gen_bind, mret, gen_ret, lift, uuid4; simpl.

Ltac rename_state IH :=
  match goal with
  | |- _ _ _ ?s ?m = Rename.run ?g (_ _ _ ?s0 _) =>
      replace s with (g s0); [apply IH|]
  end.

Lemma lift_bind_run {A B : Type} (f : A -> A) (g : B -> B) (x : result A)
    (k1 k2 : A -> gen B) (n : nat) :
  (forall a, k1 (f a) n = Rename.run g (k2 a n)) ->
  (lift (f <$> x) ≫= k1) n = Rename.run g ((lift x ≫= k2) n).
Proof. intros Hk. destruct x as [a|e]; [apply Hk|reflexivity]. Qed.

Lemma lift_bind_same {A B : Type} (g : B -> B) (x : result A)
    (k1 k2 : A -> gen B) (n : nat) :
  (forall a, k1 a n = Rename.run g (k2 a n)) ->
  (lift x ≫= k1) n = Rename.run g ((lift x ≫= k2) n).
Proof. intros Hk. destruct x as [a|e]; [apply Hk|reflexivity]. Qed.

Lemma uuid4_bind_run {B : Type} (f : UUID -> UUID) (g : B -> B)
    (values : nat -> UUID) (k1 k2 : UUID -> gen B) (n : nat) :
  k1 (f (values n)) (S n) = Rename.run g (k2 (values n) (S n)) ->
  (uuid4 (fun i => f (values i)) ≫= k1) n
  = Rename.run g ((uuid4 values ≫= k2) n).
Proof. intros Hk. exact Hk. Qed.

Lemma run_bind {A B : Type} (f : A -> A) (g : B -> B) (m1 m2 : gen A)
    (k1 k2 : A -> gen B) (n : nat) :
  m1 n = Rename.run f (m2 n) ->
  (forall a n', k1 (f a) n' = Rename.run g (k2 a n')) ->
  (m1 ≫= k1) n = Rename.run g ((m2 ≫= k2) n).
Proof.
  intros Hm Hk. unfold mbind, gen_bind. rewrite Hm.
  destruct (m2 n) as [[a n']|e]; [apply Hk|reflexivity].
Qed.

Section renaming.
Variable f : UUID -> UUID.
Variable uuid4_values : nat -> UUID.
Variable uuid5 : UUID -> string -> UUID.
Context {Tools : Type}.
Variable ComponentTools : json -> result Tools.
Variable get_control_by_id : Tools -> string -> result (list json).

Let renamed_values : nat -> UUID := fun n => f (uuid4_values n).

Lemma stakeholders_loop_rename (stakeholders : list Stakeholder)
    (st : OscalSSP.Roles) (n : nat) :
  OscalSSP.stakeholders_loop renamed_values stakeholders (Rename.roles f st) n
  = Rename.run (Rename.roles f)
      (OscalSSP.stakeholders_loop uuid4_values stakeholders st n).
Proof.
  revert st n. induction stakeholders as [|stakeholder rest IH]; intros st n.
  - reflexivity.
  - destruct (OscalSSP.items_loop stakeholder ("", "", OscalSSP.properties st))
      as [[[title short_name] properties]|e] eqn:E.
    + rewrite (stakeholders_loop_cons uuid4_values _ _ _ _ _ _ _ E).
      rewrite (stakeholders_loop_cons renamed_values stakeholder rest
                 (Rename.roles f st) n title short_name properties E).
      cbn [Rename.roles OscalSSP.ids OscalSSP.properties OscalSSP.roles
           OscalSSP.roles_users].
      destruct (negb (String.eqb title "") && _).
      * destruct properties as [p|]; gen_unfold; [|done].
        rename_state IH. unfold Rename.roles. simpl. by rewrite fmap_app.
      * rename_state IH. done.
    + rewrite (stakeholders_loop_raise uuid4_values _ _ _ _ _ E).
      by rewrite (stakeholders_loop_raise renamed_values stakeholder rest
                    (Rename.roles f st) n e E).
Qed.

Lemma set_roles_rename (metadata : ssp.Metadata.t) (extras : Extras) (n : nat) :
  OscalSSP.set_roles renamed_values metadata extras n
  = Rename.run (prod_map id (fmap (Rename.user f)))
      (OscalSSP.set_roles uuid4_values metadata extras n).
Proof.
  unfold OscalSSP.set_roles.
  destruct (stakeholders extras) as [entries|]; [|reflexivity].
  pose proof (stakeholders_loop_rename entries
                (OscalSSP.mkRoles [] None [] []) n) as Hloop.
  unfold Rename.roles in Hloop at 1. simpl in Hloop.
  unfold mbind, gen_bind. rewrite Hloop.
  destruct (OscalSSP.stakeholders_loop uuid4_values _ _ n) as [[st n']|e];
    reflexivity.
Qed.

Lemma dict_set_rename (d : list (string * UUID)) (k : string) (v : UUID) :
  dict_set (Rename.component_ref f d) k (f v)
  = Rename.component_ref f (dict_set d k v).
Proof.
  unfold Rename.component_ref.
  induction d as [|[k' v'] d IH]; [done|].
  rewrite fmap_cons. cbn [dict_set prod_map fst snd id].
  destruct (String.eqb k' k); [done|].
  rewrite fmap_cons. by rewrite IH.
Qed.

Lemma dict_item_rename (d : list (string * UUID)) (k : string) :
  dict_item (Rename.component_ref f d) k = f <$> dict_item d k.
Proof.
  unfold dict_item, Rename.component_ref.
  induction d as [|[k' v'] d IH]; [done|].
  rewrite fmap_cons. cbn [dict_get prod_map fst snd id].
  destruct (String.eqb k' k); [done|exact IH].
Qed.

Lemma components_loop_rename (project : models.Project.t)
    (components : list models.Component.t)
    (st : ssp.SystemImplementation.t * list (string * UUID)) (n : nat) :
  OscalSSP.components_loop renamed_values project components
    (Rename.system_implementation f (fst st), Rename.component_ref f (snd st)) n
  = Rename.run
      (prod_map (Rename.system_implementation f) (Rename.component_ref f))
      (OscalSSP.components_loop uuid4_values project components st n).
Proof.
  revert st n. induction components as [|component rest IH]; intros [si ref] n.
  - reflexivity.
  - cbn [OscalSSP.components_loop]. apply uuid4_bind_run.
    rename_state IH. cbn [fst snd prod_map]. f_equal.
    + unfold Rename.system_implementation. simpl. rewrite fmap_app. simpl.
      by destruct (models.Component.status component =? 1).
    + rewrite <- dict_set_rename.
      by destruct (models.Component.status component =? 1).
Qed.

Lemma by_components_loop_rename (control_id : string) (address : nat)
    (component_ref : list (string * UUID))
    (components : list models.Component.t) (st : OscalSSP.Requirements)
    (n : nat) :
  OscalSSP.by_components_loop renamed_values ComponentTools get_control_by_id
    control_id address (Rename.component_ref f component_ref) components
    (Rename.requirements f st) n
  = Rename.run (Rename.requirements f)
      (OscalSSP.by_components_loop uuid4_values ComponentTools
         get_control_by_id control_id address component_ref components st n).
Proof.
  revert st n. induction components as [|component rest IH]; intros st n.
  - reflexivity.
  - cbn [OscalSSP.by_components_loop].
    apply lift_bind_same. intros cmp.
    destruct (existsb _ (models.Component.controls component)); [|apply IH].
    apply lift_bind_same. intros ctrl.
    rewrite dict_item_rename. apply lift_bind_run. intros component_uuid.
    apply lift_bind_same. intros first.
    apply lift_bind_same. intros description.
    apply uuid4_bind_run.
    rename_state IH. unfold Rename.requirements. simpl. f_equal.
    apply list_fmap_alter. apply Forall_forall. intros r _.
    unfold Rename.requirement, ssp.ImplementedRequirement.add_by_component.
    simpl. by rewrite fmap_app.
Qed.

Lemma controls_loop_rename (component_ref : list (string * UUID))
    (components : list models.Component.t)
    (controls : list models.Control.t) (st : OscalSSP.Requirements) (n : nat) :
  OscalSSP.controls_loop renamed_values ComponentTools get_control_by_id
    (Rename.component_ref f component_ref) components controls
    (Rename.requirements f st) n
  = Rename.run (Rename.requirements f)
      (OscalSSP.controls_loop uuid4_values ComponentTools get_control_by_id
         component_ref components controls st n).
Proof.
  revert st n. induction controls as [|control rest IH]; intros st n.
  - reflexivity.
  - cbn [OscalSSP.controls_loop]. apply uuid4_bind_run.
    apply (run_bind (Rename.requirements f)); [|intros st' n'; apply IH].
    assert (length (OscalSSP.objects (Rename.requirements f st))
            = length (OscalSSP.objects st)) as ->
      by (simpl; apply length_fmap).
    rename_state by_components_loop_rename.
    unfold Rename.requirements. simpl. by rewrite fmap_app.
Qed.

Lemma resolve_rename (reqs : OscalSSP.Requirements) :
  OscalSSP.resolve (Rename.requirements f reqs)
  = Rename.requirement f <$> OscalSSP.resolve reqs.
Proof.
  unfold OscalSSP.resolve. cbn [Rename.requirements OscalSSP.objects
    OscalSSP.listed].
  induction (OscalSSP.listed reqs) as [|address rest IH]; [done|].
  cbn [omap list_omap]. rewrite list_lookup_fmap.
  destruct (OscalSSP.objects reqs !! address); cbn [fmap option_fmap option_map];
    [rewrite fmap_cons|]; by rewrite <- IH.
Qed.

Lemma add_components_rename (project : models.Project.t)
    (users : list ssp.User.t) (n : nat) :
  OscalSSP.add_components renamed_values project (Rename.user f <$> users) n
  = Rename.run
      (prod_map (Rename.system_implementation f) (Rename.component_ref f))
      (OscalSSP.add_components uuid4_values project users n).
Proof.
  unfold OscalSSP.add_components.
  apply (components_loop_rename project (models.Project.components project)
           (ssp.SystemImplementation.mk users [], [])).
Qed.

Lemma add_implemented_requirements_rename (project : models.Project.t)
    (component_ref : list (string * UUID)) (n : nat) :
  OscalSSP.add_implemented_requirements renamed_values ComponentTools
    get_control_by_id project (Rename.component_ref f component_ref) n
  = Rename.run (prod_map id (Rename.requirements f))
      (OscalSSP.add_implemented_requirements uuid4_values ComponentTools
         get_control_by_id project component_ref n).
Proof.
  unfold OscalSSP.add_implemented_requirements.
  apply (run_bind (Rename.requirements f)); [|reflexivity].
  apply (controls_loop_rename component_ref (models.Project.components project)
           (models.Project.controls project) (OscalSSP.mkRequirements [] [])).
Qed.

Lemma init_rename (project : models.Project.t) (extras : Extras) (n : nat) :
  OscalSSP.init renamed_values ComponentTools get_control_by_id project extras n
  = Rename.run (Rename.object f)
      (OscalSSP.init uuid4_values ComponentTools get_control_by_id
         project extras n).
Proof.
  unfold OscalSSP.init.
  apply (run_bind (prod_map id (fmap (Rename.user f))));
    [apply set_roles_rename|].
  intros [metadata users] n1. cbn [prod_map fst snd id].
  apply (run_bind (prod_map (Rename.system_implementation f)
                            (Rename.component_ref f)));
    [apply add_components_rename|].
  intros [si ref] n2. cbn [prod_map fst snd id].
  apply (run_bind (prod_map id (Rename.requirements f)));
    [apply add_implemented_requirements_rename|].
  intros [description reqs] n3. reflexivity.
Qed.

Lemma get_ssp_rename (self : OscalSSP.t) (n : nat) :
  OscalSSP.get_ssp renamed_values uuid5 (Rename.object f self) n
  = Rename.run (Rename.model f) (OscalSSP.get_ssp uuid4_values uuid5 self n).
Proof.
  unfold OscalSSP.get_ssp. gen_unfold. unfold Rename.run, Rename.model,
    Rename.plan. simpl. rewrite resolve_rename. reflexivity.
Qed.

Lemma download_rename (project : models.Project.t) (extras : Extras) :
  OscalSSP.download renamed_values uuid5 ComponentTools get_control_by_id
    project extras
  = Rename.model f <$>
      OscalSSP.download uuid4_values uuid5 ComponentTools get_control_by_id
        project extras.
Proof.
  unfold OscalSSP.download.
  rewrite (run_bind (Rename.object f) (Rename.model f) _
             (OscalSSP.init uuid4_values ComponentTools get_control_by_id
                project extras) _ (OscalSSP.get_ssp uuid4_values uuid5));
    [|apply init_rename|intros self n; apply get_ssp_rename].
  destruct ((OscalSSP.init uuid4_values _ _ project extras ≫= _) 0%nat)
    as [[doc n']|e]; reflexivity.
Qed.

Lemma download_system_id (project : models.Project.t) (extras : Extras)
    (document : ssp.Model.t) :
  OscalSSP.download uuid4_values uuid5 ComponentTools get_control_by_id
    project extras = Ok document ->
  system_ids document =
  [ssp.SystemId.mk (uuid5 OscalSSP.NAMESPACE_OID (models.Project.title project))
     "https://ietf.org/rfc/rfc4122"].
Proof.
  unfold OscalSSP.download. unfold mbind at 1, gen_bind.
  destruct (OscalSSP.init uuid4_values _ _ project extras 0%nat)
    as [[self n]|e] eqn:Hinit; [|discriminate].
  assert (OscalSSP.project self = project) as Hproject.
  { revert Hinit. unfold OscalSSP.init.
    unfold mbind at 1, gen_bind.
    destruct (OscalSSP.set_roles _ _ _ _) as [[[? ?] ?]|]; [|discriminate].
    unfold mbind at 1, gen_bind.
    destruct (OscalSSP.add_components _ _ _ _) as [[[? ?] ?]|]; [|discriminate].
    unfold mbind at 1, gen_bind.
    destruct (OscalSSP.add_implemented_requirements _ _ _ _ _ _)
      as [[[? ?] ?]|]; [|discriminate].
    by intros [= <- _]. }
  unfold OscalSSP.get_ssp. gen_unfold. intros [= <-].
  unfold system_ids. simpl. by rewrite Hproject.
Qed.
End renaming.

(** C7.  Two downloads of the same project and extras that differ only in
    the values [uuid4] returns end alike -- both raise the same exception or
    both return a document -- and the two documents are equal once the
    UUIDs drawn by [uuid4] are masked; the system identifier of a document
    is the [uuid5] of the OID namespace and the project title, whatever
    [uuid4] returned. *)
Theorem get_ssp_deterministic_up_to_fresh_uuids
    (uuid4_values uuid4_values' : nat -> UUID) (uuid5 : UUID -> string -> UUID)
    {Tools : Type} (ComponentTools : json -> result Tools)
    (get_control_by_id : Tools -> string -> result (list json))
    (project : models.Project.t) (extras : Extras) :
  Rename.mask <$>
    OscalSSP.download uuid4_values uuid5 ComponentTools get_control_by_id
      project extras
  = Rename.mask <$>
      OscalSSP.download uuid4_values' uuid5 ComponentTools get_control_by_id
        project extras /\
  forall document,
    OscalSSP.download uuid4_values uuid5 ComponentTools get_control_by_id
      project extras = Ok document ->
    system_ids document =
    [ssp.SystemId.mk
       (uuid5 OscalSSP.NAMESPACE_OID (models.Project.title project))
       "https://ietf.org/rfc/rfc4122"].
Proof.
  split.
  - unfold Rename.mask.
    rewrite <- (download_rename (fun _ => 0%N) uuid4_values).
    rewrite <- (download_rename (fun _ => 0%N) uuid4_values').
    reflexivity.
  - intros document. apply download_system_id.
Qed.

Lemma get_ssp_deterministic_up_to_fresh_uuids_witness :
  Rename.mask <$> sample_download sample_uuid4 project_one_implements
  = Rename.mask <$> sample_download other_uuid4 project_one_implements /\
  exists document,
    sample_download sample_uuid4 project_one_implements = Ok document /\
    system_ids document =
    [ssp.SystemId.mk
       (sample_uuid5 OscalSSP.NAMESPACE_OID "Pretty Ordinary Project")
       "https://ietf.org/rfc/rfc4122"].
Proof.
  split.
  - exact (proj1 (get_ssp_deterministic_up_to_fresh_uuids sample_uuid4
                    other_uuid4 sample_uuid5 sample_ComponentTools
                    sample_get_control_by_id project_one_implements
                    (mkExtras (Some sample_stakeholders)))).
  - eexists. split; [vm_compute; reflexivity|].
    apply (proj2 (get_ssp_deterministic_up_to_fresh_uuids sample_uuid4
                    other_uuid4 sample_uuid5 sample_ComponentTools
                    sample_get_control_by_id project_one_implements
                    (mkExtras (Some sample_stakeholders)))).
    vm_compute. reflexivity.
Defined.

(** The two runs do draw different UUIDs. *)
Example downloads_differ_in_uuids :
  sample_download sample_uuid4 project_one_implements
  <> sample_download other_uuid4 project_one_implements.
Proof. vm_compute. discriminate. Qed.

(** ** [OscalSSP.add_implemented_requirements] *)

(** The scenario of the specification: two attached components, one tracked
    control, one component implementing it.  One requirement is listed, with
    one by-component entry that carries the component's narrative. *)
Example one_implementing_component :
  listed_requirements <$> sample_download sample_uuid4 project_one_implements
  = Ok [ ssp.ImplementedRequirement.mk 1004%N "ac-2"
           [ ssp.ByComponent.mk 1005%N 1002%N "This component satisfies a." ] ].
Proof. vm_compute. reflexivity. Qed.

(** A tracked control that no attached component implements is not listed. *)
Example no_implementing_component :
  listed_requirements <$> sample_download sample_uuid4 project_none_implements
  = Ok [].
Proof. vm_compute. reflexivity. Qed.

(** C1 (the code departs from it).  With two attached components that both
    implement the one tracked control, the requirement object of the control
    is appended to the list once per component: the document lists two
    requirements for [ac-2], the same object twice, each showing both
    by-component entries. *)
Theorem implemented_requirement_listed_per_component :
  listed_requirements <$> sample_download sample_uuid4 project_both_implement
  = Ok [ ssp.ImplementedRequirement.mk 1004%N "ac-2"
           [ ssp.ByComponent.mk 1005%N 1002%N "This component satisfies a.";
             ssp.ByComponent.mk 1006%N 1003%N "This component satisfies a." ];
         ssp.ImplementedRequirement.mk 1004%N "ac-2"
           [ ssp.ByComponent.mk 1005%N 1002%N "This component satisfies a.";
             ssp.ByComponent.mk 1006%N 1003%N "This component satisfies a." ] ].
Proof. vm_compute. reflexivity. Qed.

(** ** Role derivation on the sample stakeholders *)

Lemma blank_decide (s : string) :
  forallb Str.isspace (chars s) = true -> blank s.
Proof.
  intros Hall c Hc. rewrite forallb_forall in Hall.
  by apply Hall, list_elem_of_In.
Qed.

Lemma word_decide (w : string) :
  w <> "" -> forallb (fun c => negb (Str.isspace c)) (chars w) = true ->
  word w.
Proof.
  intros Hne Hall. split; [done|]. intros c Hc.
  rewrite forallb_forall in Hall. apply negb_true_iff.
  by apply Hall, list_elem_of_In.
Qed.

Lemma role_derivation_witness :
  exists metadata' users n' roles,
    OscalSSP.set_roles sample_uuid4
      (OscalSSP.set_metadata project_one_implements)
      (mkExtras (Some sample_stakeholders)) 0%nat
    = Ok ((metadata', users), n') /\
    ssp.Metadata.roles metadata' = Some roles /\
    ssp.Role.mk "information-system-security-officer"
      "Information System Security Officer" "ISSO" ∈ roles.
Proof.
  apply (role_derivation sample_uuid4
           (OscalSSP.set_metadata project_one_implements) []
           [ [("system owner", sample_value)];
             [("Information System Security Officer (isso)", sample_value)] ]
           "Information System Security Officer (ISSO)" sample_value
           "Information System Security Officer" "ISSO" 0%nat).
  - repeat constructor; by eexists.
  - constructor.
  - reflexivity.
  - apply (key_with_abbreviation _ "Information System Security Officer"
             "ISSO)" "ISSO").
    + apply re_search_group_first_group. reflexivity.
    + reflexivity.
    + apply (find_absent _ _ 0); [lia|vm_compute; reflexivity].
  - discriminate.
  - intros earlier Hin. by apply elem_of_nil in Hin.
Defined.

Lemma words_system_owner : words "system owner" ["system"; "owner"].
Proof.
  apply (words_cons "" "system" " owner" ["owner"]).
  - by apply blank_decide.
  - by apply word_decide.
  - right. by exists " "%char, "owner".
  - apply (words_cons " " "owner" "" []).
    + by apply blank_decide.
    + by apply word_decide.
    + by left.
    + apply words_nil. by apply blank_decide.
Qed.

(** C8 as stated fails: the key [system owner] is a title of two words, so
    the claimed short name is [so]; the one Role derived from it has the
    short name [SO]. *)
Lemma role_short_name_counterexample :
  key_shape "system owner" "system owner" "so" /\
  (ssp.Metadata.roles ∘ fst ∘ fst) <$>
    OscalSSP.set_roles sample_uuid4
      (OscalSSP.set_metadata project_one_implements)
      (mkExtras (Some [ [("system owner", sample_value)] ])) 0%nat
  = Ok (Some [ ssp.Role.mk "system-owner" "system owner" "SO" ]) /\
  ssp.Role.short_name (ssp.Role.mk "system-owner" "system owner" "SO") <> "so".
Proof.
  split; [|split; [vm_compute; reflexivity|discriminate]].
  apply (key_of_words "system owner" ["system"; "owner"] ["s"; "o"]%char).
  - apply re_search_group_no_group. reflexivity.
  - exact words_system_owner.
  - repeat constructor; eexists; reflexivity.
Qed.

(** The shapes reach past the plainest keys: words may be separated by
    several blanks or a tab, and the first parenthesised group need not
    open at the first parenthesis, which here is closed only on the next
    line. *)
Example key_of_words_wide_gaps :
  key_shape ("system  owner" +:+ String "009" "deputy")
            ("system  owner" +:+ String "009" "deputy") "sod".
Proof.
  apply (key_of_words _ ["system"; "owner"; "deputy"] ["s"; "o"; "d"]%char).
  - apply re_search_group_no_group. reflexivity.
  - apply (words_cons "" "system" ("  owner" +:+ String "009" "deputy")
             ["owner"; "deputy"]);
      [by apply blank_decide|by apply word_decide|right; by eexists _, _|].
    apply (words_cons "  " "owner" (String "009" "deputy") ["deputy"]);
      [by apply blank_decide|by apply word_decide|right; by eexists _, _|].
    apply (words_cons (String "009" "") "deputy" "" []);
      [by apply blank_decide|by apply word_decide|by left|].
    apply words_nil. by apply blank_decide.
  - repeat constructor; eexists; reflexivity.
Qed.

Example key_with_later_group :
  key_shape ("Lead (see" +:+ String "010" "note) (LD)") "Lead" "LD".
Proof.
  apply (key_with_abbreviation _ "Lead"
           ("see" +:+ String "010" "note) (LD)") "LD").
  - apply re_search_group_first_group. reflexivity.
  - reflexivity.
  - apply (find_absent _ _ 0); [lia|reflexivity].
Qed.

(** A stakeholder whose role id an earlier one already produced yields no
    Role: of [Owner (A)] and [Owner (B)] only the first is kept. *)
Example role_skipped_for_repeated_id :
  (ssp.Metadata.roles ∘ fst ∘ fst) <$>
    OscalSSP.set_roles sample_uuid4
      (OscalSSP.set_metadata project_one_implements)
      (mkExtras (Some [ [("Owner (A)", sample_value)];
                        [("Owner (B)", sample_value)] ])) 0%nat
  = Ok (Some [ ssp.Role.mk "owner" "Owner" "A" ]).
Proof. vm_compute. reflexivity. Qed.

(** A key with parentheses but without " (" loses its last character:
    [find] returns [-1] and the slice stops one short of the end. *)
Example title_without_space_before_parenthesis :
  OscalSSP.stakeholder_entry "Owner(SO)" = ("Owner(SO", "SO").
Proof. vm_compute. reflexivity. Qed.

(** ** The serialization contract *)

Lemma pure_ret {A : Type} (a : A) : pure_at (mret a) a.
Proof. intros n. reflexivity. Qed.

Lemma pure_bind {A B : Type} (m : gen A) (k : A -> gen B) (a : A) (b : B) :
  pure_at m a -> pure_at (k a) b -> pure_at (m ≫= k) b.
Proof. intros Hm Hk n. unfold mbind, gen_bind. rewrite Hm. apply Hk. Qed.

Lemma pure_fmap {A B : Type} (g : A -> B) (m : gen A) (a : A) :
  pure_at m a -> pure_at (g <$> m) (g a).
Proof. intros Hm n. unfold fmap, gen_fmap. by rewrite Hm. Qed.

Lemma pure_mapM {A B : Type} (enc : A -> json) (dec : json -> gen B)
    (norm : A -> B) (xs : list A) :
  (forall x, x ∈ xs -> pure_at (dec (enc x)) (norm x)) ->
  pure_at (gen_mapM dec (enc <$> xs)) (norm <$> xs).
Proof.
  induction xs as [|x xs IH]; intros Hall; [apply pure_ret|].
  rewrite !fmap_cons. cbn [gen_mapM].
  eapply pure_bind; [apply Hall, list_elem_of_here|].
  eapply pure_bind; [|apply pure_ret].
  apply IH. intros y Hy. apply Hall. by apply list_elem_of_further.
Qed.

Lemma pure_dec_str (field s : string) : pure_at (dec_str field (JStr s)) s.
Proof. apply pure_ret. Qed.

Lemma pure_optional {A B : Type} (enc : A -> json) (dec : json -> gen B)
    (norm : A -> B) (v : option A) :
  (forall x, v = Some x -> enc x <> JNull /\ pure_at (dec (enc x)) (norm x)) ->
  pure_at (optional dec (enc <$> v)) (norm <$> v).
Proof.
  destruct v as [x|]; intros Hx; [|apply pure_ret].
  destruct (Hx x eq_refl) as [Hnull Hdec].
  assert (optional dec (Some (enc x)) = (Some <$> dec (enc x))) as Hopt
    by (destruct (enc x); done).
  change (pure_at (optional dec (Some (enc x))) (Some (norm x))).
  rewrite Hopt. by apply pure_fmap.
Qed.

Lemma pure_optional_str (field : string) (v : option string) :
  pure_at (optional (dec_str field) (JStr <$> v)) v.
Proof.
  rewrite <- (option_fmap_id v) at 2. apply pure_optional.
  intros s _. split; [done|apply pure_dec_str].
Qed.

Lemma pure_optional_list {A B : Type} (field : string) (enc : A -> json)
    (dec : json -> gen B) (norm : A -> B) (v : option (list A)) :
  (forall xs x, v = Some xs -> x ∈ xs -> pure_at (dec (enc x)) (norm x)) ->
  pure_at (optional (dec_list field dec) (Wire.enc_list enc <$> v))
          ((fmap norm : list A -> list B) <$> v).
Proof.
  intros Hall. apply pure_optional. intros xs Hxs. split; [done|].
  apply pure_mapM. intros x. by apply Hall.
Qed.

(** Members that are written can be looked up. *)

Lemma dict_get_emitted_absent (exclude_if_false : list string)
    (fields : list (string * option json)) (k : string) :
  dict_get fields k = None ->
  dict_get (emitted exclude_if_false fields) k = None.
Proof.
  induction fields as [|[k' v'] fields IH]; [done|]. cbn [dict_get].
  destruct (String.eqb k' k) eqn:E; [discriminate|]. intros Hk.
  unfold emitted. cbn [omap list_omap fst snd]. fold (emitted exclude_if_false fields).
  destruct v' as [j|]; [|by apply IH].
  destruct (existsb _ _ && json_falsy j); [by apply IH|].
  cbn [dict_get]. rewrite E. by apply IH.
Qed.

Lemma dict_get_not_key {V : Type} (d : list (string * V)) (k : string) :
  k ∉ d.*1 -> dict_get d k = None.
Proof.
  induction d as [|[k' v'] d IH]; [done|]. intros Hk.
  apply not_elem_of_cons in Hk as [Hne Hk]. cbn [dict_get].
  destruct (String.eqb k' k) eqn:E; [|by apply IH].
  apply String.eqb_eq in E. by subst.
Qed.

Lemma dict_get_emitted (exclude_if_false : list string)
    (fields : list (string * option json)) (k : string) (v : option json) :
  NoDup fields.*1 ->
  dict_get fields k = Some v ->
  dict_get (emitted exclude_if_false fields) k =
    (j ← v;
     if existsb (String.eqb k) exclude_if_false && json_falsy j
     then None else Some j).
Proof.
  induction fields as [|[k' v'] fields IH]; [done|]. cbn [dict_get].
  intros Hnd. rewrite fmap_cons in Hnd. apply NoDup_cons in Hnd as [Hk' Hnd].
  unfold emitted. cbn [omap list_omap fst snd].
  fold (emitted exclude_if_false fields).
  destruct (String.eqb k' k) eqn:E.
  - apply String.eqb_eq in E. subst k'. intros [= ->].
    assert (dict_get (emitted exclude_if_false fields) k = None) as Hrest
      by (apply dict_get_emitted_absent; by apply dict_get_not_key).
    destruct v as [j|]; [|exact Hrest]. simpl.
    destruct (existsb _ _ && json_falsy j); [exact Hrest|].
    cbn [dict_get]. by rewrite String.eqb_refl.
  - intros Hv. destruct v' as [j|]; [|by apply IH].
    destruct (existsb _ _ && json_falsy j); [by apply IH|].
    cbn [dict_get]. rewrite E. by apply IH.
Qed.

Lemma first_unknown_emitted (known exclude_if_false : list string)
    (fields : list (string * option json)) :
  forallb (fun k => existsb (String.eqb k) known) fields.*1 = true ->
  first_unknown known (emitted exclude_if_false fields) = None.
Proof.
  unfold first_unknown.
  induction fields as [|[k v] fields IH]; [done|].
  rewrite fmap_cons. cbn [forallb fst]. intros [Hk Hrest]%andb_true_iff.
  unfold emitted. cbn [omap list_omap fst snd].
  fold (emitted exclude_if_false fields).
  destruct v as [j|]; [|by apply IH].
  destruct (existsb _ exclude_if_false && json_falsy j); [by apply IH|].
  cbn [List.find fst]. rewrite Hk. by apply IH.
Qed.

Lemma excluded_list {A : Type} (enc : A -> json) (v : option (list A)) :
  (j ← Wire.enc_list enc <$> v; if true && json_falsy j then None else Some j)
  = Wire.enc_list enc <$> Wire.drop_empty v.
Proof. by destruct v as [[|x xs]|]. Qed.

Lemma dict_get_emitted_kept (exclude_if_false : list string)
    (fields : list (string * option json)) (k : string) (v : option json) :
  NoDup fields.*1 ->
  dict_get fields k = Some v ->
  existsb (String.eqb k) exclude_if_false = false ->
  dict_get (emitted exclude_if_false fields) k = v.
Proof.
  intros Hnd Hk Hex. rewrite (dict_get_emitted _ _ _ v) by done.
  rewrite Hex. by destruct v.
Qed.

Lemma dict_get_emitted_list {A : Type} (exclude_if_false : list string)
    (fields : list (string * option json)) (k : string) (enc : A -> json)
    (v : option (list A)) :
  NoDup fields.*1 ->
  dict_get fields k = Some (Wire.enc_list enc <$> v) ->
  existsb (String.eqb k) exclude_if_false = true ->
  dict_get (emitted exclude_if_false fields) k
  = Wire.enc_list enc <$> Wire.drop_empty v.
Proof.
  intros Hnd Hk Hex. rewrite (dict_get_emitted _ _ _ _ Hnd Hk).
  rewrite Hex. apply excluded_list.
Qed.

Lemma lookup_field_absent (members : list (string * json)) (alias name : string)
    (v : option json) :
  dict_get members alias = v -> dict_get members name = None ->
  lookup_field members alias name = v.
Proof. unfold lookup_field. intros -> ->. by destruct v. Qed.

Ltac nodup_keys := apply (bool_decide_unpack _); vm_compute; exact I.

(** Looks a written field up: [kept] for a field outside
    [exclude_if_false], [dropped] for a list field inside it. *)
Ltac kept :=
  first
    [ erewrite dict_get_emitted_kept; [|nodup_keys|reflexivity|reflexivity]
    | erewrite lookup_field_absent;
      [|erewrite dict_get_emitted_kept; [reflexivity|nodup_keys|reflexivity|reflexivity]
       |apply dict_get_emitted_absent; reflexivity] ].

Ltac dropped :=
  first
    [ erewrite dict_get_emitted_list; [|nodup_keys|reflexivity|reflexivity]
    | erewrite lookup_field_absent;
      [|erewrite dict_get_emitted_list; [reflexivity|nodup_keys|reflexivity|reflexivity]
       |apply dict_get_emitted_absent; reflexivity] ].

Ltac next_field := eapply pure_bind.

Section wire_facts.
Variable uuid_str : UUID -> string.
Variable uuid_parse : string -> option UUID.
Variable uuid4_values : nat -> UUID.
Hypothesis uuid_parse_str : forall u, uuid_parse (uuid_str u) = Some u.

Lemma pure_dec_uuid (field : string) (u : UUID) :
  pure_at (Wire.dec_uuid uuid_parse field (JStr (uuid_str u))) u.
Proof. unfold Wire.dec_uuid. rewrite uuid_parse_str. apply pure_ret. Qed.

Lemma pure_dec_type (t : ComponentTypeEnum) :
  pure_at (Wire.dec_type (JStr (ComponentTypeEnum_value t))) t.
Proof. destruct t; apply pure_ret. Qed.

Lemma parse_property_json (p : Property_.t) :
  pure_at (Wire.parse_property (Wire.property_json p)) p.
Proof.
  destruct p as [name value].
  unfold Wire.parse_property, Wire.property_json. cbn [parse_object].
  rewrite first_unknown_emitted by reflexivity.
  next_field. { kept. apply pure_dec_str. }
  next_field. { kept. apply pure_dec_str. }
  apply pure_ret.
Qed.

Lemma parse_link_json (l : Link.t) :
  pure_at (Wire.parse_link (Wire.link_json l)) l.
Proof.
  destruct l as [href].
  unfold Wire.parse_link, Wire.link_json. cbn [parse_object].
  rewrite first_unknown_emitted by reflexivity.
  next_field. { kept. apply pure_dec_str. }
  apply pure_ret.
Qed.

Lemma parse_responsible_role_json (r : ResponsibleRole.t) :
  pure_at (Wire.parse_responsible_role (Wire.responsible_role_json r)) r.
Proof.
  destruct r as [role_id].
  unfold Wire.parse_responsible_role, Wire.responsible_role_json.
  cbn [parse_object].
  rewrite first_unknown_emitted by reflexivity.
  next_field. { kept. apply pure_dec_str. }
  apply pure_ret.
Qed.

Lemma pure_list_id {A : Type} (field : string) (enc : A -> json)
    (dec : json -> gen A) (xs : list A) :
  (forall x, pure_at (dec (enc x)) x) ->
  pure_at (dec_list field dec (Wire.enc_list enc xs)) xs.
Proof.
  intros Hdec. rewrite <- (list_fmap_id xs) at 2.
  apply pure_mapM. intros x _. apply Hdec.
Qed.

Lemma pure_optional_list_id {A : Type} (field : string) (enc : A -> json)
    (dec : json -> gen A) (v : option (list A)) :
  (forall x, pure_at (dec (enc x)) x) ->
  pure_at (optional (dec_list field dec) (Wire.enc_list enc <$> v)) v.
Proof.
  intros Hdec. rewrite <- (option_fmap_id v) at 2. apply pure_optional.
  intros xs _. split; [done|]. by apply pure_list_id.
Qed.

Lemma parse_parameter_json (p : Parameter_.t) :
  pure_at (Wire.parse_parameter (Wire.parameter_json p)) p.
Proof.
  destruct p as [param_id values].
  unfold Wire.parse_parameter, Wire.parameter_json. cbn [parse_object].
  rewrite first_unknown_emitted by reflexivity.
  next_field. { kept. apply pure_dec_str. }
  next_field. { kept. apply pure_list_id. intros s. apply pure_dec_str. }
  apply pure_ret.
Qed.

Lemma parse_protocol_json (p : Protocol.t) :
  pure_at (Wire.parse_protocol (Wire.protocol_json p)) p.
Proof. destruct p. intros n. reflexivity. Qed.

Lemma parse_statement_json (s : Statement.t) :
  pure_at (Wire.parse_statement uuid_parse uuid4_values
             (Wire.statement_json uuid_str s)) s.
Proof.
  destruct s as [statement_id uuid description props links roles remarks].
  unfold Wire.parse_statement, Wire.statement_json. cbn [parse_object].
  rewrite first_unknown_emitted by reflexivity.
  next_field. { kept. apply pure_dec_str. }
  next_field. { kept. apply pure_dec_uuid. }
  next_field. { kept. apply pure_dec_str. }
  next_field. { kept. apply pure_optional_list_id, parse_property_json. }
  next_field. { kept. apply pure_optional_list_id, parse_link_json. }
  next_field.
  { kept. apply pure_optional_list_id, parse_responsible_role_json. }
  next_field. { kept. apply pure_optional_str. }
  apply pure_ret.
Qed.

Lemma pure_list_norm {A B : Type} (field : string) (enc : A -> json)
    (dec : json -> gen B) (norm : A -> B) (xs : list A) :
  (forall x, pure_at (dec (enc x)) (norm x)) ->
  pure_at (dec_list field dec (Wire.enc_list enc xs)) (norm <$> xs).
Proof. intros Hdec. apply pure_mapM. intros x _. apply Hdec. Qed.

Lemma parse_requirement_json (r : ImplementedRequirement.t) :
  pure_at (Wire.parse_requirement uuid_parse uuid4_values
             (Wire.requirement_json uuid_str r))
          (Wire.normal_requirement r).
Proof.
  destruct r as [uuid control_id description props links parameters roles
                 statements remarks].
  unfold Wire.parse_requirement, Wire.requirement_json. cbn [parse_object].
  rewrite first_unknown_emitted by reflexivity.
  next_field. { kept. apply pure_dec_uuid. }
  next_field. { kept. apply pure_dec_str. }
  next_field. { kept. apply pure_dec_str. }
  next_field. { kept. apply pure_optional_list_id, parse_property_json. }
  next_field. { kept. apply pure_optional_list_id, parse_link_json. }
  next_field. { dropped. apply pure_optional_list_id, parse_parameter_json. }
  next_field.
  { dropped. apply pure_optional_list_id, parse_responsible_role_json. }
  next_field. { dropped. apply pure_optional_list_id, parse_statement_json. }
  next_field. { kept. apply pure_optional_str. }
  apply pure_ret.
Qed.

Lemma parse_implementation_json (c : ControlImplementation.t) :
  pure_at (Wire.parse_implementation uuid_parse uuid4_values
             (Wire.implementation_json uuid_str c))
          (Wire.normal_implementation c).
Proof.
  destruct c as [uuid source description props links requirements].
  unfold Wire.parse_implementation, Wire.implementation_json.
  cbn [parse_object].
  rewrite first_unknown_emitted by reflexivity.
  next_field. { kept. apply pure_dec_uuid. }
  next_field. { kept. apply pure_dec_str. }
  next_field. { kept. apply pure_dec_str. }
  next_field. { kept. apply pure_optional_list_id, parse_property_json. }
  next_field. { kept. apply pure_optional_list_id, parse_link_json. }
  next_field. { kept. apply pure_list_norm, parse_requirement_json. }
  apply pure_ret.
Qed.

Lemma deserialize_serialize (c : Component.t) :
  pure_at (Wire.deserialize uuid_parse uuid4_values (Wire.serialize uuid_str c))
          (Wire.normal c).
Proof.
  destruct c as [uuid type title description purpose props links roles
                 protocols implementations remarks].
  unfold Wire.deserialize, Wire.serialize. cbn [parse_object].
  rewrite first_unknown_emitted by reflexivity.
  next_field. { kept. apply pure_dec_uuid. }
  next_field. { kept. apply pure_dec_type. }
  next_field. { kept. apply pure_dec_str. }
  next_field. { kept. apply pure_dec_str. }
  next_field. { kept. apply pure_optional_str. }
  next_field. { kept. apply pure_optional_list_id, parse_property_json. }
  next_field. { kept. apply pure_optional_list_id, parse_link_json. }
  next_field.
  { kept. apply pure_optional_list_id, parse_responsible_role_json. }
  next_field. { kept. apply pure_optional_list_id, parse_protocol_json. }
  eapply (pure_bind _ _ (Wire.normal_implementation <$> implementations)).
  { erewrite lookup_field_absent;
      [|erewrite (dict_get_emitted_list _ _ _
                    (Wire.implementation_json uuid_str) (Some implementations));
        [reflexivity|nodup_keys|reflexivity|reflexivity]
       |apply dict_get_emitted_absent; reflexivity].
    destruct implementations as [|imp imps]; [apply pure_ret|].
    apply (pure_list_norm _ _ _ Wire.normal_implementation (imp :: imps)),
      parse_implementation_json. }
  next_field. { kept. apply pure_optional_str. }
  apply pure_ret.
Qed.



End wire_facts.




Lemma sample_uuid_parse_str (u : UUID) :
  sample_uuid_parse (sample_uuid_str u) = Some u.
Proof.
  unfold sample_uuid_parse, sample_uuid_str.
  rewrite NilEmpty.usu. simpl. by rewrite DecimalN.Unsigned.of_to.
Qed.




(** The value read back from the serialized form of a requirement created
    with [statements=[]] has [statements=None]. *)
Example empty_statements_read_back_as_None :
  exists c',
    Wire.deserialize sample_uuid_parse sample_uuid4
      (Wire.serialize sample_uuid_str component_with_empty_list) 0%nat
    = Ok (c', 0%nat) /\
    c' <> component_with_empty_list.
Proof.
  exists (Wire.normal component_with_empty_list). split.
  - apply deserialize_serialize, sample_uuid_parse_str.
  - vm_compute. discriminate.
Qed.

(** A document that relies on defaults is not reproduced either: the
    default [type] is written and the empty list is not. *)
Example document_with_defaults_is_rewritten :
  (Wire.serialize sample_uuid_str ∘ fst) <$>
    Wire.deserialize sample_uuid_parse sample_uuid4 document_with_defaults
      0%nat
  = Ok (JObj [ ("uuid", JStr "42"); ("type", JStr "software");
               ("title", JStr "Cool Component");
               ("description", JStr "This is a really cool component.") ]).
Proof. vm_compute. reflexivity. Qed.

(** ** The list that [add_implemented_requirements] builds *)

Section listed.
Variable uuid4_values : nat -> UUID.
Variable uuid5 : UUID -> string -> UUID.
Context {Tools : Type}.
Variable ComponentTools : json -> result Tools.
Variable get_control_by_id : Tools -> string -> result (list json).

Lemma bind_Ok {A B : Type} (m : gen A) (k : A -> gen B) (n : nat)
    (b : B) (n' : nat) :
  (m ≫= k) n = Ok (b, n') ->
  exists a n1, m n = Ok (a, n1) /\ k a n1 = Ok (b, n').
Proof.
  unfold mbind, gen_bind. destruct (m n) as [[a n1]|e]; [|discriminate].
  eauto.
Qed.

Lemma lift_Ok {A : Type} (x : result A) (n : nat) (a : A) (n' : nat) :
  lift x n = Ok (a, n') -> x = Ok a /\ n' = n.
Proof. destruct x; simpl; [|discriminate]. by intros [= -> ->]. Qed.

Lemma append_by_components_nil (r : ssp.ImplementedRequirement.t) :
  append_by_components [] r = r.
Proof. destruct r. unfold append_by_components. simpl. by rewrite app_nil_r. Qed.

Lemma by_components_loop_spec (control_id : string) (address : nat)
    (component_ref : list (string * UUID))
    (components : list models.Component.t)
    (st st' : OscalSSP.Requirements) (n n' : nat) :
  OscalSSP.by_components_loop uuid4_values ComponentTools get_control_by_id
    control_id address component_ref components st n = Ok (st', n') ->
  exists new,
    length new = length (implementing control_id components) /\
    OscalSSP.objects st' =
      alter (append_by_components new) address (OscalSSP.objects st) /\
    OscalSSP.listed st' = OscalSSP.listed st ++ replicate (length new) address.
Proof.
  revert st n. induction components as [|component rest IH]; intros st n.
  - intros [= <- <-]. exists []. split; [done|]. split.
    + symmetry. apply list_alter_id. apply append_by_components_nil.
    + simpl. by rewrite app_nil_r.
  - cbn [OscalSSP.by_components_loop]. unfold implementing.
    cbn [List.filter].
    intros (cmp & n1 & [_ ->]%lift_Ok & Hrun)%bind_Ok.
    destruct (existsb _ (models.Component.controls component)).
    + apply bind_Ok in Hrun as (ctrl & n1 & [_ ->]%lift_Ok & Hrun).
      apply bind_Ok in Hrun as (cu & n1 & [_ ->]%lift_Ok & Hrun).
      apply bind_Ok in Hrun as (first & n1 & [_ ->]%lift_Ok & Hrun).
      apply bind_Ok in Hrun as (description & n1 & [_ ->]%lift_Ok & Hrun).
      apply bind_Ok in Hrun as (uuid & n1 & [= <- <-] & Hrun).
      apply IH in Hrun as (new & Hlen & Hobjects & Hlisted).
      exists (ssp.ByComponent.mk (uuid4_values n) cu description :: new).
      split; [simpl; by rewrite Hlen|]. split.
      * rewrite Hobjects. simpl. rewrite list_alter_alter_eq.
        apply list_alter_ext; [|done]. intros r _.
        unfold append_by_components,
          ssp.ImplementedRequirement.add_by_component. simpl.
        by rewrite <- app_assoc.
      * rewrite Hlisted. simpl. by rewrite <- app_assoc.
    + apply IH in Hrun as (new & Hlen & Hobjects & Hlisted). by exists new.
Qed.

Lemma resolve_app (objects : list ssp.ImplementedRequirement.t)
    (r : ssp.ImplementedRequirement.t) (listed : list nat) (k : nat) :
  (forall address, address ∈ listed -> (address < length objects)%nat) ->
  OscalSSP.resolve
    (OscalSSP.mkRequirements (objects ++ [r])
       (listed ++ replicate k (length objects)))
  = OscalSSP.resolve (OscalSSP.mkRequirements objects listed)
    ++ replicate k r.
Proof.
  intros Hvalid. unfold OscalSSP.resolve.
  cbn [OscalSSP.objects OscalSSP.listed]. rewrite omap_app. f_equal.
  - induction listed as [|a listed IH]; [done|]. cbn [omap list_omap].
    rewrite lookup_app_l by (apply Hvalid, list_elem_of_here).
    rewrite IH; [done|]. intros b Hb. apply Hvalid.
    by apply list_elem_of_further.
  - induction k as [|k IH]; [done|]. cbn [replicate omap list_omap].
    rewrite list_lookup_middle by done. by rewrite IH.
Qed.

Lemma controls_loop_spec (component_ref : list (string * UUID))
    (components : list models.Component.t)
    (controls : list models.Control.t)
    (st st' : OscalSSP.Requirements) (n n' : nat) :
  valid_addresses st ->
  OscalSSP.controls_loop uuid4_values ComponentTools get_control_by_id
    component_ref components controls st n = Ok (st', n') ->
  requirement_shape <$> OscalSSP.resolve st' =
    (requirement_shape <$> OscalSSP.resolve st) ++
    (control ← controls; expected_entries components control).
Proof.
  revert st n. induction controls as [|control rest IH]; intros st n Hvalid.
  - intros [= <- <-]. simpl. by rewrite app_nil_r.
  - cbn [OscalSSP.controls_loop].
    intros (uuid & n1 & [= <- <-] & Hrun)%bind_Ok.
    apply bind_Ok in Hrun as (st1 & n1 & Hinner & Hrest).
    apply by_components_loop_spec in Hinner as (new & Hlen & Hobjects & Hlisted).
    simpl in Hobjects, Hlisted.
    rewrite <- (Nat.add_0_r (length (OscalSSP.objects st))) in Hobjects at 1.
    rewrite alter_app_r in Hobjects. simpl in Hobjects.
    assert (st1 = OscalSSP.mkRequirements
                    (OscalSSP.objects st ++
                       [ssp.ImplementedRequirement.mk (uuid4_values n)
                          (models.Control.control_id control) new])
                    (OscalSSP.listed st ++
                       replicate (length new) (length (OscalSSP.objects st))))
      as ->.
    { destruct st1. simpl in *. by subst. }
    apply IH in Hrest.
    + rewrite Hrest. rewrite resolve_app by exact Hvalid.
      rewrite fmap_app, fmap_replicate. rewrite <- app_assoc. f_equal.
      destruct st. simpl. f_equal. unfold expected_entries.
      unfold requirement_shape at 1. simpl. by rewrite Hlen.
    + intros a. simpl. rewrite elem_of_app, length_app. simpl.
      intros [Ha|Ha].
      * apply Hvalid in Ha. lia.
      * apply elem_of_replicate in Ha as [-> _]. lia.
Qed.

(** Whenever a download succeeds, the requirements of the document are, for
    each tracked control in turn, the control's requirement repeated once
    per component that implements it, each copy holding one by-component
    entry per such component. *)
Lemma listed_once_per_implementing_component
    (project : models.Project.t) (extras : Extras) (document : ssp.Model.t) :
  OscalSSP.download uuid4_values uuid5 ComponentTools get_control_by_id
    project extras = Ok document ->
  requirement_shape <$> listed_requirements document =
    (control ← models.Project.controls project;
     expected_entries (models.Project.components project) control).
Proof.
  unfold OscalSSP.download.
  destruct ((OscalSSP.init uuid4_values _ _ project extras ≫= _) 0%nat)
    as [[doc n]|e] eqn:Hrun; [|discriminate]. intros [= ->].
  apply bind_Ok in Hrun as (self & n1 & Hinit & Hssp).
  unfold OscalSSP.init in Hinit.
  apply bind_Ok in Hinit as ([metadata users] & n2 & _ & Hinit).
  apply bind_Ok in Hinit as ([si ref] & n3 & _ & Hinit).
  apply bind_Ok in Hinit as ([description reqs] & n4 & Hreqs & [= <- <-]).
  unfold OscalSSP.add_implemented_requirements in Hreqs.
  apply bind_Ok in Hreqs as (reqs' & n5 & Hloop & [= <- <- <-]).
  apply controls_loop_spec in Hloop.
  - unfold OscalSSP.get_ssp in Hssp.
    apply bind_Ok in Hssp as (sc & n6 & _ & Hssp).
    apply bind_Ok in Hssp as (bm & n7 & _ & Hssp).
    apply bind_Ok in Hssp as (u & n8 & _ & [= <- <-]).
    unfold listed_requirements. simpl. exact Hloop.
  - intros a Ha. simpl in Ha. by apply elem_of_nil in Ha.
Qed.
End listed.


(** * Further properties of [component.py] *)

(** ** [Component.get_control] *)

Lemma next_filter_elem_of {A : Type} (pred : A -> bool) (xs : list A) (x : A) :
  next_filter pred xs = Some x -> x ∈ xs /\ pred x = true.
Proof.
  intros (b & a & -> & Hx & _)%next_filter_Some. split; [|done].
  apply elem_of_app. right. apply list_elem_of_here.
Qed.

Lemma get_control_Ok (self : Component.t) (control_id version : string)
    (req : ImplementedRequirement.t) :
  Component.get_control self control_id version = Ok req <->
  exists imp,
    Component.get_control_implementation self version = Ok imp /\
    next_filter
      (fun r => String.eqb (ImplementedRequirement.control_id r) control_id)
      (ControlImplementation.implemented_requirements imp) = Some req.
Proof.
  unfold Component.get_control. split.
  - destruct (Component.get_control_implementation self version) as [imp|e];
      simpl; [|discriminate].
    destruct (next_filter _ (ControlImplementation.implemented_requirements imp))
      as [found|] eqn:E; [|discriminate].
    intros [= <-]. exists imp. split; [reflexivity|exact E].
  - intros (imp & -> & E). simpl. by rewrite E.
Qed.

Lemma get_control_implementation_elem_of (self : Component.t)
    (version : string) (imp : ControlImplementation.t) :
  Component.get_control_implementation self version = Ok imp ->
  imp ∈ Component.control_implementations self.
Proof.
  unfold Component.get_control_implementation.
  destruct (next_filter _ (Component.control_implementations self))
    as [found|] eqn:E; [|discriminate].
  intros [= <-]. by apply next_filter_elem_of in E as [? _].
Qed.

(** X1.  [get_control] returns the first requirement for the control in the
    implementation that [get_control_implementation] selects for the
    version: it returns [req] exactly when that implementation lists [req],
    a requirement for the control, after requirements for other controls
    only. *)
Theorem get_control_first_requirement (self : Component.t)
    (control_id version : string) (req : ImplementedRequirement.t) :
  Component.get_control self control_id version = Ok req <->
  exists imp before after,
    Component.get_control_implementation self version = Ok imp /\
    ControlImplementation.implemented_requirements imp
      = before ++ req :: after /\
    ImplementedRequirement.control_id req = control_id /\
    forall other, other ∈ before ->
                  ImplementedRequirement.control_id other <> control_id.
Proof.
  rewrite get_control_Ok. split.
  - intros (imp & Himp & (b & a & E1 & E2 & E3)%next_filter_Some).
    exists imp, b, a. split; [done|]. split; [done|].
    split; [by apply String.eqb_eq|].
    intros o Ho. apply String.eqb_neq. by apply E3.
  - intros (imp & b & a & Himp & E1 & E2 & E3). exists imp. split; [done|].
    apply next_filter_Some. exists b, a. split; [done|].
    split; [by apply String.eqb_eq|].
    intros o Ho. apply String.eqb_neq. by apply E3.
Qed.

(** X2.  A miss of [get_control_implementation] reaches the callers of
    [get_control] and of [controls] as the same exception; with an
    implementation for the version that holds no requirement for the
    control, [get_control] raises its own [KeyError], which names the
    control. *)
Theorem get_control_misses (self : Component.t) (control_id version : string) :
  (forall e,
     Component.get_control_implementation self version = Raise e ->
     Component.get_control self control_id version = Raise e /\
     (version <> "" -> Component.controls self (Some version) = Raise e)) /\
  (forall imp,
     Component.get_control_implementation self version = Ok imp ->
     (forall req, req ∈ ControlImplementation.implemented_requirements imp ->
                  ImplementedRequirement.control_id req <> control_id) ->
     Component.get_control self control_id version
     = Raise (KeyError (control_id +:+ " is not implemented in this component."))).
Proof.
  split.
  - intros e He. unfold Component.get_control, Component.controls.
    rewrite He. split; [done|]. intros Hv.
    destruct version; [done|]. simpl. by rewrite He.
  - intros imp Himp Hnone. unfold Component.get_control. rewrite Himp. simpl.
    assert (next_filter
              (fun r => String.eqb (ImplementedRequirement.control_id r)
                                   control_id)
              (ControlImplementation.implemented_requirements imp) = None)
      as ->; [|done].
    apply next_filter_None. intros r Hr. apply String.eqb_neq. by apply Hnone.
Qed.

Lemma get_control_misses_witness :
  Component.get_control multi_component "ac-2" "NIST_SP80053R3"
  = Raise (KeyError
      "Provided catalog version is not in control implementations: 'NIST_SP80053R3'.") /\
  Component.get_control multi_component "ac-9" "NIST_SP80053R5"
  = Raise (KeyError "ac-9 is not implemented in this component.").
Proof.
  split.
  - apply (proj1 (get_control_misses multi_component "ac-2" "NIST_SP80053R3")).
    reflexivity.
  - apply (proj2 (get_control_misses multi_component "ac-9" "NIST_SP80053R5")
             rev5_first); [reflexivity|].
    intros req Hreq. unfold rev5_first, sample_implementation in Hreq.
    simpl in Hreq.
    repeat (apply elem_of_cons in Hreq as [->|Hreq]; [vm_compute; discriminate|]).
    exfalso. exact (proj1 (elem_of_nil req) Hreq).
Defined.

(** X3.  A requirement that [get_control] finds for some version is one of
    [controls()], and of [controls(version)] when the version is not empty,
    and its control is one of [control_ids]; [control_ids] is never longer
    than [controls()]. *)
Theorem get_control_among_controls (self : Component.t)
    (control_id version : string) (req : ImplementedRequirement.t) :
  Component.get_control self control_id version = Ok req ->
  control_id ∈ Component.control_ids self /\
  (exists all, Component.controls self None = Ok all /\ req ∈ all) /\
  (version <> "" ->
   exists reqs, Component.controls self (Some version) = Ok reqs /\ req ∈ reqs) /\
  (length (Component.control_ids self)
   <= length (Component.all_requirements self))%nat.
Proof.
  intros (imp & Himp & (Hreq & Hid)%next_filter_elem_of)%get_control_Ok.
  apply String.eqb_eq in Hid.
  apply get_control_implementation_elem_of in Himp as Hin.
  assert (req ∈ Component.all_requirements self) as Hall.
  { apply elem_of_all_requirements. by exists imp. }
  split; [|split; [|split]].
  - unfold Component.control_ids.
    rewrite elem_of_elements, elem_of_list_to_set, list_elem_of_fmap.
    by exists req.
  - by exists (Component.all_requirements self).
  - intros Hv. exists (ControlImplementation.implemented_requirements imp).
    split; [|done]. unfold Component.controls.
    destruct version; [done|]. simpl. by rewrite Himp.
  - unfold Component.control_ids.
    rewrite <- (length_fmap ImplementedRequirement.control_id
                  (Component.all_requirements self)).
    apply submseteq_length, NoDup_submseteq; [apply NoDup_elements|].
    intros x. by rewrite elem_of_elements, elem_of_list_to_set.
Qed.

Lemma get_control_among_controls_witness :
  "ac-3" ∈ Component.control_ids multi_component /\
  (length (Component.control_ids multi_component)
   <= length (Component.all_requirements multi_component))%nat.
Proof.
  destruct (get_control_among_controls multi_component "ac-3" "NIST_SP80053R5"
              (sample_requirement 22%N "ac-3" "Access enforcement.")
              eq_refl) as (H1 & _ & _ & H2).
  split; [exact H1|exact H2].
Defined.

(** ** Properties of an [ImplementedRequirement] *)

Lemma next_filter_app {A : Type} (pred : A -> bool) (xs ys : list A) :
  next_filter pred (xs ++ ys) =
  match next_filter pred xs with
  | Some x => Some x
  | None => next_filter pred ys
  end.
Proof.
  induction xs as [|x xs IH]; [done|]. simpl. by destruct (pred x).
Qed.

(** X4.  [_props_filter] returns the value of the first property with the
    given name, and [None] exactly when the requirement has no property
    list or no property of that name; [provider] and [responsibility] read
    the properties named [provider] and [security_control_type]. *)
Theorem props_filter_first_property (self : ImplementedRequirement.t)
    (name : string) :
  (forall value,
     ImplementedRequirement._props_filter self name = Some value <->
     exists before p after,
       ImplementedRequirement.props self = Some (before ++ p :: after) /\
       Property_.name p = name /\ Property_.value p = value /\
       forall q, q ∈ before -> Property_.name q <> name) /\
  (ImplementedRequirement._props_filter self name = None <->
   forall ps p, ImplementedRequirement.props self = Some ps -> p ∈ ps ->
                Property_.name p <> name) /\
  (forall value,
     ImplementedRequirement.provider self = Some value ->
     exists ps, ImplementedRequirement.props self = Some ps /\
                Property_.mk "provider" value ∈ ps) /\
  (forall value,
     ImplementedRequirement.responsibility self = Some value ->
     exists ps, ImplementedRequirement.props self = Some ps /\
                Property_.mk "security_control_type" value ∈ ps).
Proof.
  assert (forall n value,
            ImplementedRequirement._props_filter self n = Some value ->
            exists ps, ImplementedRequirement.props self = Some ps /\
                       Property_.mk n value ∈ ps) as Hread.
  { intros n value. unfold ImplementedRequirement._props_filter.
    destruct (ImplementedRequirement.props self) as [ps|]; [|discriminate].
    destruct (next_filter _ ps) as [p|] eqn:E; [|discriminate].
    intros [= <-]. exists ps. split; [done|].
    apply next_filter_elem_of in E as [Hin Hname].
    apply String.eqb_eq in Hname. subst n. by destruct p. }
  split; [|split; [|split]].
  - intros value. unfold ImplementedRequirement._props_filter. split.
    + destruct (ImplementedRequirement.props self) as [ps|]; [|discriminate].
      destruct (next_filter _ ps) as [p|] eqn:E; [|discriminate].
      intros [= <-]. apply next_filter_Some in E as (b & a & -> & E2 & E3).
      exists b, p, a. split; [done|]. split; [by apply String.eqb_eq|].
      split; [done|]. intros q Hq. apply String.eqb_neq. by apply E3.
    + intros (b & p & a & -> & Hname & <- & Hb).
      assert (next_filter (fun prop => String.eqb (Property_.name prop) name)
                (b ++ p :: a) = Some p) as ->; [|done].
      apply next_filter_Some. exists b, a. split; [done|].
      split; [by apply String.eqb_eq|].
      intros q Hq. apply String.eqb_neq. by apply Hb.
  - unfold ImplementedRequirement._props_filter. split.
    + destruct (ImplementedRequirement.props self) as [ps0|]; [|discriminate].
      destruct (next_filter _ ps0) as [p0|] eqn:E; [discriminate|].
      intros _ ps p [= <-] Hp. apply String.eqb_neq.
      rewrite next_filter_None in E. by apply E.
    + intros Hnone.
      destruct (ImplementedRequirement.props self) as [ps0|]; [|done].
      assert (next_filter (fun prop => String.eqb (Property_.name prop) name)
                ps0 = None) as ->; [|done].
      apply next_filter_None. intros p Hp. apply String.eqb_neq.
      by apply (Hnone ps0).
  - apply Hread.
  - apply Hread.
Qed.

(** X5.  [add_property] never hides a property: after it, [_props_filter]
    still answers with the value it gave before for every name it knew, and
    answers with the new property's value only for a name it did not know.
    Adding a second property with a name already in use leaves [provider]
    and [responsibility] as they were. *)
Theorem add_property_first_wins (self : ImplementedRequirement.t)
    (property : Property_.t) (name : string) :
  exists self',
    ImplementedRequirement.add_property self property = Ok self' /\
    ImplementedRequirement._props_filter self' name =
    match ImplementedRequirement._props_filter self name with
    | Some value => Some value
    | None => if String.eqb (Property_.name property) name
              then Some (Property_.value property) else None
    end.
Proof.
  rewrite add_property_appends. eexists. split; [reflexivity|].
  unfold ImplementedRequirement._props_filter. simpl.
  rewrite next_filter_app. simpl.
  destruct (ImplementedRequirement.props self) as [ps|]; simpl.
  - destruct (next_filter _ ps); [done|].
    by destruct (String.eqb (Property_.name property) name).
  - by destruct (String.eqb (Property_.name property) name).
Qed.

(** X6.  The three mutators never raise: each returns the requirement with
    the new entry appended to its list (an absent list counting as empty),
    whatever keys the list already holds, and leaves every other field as
    it was. *)
Theorem mutators_append (self : ImplementedRequirement.t)
    (statement : Statement.t) (set_parameter : Parameter_.t)
    (property : Property_.t) :
  (exists self',
     ImplementedRequirement.add_statement self statement = Ok self' /\
     ImplementedRequirement.statements self'
     = Some (default [] (ImplementedRequirement.statements self) ++ [statement]) /\
     ImplementedRequirement.with_statements self'
       (ImplementedRequirement.statements self) = self) /\
  (exists self',
     ImplementedRequirement.add_parameter self set_parameter = Ok self' /\
     ImplementedRequirement.set_parameters self'
     = Some (default [] (ImplementedRequirement.set_parameters self)
             ++ [set_parameter]) /\
     ImplementedRequirement.with_set_parameters self'
       (ImplementedRequirement.set_parameters self) = self) /\
  (exists self',
     ImplementedRequirement.add_property self property = Ok self' /\
     ImplementedRequirement.props self'
     = Some (default [] (ImplementedRequirement.props self) ++ [property]) /\
     ImplementedRequirement.with_props self'
       (ImplementedRequirement.props self) = self).
Proof.
  rewrite add_statement_appends, add_parameter_appends, add_property_appends.
  repeat split; eexists; (split; [reflexivity|]); by destruct self.
Qed.

(** ** [ComponentDefinition] *)

(** X7.  [add_component] and [add_capability] never raise: the test
    [key in self.components] looks for a string among model instances, so
    a component or capability whose UUID is already present is appended
    like any other, and the other fields of the definition stay as they
    were. *)
Theorem definition_mutators_append {Metadata BackMatter : Type}
    (uuid_str : UUID -> string)
    (self : ComponentDefinition.t (Metadata := Metadata) (BackMatter := BackMatter))
    (component : Component.t) (capability : Capability.t) :
  (exists self',
     ComponentDefinition.add_component uuid_str self component = Ok self' /\
     ComponentDefinition.components self'
     = Some (default [] (ComponentDefinition.components self) ++ [component]) /\
     ComponentDefinition.with_components self'
       (ComponentDefinition.components self) = self) /\
  (exists self',
     ComponentDefinition.add_capability uuid_str self capability = Ok self' /\
     ComponentDefinition.capabilities self'
     = Some (default [] (ComponentDefinition.capabilities self) ++ [capability]) /\
     ComponentDefinition.with_capabilities self'
       (ComponentDefinition.capabilities self) = self).
Proof.
  unfold ComponentDefinition.add_component, ComponentDefinition.add_capability.
  rewrite !str_in_models_false.
  split.
  - destruct self as [? ? [[|c cs]|] ? ? ?]; eexists; (split; [reflexivity|]);
      by split.
  - destruct self as [? ? ? ? [[|c cs]|] ?]; eexists; (split; [reflexivity|]);
      by split.
Qed.

(** * Further properties of [downloads.py] *)

(** ** The roles and users of [set_roles] *)

Lemma existsb_eqb_elem_of (id : string) (ids : list string) :
  existsb (String.eqb id) ids = true <-> id ∈ ids.
Proof.
  induction ids as [|x ids IH]; simpl.
  - split; [discriminate|]. intros H. exfalso. exact (proj1 (elem_of_nil id) H).
  - rewrite orb_true_iff, IH, elem_of_cons, String.eqb_eq. tauto.
Qed.

Lemma stakeholders_loop_invariant (uuid4_values : nat -> UUID)
    (stakeholders : list Stakeholder) (st : OscalSSP.Roles) (n : nat) :
  Forall has_props stakeholders ->
  exists new_users new_roles properties,
    OscalSSP.stakeholders_loop uuid4_values stakeholders st n
    = Ok (OscalSSP.mkRoles (OscalSSP.ids st ++ (ssp.Role.id <$> new_roles))
            properties (OscalSSP.roles_users st ++ new_users)
            (OscalSSP.roles st ++ new_roles),
          (n + length new_roles)%nat) /\
    new_roles
    = (fun u => ssp.Role.mk (OscalSSP.role_id_of (ssp.User.title u))
                  (Str.strip (ssp.User.title u))
                  (Str.upper (ssp.User.short_name u))) <$> new_users /\
    Forall (fun u => ssp.User.title u <> "" /\
                     ssp.User.role_ids u
                     = [OscalSSP.role_id_of (ssp.User.title u)] /\
                     length (ssp.User.props u) = 1%nat) new_users /\
    ssp.User.uuid <$> new_users = uuid4_values <$> seq n (length new_roles) /\
    (NoDup (OscalSSP.ids st) ->
     NoDup (OscalSSP.ids st ++ (ssp.Role.id <$> new_roles))) /\
    (forall id,
       id ∈ OscalSSP.ids st ++ (ssp.Role.id <$> new_roles) <->
       id ∈ OscalSSP.ids st \/
       exists s, s ∈ stakeholders /\ stakeholder_title s <> "" /\
                 OscalSSP.role_id_of (stakeholder_title s) = id).
Proof.
  revert st n. induction stakeholders as [|stakeholder rest IH];
    intros st n Hall.
  - exists [], [], (OscalSSP.properties st). simpl. rewrite !app_nil_r, Nat.add_0_r.
    split; [by destruct st|]. split; [done|]. split; [constructor|].
    split; [done|]. split; [done|].
    intros id. split; [by left|]. intros [?|(s & Hs & _)]; [done|].
    exfalso. exact (proj1 (elem_of_nil s) Hs).
  - apply Forall_cons in Hall as [Hprops Hall].
    destruct (items_loop_runs stakeholder ("", "", OscalSSP.properties st) Hprops)
      as [[[title short_name] properties] E].
    rewrite (stakeholders_loop_cons _ _ _ _ _ _ _ _ E).
    pose proof (items_loop_title _ _ _ _ _ E) as Htitle.
    destruct (negb (String.eqb title "") &&
              negb (existsb (String.eqb (OscalSSP.role_id_of title))
                      (OscalSSP.ids st))) eqn:Hcond.
    + apply andb_true_iff in Hcond as [Hne Hfresh].
      apply negb_true_iff, String.eqb_neq in Hne.
      apply negb_true_iff in Hfresh.
      assert (OscalSSP.role_id_of title ∉ OscalSSP.ids st) as Hnotin.
      { intros Hin%existsb_eqb_elem_of. congruence. }
      destruct (items_loop_properties _ _ _ _ _ E Hne) as [p ->].
      unfold mbind, gen_bind, lift, uuid4. simpl.
      match goal with |- context [OscalSSP.stakeholders_loop _ rest ?s ?m] =>
        destruct (IH s m Hall)
          as (us & rs & ps & -> & Hrs & Hus & Huuid & Hnodup & Hids) end.
      simpl in *.
      exists (ssp.User.mk (uuid4_values n) [OscalSSP.role_id_of title] title
                short_name [p] :: us),
             (ssp.Role.mk (OscalSSP.role_id_of title) (Str.strip title)
                (Str.upper short_name) :: rs), ps.
      simpl. rewrite <- !app_assoc in *. simpl in *.
      rewrite Nat.add_succ_r.
      split; [done|]. split; [by rewrite Hrs|].
      split; [by constructor|]. split; [by f_equal|].
      split.
      * intros Hst. apply Hnodup. apply NoDup_app. split; [done|].
        split; [|apply NoDup_singleton].
        intros x Hx ->%list_elem_of_singleton. done.
      * intros id. rewrite Hids, elem_of_app, list_elem_of_singleton. split.
        -- intros [[?|Heq]|(s & Hs & Hs1 & Hs2)].
           ++ by left.
           ++ subst id. right. exists stakeholder.
              split; [apply list_elem_of_here|]. by rewrite <- Htitle.
           ++ right. exists s. split; [by apply list_elem_of_further|done].
        -- intros [?|(s & Hs & Hs1 & Hs2)]; [by left; left|].
           apply elem_of_cons in Hs as [->|Hs].
           ++ left. right. by rewrite Htitle.
           ++ right. by exists s.
    + match goal with |- context [OscalSSP.stakeholders_loop _ rest ?s ?m] =>
        destruct (IH s m Hall)
          as (us & rs & ps & -> & Hrs & Hus & Huuid & Hnodup & Hids) end.
      simpl in *. exists us, rs, ps.
      split; [done|]. split; [done|]. split; [done|]. split; [done|].
      split; [done|].
      intros id. rewrite Hids. split.
      * intros [?|(s & Hs & Hs1 & Hs2)]; [by left|].
        right. exists s. split; [by apply list_elem_of_further|done].
      * intros [?|(s & Hs & Hs1 & Hs2)]; [by left|].
        apply elem_of_cons in Hs as [->|Hs]; [|right; by exists s].
        left. rewrite <- Htitle in Hs1, Hs2. subst id.
        apply existsb_eqb_elem_of.
        apply andb_false_iff in Hcond as [Hc|Hc].
        -- apply negb_false_iff, String.eqb_eq in Hc. done.
        -- by apply negb_false_iff in Hc.
Qed.

Lemma items_loop_raises (items : Stakeholder)
    (vars : string * string * option Property_.t) :
  ~ has_props items ->
  OscalSSP.items_loop items vars
  = Raise (AttributeError "'NoneType' object has no attribute 'get'").
Proof.
  revert vars. induction items as [|[key value] items IH]; intros vars Hnot.
  - exfalso. apply Hnot. constructor.
  - cbn [OscalSSP.items_loop].
    destruct (OscalSSP.stakeholder_entry key) as [t s].
    destruct (get_props value) as [props|] eqn:E; [|done].
    apply IH. intros Hall. apply Hnot. constructor; [|done].
    simpl. by rewrite E.
Qed.

(** The loop of [set_roles] goes through exactly when every value holds
    props; otherwise it raises at the first value that does not. *)
Lemma stakeholders_loop_outcome (uuid4_values : nat -> UUID)
    (stakeholders : list Stakeholder) (st : OscalSSP.Roles) (n : nat) :
  match OscalSSP.stakeholders_loop uuid4_values stakeholders st n with
  | Ok _ => Forall has_props stakeholders
  | Raise e =>
      e = AttributeError "'NoneType' object has no attribute 'get'" /\
      ~ Forall has_props stakeholders
  end.
Proof.
  revert st n. induction stakeholders as [|stakeholder rest IH]; intros st n.
  - constructor.
  - destruct (OscalSSP.items_loop stakeholder ("", "", OscalSSP.properties st))
      as [[[title short_name] properties]|e] eqn:E.
    + pose proof (items_loop_Ok _ _ _ E) as Hprops.
      rewrite (stakeholders_loop_cons _ _ _ _ _ _ _ _ E).
      assert (forall s m,
                match OscalSSP.stakeholders_loop uuid4_values rest s m with
                | Ok _ => Forall has_props (stakeholder :: rest)
                | Raise e =>
                    e = AttributeError "'NoneType' object has no attribute 'get'"
                    /\ ~ Forall has_props (stakeholder :: rest)
                end) as Hrest.
      { intros s m. specialize (IH s m).
        destruct (OscalSSP.stakeholders_loop uuid4_values rest s m);
          [by constructor|].
        destruct IH as [-> Hnot]. split; [done|].
        by intros [_ ?]%Forall_cons. }
      destruct (negb (String.eqb title "") && _) eqn:Hcond; [|apply Hrest].
      apply andb_true_iff in Hcond as [Hne _].
      apply negb_true_iff, String.eqb_neq in Hne.
      destruct (items_loop_properties _ _ _ _ _ E Hne) as [p ->].
      unfold mbind, gen_bind, lift, uuid4. apply Hrest.
    + rewrite (stakeholders_loop_raise _ _ _ _ _ _ E).
      destruct (decide (has_props stakeholder)) as [Hprops|Hnot].
      * destruct (items_loop_runs stakeholder ("", "", OscalSSP.properties st)
                    Hprops) as [out Hout]. congruence.
      * rewrite (items_loop_raises _ _ Hnot) in E. injection E as <-.
        split; [done|]. by intros [? _]%Forall_cons.
Qed.

Lemma set_roles_run (uuid4_values : nat -> UUID) (metadata : ssp.Metadata.t)
    (entries : list Stakeholder) (n : nat) :
  Forall has_props entries ->
  exists users roles,
    OscalSSP.set_roles uuid4_values metadata (mkExtras (Some entries)) n
    = Ok ((ssp.Metadata.mk (ssp.Metadata.title metadata)
             (ssp.Metadata.version metadata)
             (ssp.Metadata.oscal_version metadata) (Some roles), users),
          (n + length roles)%nat) /\
    length users = length roles.
Proof.
  intros Hall. unfold OscalSSP.set_roles. simpl.
  destruct (stakeholders_loop_invariant uuid4_values entries
              (OscalSSP.mkRoles [] None [] []) n Hall)
    as (us & rs & ps & Hrun & Hrs & _).
  exists us, rs. unfold mbind at 1, gen_bind. rewrite Hrun. simpl.
  split; [done|]. rewrite Hrs. by rewrite length_fmap.
Qed.

Lemma set_roles_Ok (uuid4_values : nat -> UUID) (metadata : ssp.Metadata.t)
    (extras : Extras) (n : nat) (metadata' : ssp.Metadata.t)
    (users : list ssp.User.t) (n' : nat) :
  OscalSSP.set_roles uuid4_values metadata extras n
  = Ok ((metadata', users), n') ->
  exists roles,
    metadata' = ssp.Metadata.mk (ssp.Metadata.title metadata)
                  (ssp.Metadata.version metadata)
                  (ssp.Metadata.oscal_version metadata) (Some roles) /\
    length users = length roles.
Proof.
  destruct extras as [[entries|]]; [|discriminate]. intros Hrun.
  assert (Forall has_props entries) as Hall.
  { revert Hrun. unfold OscalSSP.set_roles. simpl.
    unfold mbind at 1, gen_bind.
    pose proof (stakeholders_loop_outcome uuid4_values entries
                  (OscalSSP.mkRoles [] None [] []) n) as Hout.
    destruct (OscalSSP.stakeholders_loop uuid4_values entries _ n);
      [done|discriminate]. }
  destruct (set_roles_run uuid4_values metadata entries n Hall)
    as (us & rs & Hrun' & Hlen).
  rewrite Hrun' in Hrun. injection Hrun as <- <- _. by exists rs.
Qed.

(** X8.  On extras that hold a list of stakeholders whose values all hold
    props and whose keys are ASCII text, [set_roles] does not raise.  It
    draws one UUID per role, in order, for the users; the role ids are
    pairwise distinct; every role is computed from the user at the same
    position (id from the title, title stripped, short name in upper
    case); every user has a title that is not empty, the id of its role as
    its only role id, and one property; and the other fields of the
    metadata are kept. *)
Theorem set_roles_users_and_roles (uuid4_values : nat -> UUID)
    (metadata : ssp.Metadata.t) (entries : list Stakeholder) (n : nat) :
  Forall has_props entries ->
  Forall ascii_keys entries ->
  exists users roles,
    OscalSSP.set_roles uuid4_values metadata (mkExtras (Some entries)) n
    = Ok ((ssp.Metadata.mk (ssp.Metadata.title metadata)
             (ssp.Metadata.version metadata)
             (ssp.Metadata.oscal_version metadata) (Some roles), users),
          (n + length roles)%nat) /\
    NoDup (ssp.Role.id <$> roles) /\
    roles = (fun u => ssp.Role.mk (OscalSSP.role_id_of (ssp.User.title u))
                        (Str.strip (ssp.User.title u))
                        (Str.upper (ssp.User.short_name u))) <$> users /\
    Forall (fun u => ssp.User.title u <> "" /\
                     ssp.User.role_ids u
                     = [OscalSSP.role_id_of (ssp.User.title u)] /\
                     length (ssp.User.props u) = 1%nat) users /\
    ssp.User.uuid <$> users = uuid4_values <$> seq n (length roles).
Proof.
  intros Hall _. unfold OscalSSP.set_roles. simpl.
  destruct (stakeholders_loop_invariant uuid4_values entries
              (OscalSSP.mkRoles [] None [] []) n Hall)
    as (us & rs & ps & Hrun & Hrs & Hus & Huuid & Hnodup & _).
  exists us, rs. unfold mbind at 1, gen_bind. rewrite Hrun. simpl.
  split; [done|]. split; [apply Hnodup; constructor|]. done.
Qed.

Lemma sample_stakeholders_props : Forall has_props sample_stakeholders.
Proof. repeat constructor; by eexists. Qed.

Lemma sample_stakeholders_ascii : Forall ascii_keys sample_stakeholders.
Proof. repeat constructor. Qed.

Lemma set_roles_users_and_roles_witness :
  exists users roles,
    OscalSSP.set_roles sample_uuid4 (ssp.Metadata.mk "POP" "0.1" "1.0.2" None)
      (mkExtras (Some sample_stakeholders)) 0%nat
    = Ok ((ssp.Metadata.mk "POP" "0.1" "1.0.2" (Some roles), users),
          length roles) /\
    NoDup (ssp.Role.id <$> roles).
Proof.
  destruct (set_roles_users_and_roles sample_uuid4
              (ssp.Metadata.mk "POP" "0.1" "1.0.2" None) sample_stakeholders
              0%nat sample_stakeholders_props sample_stakeholders_ascii)
    as (users & roles & Hrun & Hnodup & _).
  exists users, roles. split; [exact Hrun|exact Hnodup].
Defined.

(** X9.  On extras that hold a list of stakeholders whose values all hold
    props and whose keys are ASCII text, the role ids that [set_roles]
    produces are exactly the ids of the stakeholders that have a title: an
    id is among the roles if and only if some stakeholder whose title is
    not empty has that id. *)
Theorem set_roles_role_ids (uuid4_values : nat -> UUID)
    (metadata : ssp.Metadata.t) (entries : list Stakeholder) (n : nat) :
  Forall has_props entries ->
  Forall ascii_keys entries ->
  exists metadata' users n' roles,
    OscalSSP.set_roles uuid4_values metadata (mkExtras (Some entries)) n
    = Ok ((metadata', users), n') /\
    ssp.Metadata.roles metadata' = Some roles /\
    forall id,
      id ∈ ssp.Role.id <$> roles <->
      exists s, s ∈ entries /\ stakeholder_title s <> "" /\
                OscalSSP.role_id_of (stakeholder_title s) = id.
Proof.
  intros Hall _. unfold OscalSSP.set_roles. simpl.
  destruct (stakeholders_loop_invariant uuid4_values entries
              (OscalSSP.mkRoles [] None [] []) n Hall)
    as (us & rs & ps & Hrun & _ & _ & _ & _ & Hids).
  unfold mbind at 1, gen_bind. rewrite Hrun. simpl.
  eexists _, _, _, rs. split; [reflexivity|]. split; [reflexivity|].
  intros id. simpl in Hids. rewrite Hids. split.
  - intros [H|H]; [|done]. exfalso. exact (proj1 (elem_of_nil id) H).
  - intros H. by right.
Qed.

Lemma set_roles_role_ids_witness :
  exists metadata' users n' roles,
    OscalSSP.set_roles sample_uuid4 (ssp.Metadata.mk "POP" "0.1" "1.0.2" None)
      (mkExtras (Some sample_stakeholders)) 0%nat
    = Ok ((metadata', users), n') /\
    ssp.Metadata.roles metadata' = Some roles /\
    "system-owner" ∈ ssp.Role.id <$> roles.
Proof.
  destruct (set_roles_role_ids sample_uuid4
              (ssp.Metadata.mk "POP" "0.1" "1.0.2" None) sample_stakeholders
              0%nat sample_stakeholders_props sample_stakeholders_ascii)
    as (metadata' & users & n' & roles & Hrun & Hroles & Hids).
  exists metadata', users, n', roles. split; [exact Hrun|].
  split; [exact Hroles|]. apply Hids.
  exists [("system owner", sample_value)].
  split; [apply list_elem_of_further, list_elem_of_here|].
  split; [vm_compute; discriminate|reflexivity].
Defined.


Example set_roles_without_props :
  OscalSSP.set_roles sample_uuid4 (ssp.Metadata.mk "POP" "0.1" "1.0.2" None)
    (mkExtras (Some [ [("system owner", mkStakeholderValue None)] ])) 0%nat
  = Raise (AttributeError "'NoneType' object has no attribute 'get'").
Proof. reflexivity. Qed.

(** ** Role ids and titles *)

Lemma chars_map (f : ascii -> ascii) (s : string) :
  chars (Str.map f s) = f <$> chars s.
Proof.
  induction s as [|c s IH]; [done|]. cbn [Str.map].
  rewrite !chars_cons, IH. done.
Qed.

Lemma length_map (f : ascii -> ascii) (s : string) :
  String.length (Str.map f s) = String.length s.
Proof. induction s as [|c s IH]; [done|]. simpl. by rewrite IH. Qed.

Lemma role_id_char (c : ascii) :
  let d := Str.lower_char (if Ascii.eqb c " " then "-"%char else c) in
  d <> " "%char /\ Str.lower_char d = d /\
  (if Ascii.eqb d " " then "-"%char else d) = d.
Proof.
  destruct c as [[] [] [] [] [] [] [] []]; vm_compute;
    (split; [discriminate|split; reflexivity]).
Qed.

(** X10.  The role id of a title of ASCII text has the length of the
    title, holds no space and no upper-case letter, and is a fixed point of
    the computation: titles that differ only in case, or in spaces against
    hyphens, share their role id. *)
Theorem role_id_shape (title : string) :
  Str.isascii title = true ->
  String.length (OscalSSP.role_id_of title) = String.length title /\
  (" "%char ∉ chars (OscalSSP.role_id_of title)) /\
  OscalSSP.role_id_of title = Str.lower (OscalSSP.role_id_of title) /\
  OscalSSP.role_id_of (OscalSSP.role_id_of title) = OscalSSP.role_id_of title.
Proof.
  intros _. unfold OscalSSP.role_id_of, Str.lower, Str.replace.
  split; [by rewrite !length_map|].
  induction title as [|c title (IH1 & IH2 & IH3)];
    [split; [apply not_elem_of_nil|done]|].
  destruct (role_id_char c) as (H1 & H2 & H3). simpl in H1, H2, H3.
  cbn [Str.map]. rewrite chars_cons. split; [|split].
  - apply not_elem_of_cons. split; [by apply not_eq_sym|exact IH1].
  - rewrite H2. f_equal. exact IH2.
  - rewrite H3, H2. f_equal. exact IH3.
Qed.

Lemma role_id_shape_witness :
  String.length (OscalSSP.role_id_of "System Owner") = 12%nat /\
  OscalSSP.role_id_of (OscalSSP.role_id_of "System Owner")
  = OscalSSP.role_id_of "System Owner".
Proof.
  destruct (role_id_shape "System Owner" eq_refl) as (Hlen & _ & _ & Hfix).
  split; [exact Hlen|exact Hfix].
Defined.

Lemma prefix_append (sub s : string) :
  String.prefix sub s = true -> exists after, s = sub +:+ after.
Proof.
  revert s. induction sub as [|x sub IH]; intros s; [by exists s|].
  destruct s as [|c s]; cbn [String.prefix]; [discriminate|].
  destruct (ascii_dec x c) as [<-|]; [|discriminate].
  intros [after ->]%IH. by exists after.
Qed.

Lemma find_from_range (sub s : string) (i : Z) :
  Str.find_from sub s i = -1 \/
  (i <= Str.find_from sub s i <= i + Z.of_nat (String.length s)).
Proof.
  revert i. induction s as [|c s IH]; intros i.
  - unfold Str.find_from.
    destruct (String.prefix sub ""); [right; simpl; lia|by left].
  - unfold Str.find_from; fold Str.find_from.
    destruct (String.prefix sub (String c s)); [right; simpl; lia|].
    destruct (IH (i + 1)) as [->|H]; [by left|right].
    simpl String.length. lia.
Qed.

Lemma find_from_absent (sub s : string) (i : Z) :
  ~ occurs sub s -> Str.find_from sub s i = -1.
Proof.
  revert i. induction s as [|c s IH]; intros i Hnone.
  - unfold Str.find_from. destruct (String.prefix sub "") eqn:E; [|done].
    apply prefix_append in E as [after E]. exfalso. apply Hnone.
    exists "", after. by rewrite append_empty.
  - unfold Str.find_from; fold Str.find_from.
    destruct (String.prefix sub (String c s)) eqn:E.
    + apply prefix_append in E as [after E]. exfalso. apply Hnone.
      exists "", after. by rewrite append_empty.
    + apply IH. intros Hocc. by apply Hnone, occurs_cons.
Qed.

Lemma take_prefix (n : nat) (s : string) :
  exists rest, s = Str.take n s +:+ rest /\
               String.length rest = (String.length s - n)%nat.
Proof.
  revert s. induction n as [|n IH]; intros s.
  - exists s. by destruct s.
  - destruct s as [|c s]; [by exists ""|].
    destruct (IH s) as (rest & Hs & Hlen). exists rest. simpl.
    split; [|done]. rewrite append_cons. by rewrite <- Hs.
Qed.

(** X11.  The title that [set_roles] takes from a key is always a prefix
    of the key.  It is the whole key when the key holds no parenthesised
    group; and when it holds a group but nowhere the two characters " (",
    [find] answers -1 and the title is the key without its last
    character. *)
Theorem stakeholder_title_prefix (key : string) :
  (exists rest, key = fst (OscalSSP.stakeholder_entry key) +:+ rest) /\
  (re_search_group key = None -> fst (OscalSSP.stakeholder_entry key) = key) /\
  (forall group,
     re_search_group key = Some group -> ~ occurs " (" key ->
     exists last, key = fst (OscalSSP.stakeholder_entry key)
                        +:+ String last "").
Proof.
  unfold OscalSSP.stakeholder_entry. split; [|split].
  - destruct (re_search_group key) as [g|]; simpl.
    + unfold Str.slice_to. destruct (_ <? 0).
      * destruct (take_prefix
                    (Z.to_nat (Z.of_nat (String.length key) + Str.find key " ("))
                    key) as (rest & H & _). by exists rest.
      * destruct (take_prefix (Z.to_nat (Str.find key " (")) key)
          as (rest & H & _). by exists rest.
    + exists "". clear. induction key as [|c key IH]; [done|].
      rewrite append_cons. by rewrite <- IH.
  - by intros ->.
  - intros g Hg Hnone. rewrite Hg. simpl.
    unfold Str.find. rewrite find_from_absent by done.
    unfold Str.slice_to. simpl (_ <? _).
    cbv iota.
    destruct (take_prefix (Z.to_nat (Z.of_nat (String.length key) + -1)) key)
      as (rest & H & Hlen).
    assert (String.length key <> 0%nat) as Hkey.
    { destruct key; [discriminate|done]. }
    assert (String.length rest = 1%nat) as Hone by lia.
    destruct rest as [|last [|? ?]]; try discriminate. by exists last.
Qed.

Lemma stakeholder_title_prefix_witness :
  exists last, "Owner(ISO)" = fst (OscalSSP.stakeholder_entry "Owner(ISO)")
                               +:+ String last "".
Proof.
  apply (proj2 (proj2 (stakeholder_title_prefix "Owner(ISO)")) "ISO");
    [reflexivity|].
  intros Hocc. apply (find_absent " (" "Owner(ISO)" 0); [lia|reflexivity|exact Hocc].
Defined.

(** X12.  Of a stakeholder with several keys, every value holding props,
    only the last key counts: when it is ASCII text and gives a title that
    is not empty, [set_roles] makes one role and one user for the
    stakeholder, from the title and short name of that key, and the user's
    property is the one of the last value. *)
Theorem set_roles_last_key_wins (uuid4_values : nat -> UUID)
    (metadata : ssp.Metadata.t) (earlier : Stakeholder) (key : string)
    (value : StakeholderValue) (props : Props) (n : nat) :
  has_props earlier ->
  get_props value = Some props ->
  Str.isascii key = true ->
  fst (OscalSSP.stakeholder_entry key) <> "" ->
  let title := fst (OscalSSP.stakeholder_entry key) in
  let short_name := snd (OscalSSP.stakeholder_entry key) in
  OscalSSP.set_roles uuid4_values metadata
    (mkExtras (Some [earlier ++ [(key, value)]])) n
  = Ok ((ssp.Metadata.mk (ssp.Metadata.title metadata)
           (ssp.Metadata.version metadata)
           (ssp.Metadata.oscal_version metadata)
           (Some [ssp.Role.mk (OscalSSP.role_id_of title) (Str.strip title)
                    (Str.upper short_name)]),
         [ssp.User.mk (uuid4_values n) [OscalSSP.role_id_of title] title
            short_name
            [Property_.mk (props_name props) (props_value props)]]),
        S n).
Proof.
  intros Hearlier Hprops _ Hne. simpl. unfold OscalSSP.set_roles.
  cbn [stakeholders].
  assert (has_props (earlier ++ [(key, value)])) as Hall.
  { apply Forall_app. split; [done|]. constructor; [|constructor].
    simpl. by rewrite Hprops. }
  destruct (items_loop_cases (earlier ++ [(key, value)]) "" "" None Hall)
    as [[E _]|(key' & value' & props' & earlier' & E & Hprops' & Hrun)].
  { by destruct earlier. }
  apply app_inj_tail in E as [_ [= <- <-]].
  rewrite Hprops in Hprops'. injection Hprops' as <-.
  unfold mbind at 1, gen_bind.
  pose proof (stakeholders_loop_cons uuid4_values _ []
                (OscalSSP.mkRoles [] None [] []) n _ _ _ Hrun) as Hstep.
  apply String.eqb_neq in Hne. rewrite Hne in Hstep.
  match goal with |- context [OscalSSP.stakeholders_loop ?a ?b ?c ?d] =>
    change (OscalSSP.stakeholders_loop a b c d)
      with (OscalSSP.stakeholders_loop uuid4_values
              [(earlier ++ [(key, value)] : Stakeholder)]
              (OscalSSP.mkRoles [] None [] []) n) end.
  rewrite Hstep. reflexivity.
Qed.

Lemma set_roles_last_key_wins_witness :
  ssp.Metadata.roles <$>
    (fst <$> (fst <$>
       OscalSSP.set_roles sample_uuid4 (ssp.Metadata.mk "POP" "0.1" "1.0.2" None)
         (mkExtras (Some [[("Chief Information Officer (CIO)", sample_value);
                           ("system owner", sample_value)]])) 0%nat))
  = Ok (Some [ssp.Role.mk "system-owner" "system owner" "SO"]).
Proof.
  assert (fst (OscalSSP.stakeholder_entry "system owner") <> "") as Hne
    by (vm_compute; discriminate).
  assert (has_props [("Chief Information Officer (CIO)", sample_value)])
    as Hearlier by (repeat constructor; by eexists).
  exact (f_equal (fun r => ssp.Metadata.roles <$> (fst <$> (fst <$> r)))
           (set_roles_last_key_wins sample_uuid4
              (ssp.Metadata.mk "POP" "0.1" "1.0.2" None)
              [("Chief Information Officer (CIO)", sample_value)]
              "system owner" sample_value (mkProps "type" "internal") 0%nat
              Hearlier eq_refl eq_refl Hne)).
Defined.

(** ** The components of the system implementation *)

Lemma dict_get_Some_keys {V : Type} (d : list (string * V)) (k : string) :
  is_Some (dict_get d k) <-> k ∈ d.*1.
Proof.
  induction d as [|[k0 v0] d IH]; simpl.
  - split; [by intros [? ?]|]. intros H. exfalso. exact (proj1 (elem_of_nil k) H).
  - rewrite elem_of_cons. destruct (String.eqb k0 k) eqn:E.
    + apply String.eqb_eq in E. split; [by left|by eexists].
    + apply String.eqb_neq in E. rewrite IH. split; [by right|].
      intros [?|?]; [congruence|done].
Qed.

Lemma dict_set_keys {V : Type} (d : list (string * V)) (k : string) (v : V) :
  (forall k', k' ∈ (dict_set d k v).*1 <-> k' ∈ d.*1 \/ k' = k) /\
  (NoDup d.*1 -> NoDup (dict_set d k v).*1).
Proof.
  split.
  - intros k'. rewrite <- !dict_get_Some_keys, dict_get_set.
    destruct (String.eqb k k') eqn:E.
    + apply String.eqb_eq in E. split; [by right|by eexists].
    + apply String.eqb_neq in E. split; [by left|].
      intros [?|?]; [done|congruence].
  - induction d as [|[k0 v0] d IH]; simpl; [intros _; apply NoDup_singleton|].
    rewrite NoDup_cons. intros [Hk0 Hd].
    destruct (String.eqb k0 k) eqn:E; simpl.
    + apply String.eqb_eq in E. subst k0. by apply NoDup_cons.
    + apply String.eqb_neq in E. apply NoDup_cons. split; [|by apply IH].
      intros Hin. apply Hk0.
      assert (forall k', k' ∈ (dict_set d k v).*1 -> k' ∈ d.*1 \/ k' = k) as Hkeys.
      { clear. induction d as [|[k1 v1] d IH]; simpl; intros k'.
        - intros ->%list_elem_of_singleton. by right.
        - destruct (String.eqb k1 k) eqn:E; simpl.
          + apply String.eqb_eq in E. subst k1. rewrite !elem_of_cons. tauto.
          + rewrite !elem_of_cons. intros [->|H]; [tauto|].
            destruct (IH _ H); tauto. }
      destruct (Hkeys _ Hin); [done|congruence].
Qed.

Lemma components_loop_spec (uuid4_values : nat -> UUID)
    (project : models.Project.t) (components : list models.Component.t)
    (si : ssp.SystemImplementation.t) (ref : list (string * UUID)) (n : nat) :
  exists cpts ref',
    OscalSSP.components_loop uuid4_values project components (si, ref) n
    = Ok ((ssp.SystemImplementation.mk (ssp.SystemImplementation.users si)
             (ssp.SystemImplementation.components si ++ cpts), ref'),
          (n + length components)%nat) /\
    Forall2 (fun c cpt =>
               ssp.Component.status cpt = OscalSSP.operational /\
               if models.Component.status c =? 1
               then ssp.Component.title cpt = "This System" /\
                    ssp.Component.type cpt = "this-system" /\
                    ssp.Component.description cpt = models.Project.title project
               else ssp.Component.title cpt = models.Component.title c /\
                    ssp.Component.type cpt = models.Component.type c /\
                    ssp.Component.description cpt
                    = models.Component.description c)
            components cpts /\
    ssp.Component.uuid <$> cpts = uuid4_values <$> seq n (length components) /\
    (NoDup ref.*1 -> NoDup ref'.*1) /\
    (forall k, k ∈ ref'.*1 <->
               k ∈ ref.*1 \/ k ∈ models.Component.title <$> components) /\
    (forall k, k ∉ models.Component.title <$> components ->
               dict_get ref' k = dict_get ref k) /\
    (forall before c after,
       components = before ++ c :: after ->
       models.Component.title c ∉ models.Component.title <$> after ->
       dict_get ref' (models.Component.title c)
       = Some (uuid4_values (n + length before)%nat)) /\
    (forall k u, dict_get ref' k = Some u ->
                 dict_get ref k = Some u \/ u ∈ ssp.Component.uuid <$> cpts).
Proof.
  revert si ref n. induction components as [|c rest IH]; intros si ref n.
  - exists [], ref. simpl. rewrite app_nil_r, Nat.add_0_r.
    split; [by destruct si|]. split; [constructor|]. split; [done|].
    split; [done|]. split.
    { intros k. split; [by left|]. intros [?|H]; [done|].
      exfalso. exact (proj1 (elem_of_nil k) H). }
    split; [done|]. split; [|by left].
    intros before c after E. by destruct before.
  - cbn [OscalSSP.components_loop].
    unfold mbind at 1, gen_bind, uuid4. cbv zeta. cbn [fst snd].
    set (new := if models.Component.status c =? 1 then _ else _).
    assert (ssp.Component.uuid new = uuid4_values n) as Hnew
      by (subst new; by destruct (models.Component.status c =? 1)).
    destruct (IH (ssp.SystemImplementation.mk (ssp.SystemImplementation.users si)
                    (ssp.SystemImplementation.components si ++ [new]))
                 (dict_set ref (models.Component.title c) (ssp.Component.uuid new))
                 (S n))
      as (cpts & ref' & Hrun & Hshape & Huuid & Hnodup & Hkeys & Hold & Hlast
          & Hvalues).
    rewrite Hrun. clear Hrun.
    cbn [ssp.SystemImplementation.users ssp.SystemImplementation.components]
      in *.
    exists (new :: cpts), ref'. rewrite Hnew in *.
    rewrite <- app_assoc. simpl. rewrite Nat.add_succ_r.
    destruct (dict_set_keys ref (models.Component.title c) (uuid4_values n))
      as [Hset Hsetnodup].
    split; [done|]. split.
    { constructor; [|done]. subst new.
      by destruct (models.Component.status c =? 1). }
    split; [cbn [fmap list_fmap]; by f_equal|]. split; [auto|]. split.
    { intros k. rewrite Hkeys, Hset, elem_of_cons. tauto. }
    split.
    { intros k Hk. apply not_elem_of_cons in Hk as [Hne Hk].
      rewrite Hold by done. rewrite dict_get_set.
      apply not_eq_sym, String.eqb_neq in Hne. by rewrite Hne. }
    split.
    { intros before c' after E Hafter. destruct before as [|b before].
      - injection E as <- <-. rewrite Hold by done.
        rewrite dict_get_set, String.eqb_refl. simpl. by rewrite Nat.add_0_r.
      - injection E as <- ->. rewrite (Hlast before c' after) by done.
        simpl. by rewrite Nat.add_succ_r. }
    intros k u Hu. destruct (Hvalues k u Hu) as [H|H].
    + rewrite dict_get_set in H.
      destruct (String.eqb (models.Component.title c) k).
      * injection H as <-. right. rewrite Hnew. apply list_elem_of_here.
      * by left.
    + right. by apply list_elem_of_further.
Qed.

Lemma add_components_users (uuid4_values : nat -> UUID)
    (project : models.Project.t) (users : list ssp.User.t) (n : nat) :
  exists cpts ref n',
    OscalSSP.add_components uuid4_values project users n
    = Ok ((ssp.SystemImplementation.mk users cpts, ref), n').
Proof.
  unfold OscalSSP.add_components.
  destruct (components_loop_spec uuid4_values project
              (models.Project.components project)
              (ssp.SystemImplementation.mk users []) [] n)
    as (cpts & ref & Hrun & _).
  exists cpts, ref. eexists. exact Hrun.
Qed.

(** X13.  [add_components] never raises.  It puts one component into the
    system implementation for every attached component, in order, each
    with a UUID of its own drawn in that order and the status
    [operational]; an attached component of status 1 is entered as
    [This System] of type [this-system], described by the project title,
    and any other keeps its title, type and description.  The users are
    passed on unchanged. *)
Theorem add_components_one_per_component (uuid4_values : nat -> UUID)
    (project : models.Project.t) (users : list ssp.User.t) (n : nat) :
  exists cpts ref,
    OscalSSP.add_components uuid4_values project users n
    = Ok ((ssp.SystemImplementation.mk users cpts, ref),
          (n + length (models.Project.components project))%nat) /\
    Forall2 (fun c cpt =>
               ssp.Component.status cpt = OscalSSP.operational /\
               if models.Component.status c =? 1
               then ssp.Component.title cpt = "This System" /\
                    ssp.Component.type cpt = "this-system" /\
                    ssp.Component.description cpt = models.Project.title project
               else ssp.Component.title cpt = models.Component.title c /\
                    ssp.Component.type cpt = models.Component.type c /\
                    ssp.Component.description cpt
                    = models.Component.description c)
            (models.Project.components project) cpts /\
    ssp.Component.uuid <$> cpts
    = uuid4_values <$> seq n (length (models.Project.components project)).
Proof.
  unfold OscalSSP.add_components.
  destruct (components_loop_spec uuid4_values project
              (models.Project.components project)
              (ssp.SystemImplementation.mk users []) [] n)
    as (cpts & ref & Hrun & Hshape & Huuid & _).
  exists cpts, ref. by rewrite Hrun.
Qed.

(** X14.  The dictionary [component_ref] that [add_components] fills has
    the titles of the attached components as its keys, each once.  An
    attached component that is the last with its title is mapped to the
    UUID drawn for it; an earlier component with the same title is
    overwritten.  Every UUID in the dictionary is the UUID of a component
    of the system implementation. *)
Theorem component_ref_last_title_wins (uuid4_values : nat -> UUID)
    (project : models.Project.t) (users : list ssp.User.t) (n : nat) :
  exists si ref n',
    OscalSSP.add_components uuid4_values project users n
    = Ok ((si, ref), n') /\
    NoDup ref.*1 /\
    (forall title,
       title ∈ ref.*1 <->
       title ∈ models.Component.title <$> models.Project.components project) /\
    (forall before c after,
       models.Project.components project = before ++ c :: after ->
       models.Component.title c ∉ models.Component.title <$> after ->
       dict_item ref (models.Component.title c)
       = Ok (uuid4_values (n + length before)%nat)) /\
    (forall title u,
       dict_item ref title = Ok u ->
       u ∈ ssp.Component.uuid <$> ssp.SystemImplementation.components si).
Proof.
  unfold OscalSSP.add_components.
  destruct (components_loop_spec uuid4_values project
              (models.Project.components project)
              (ssp.SystemImplementation.mk users []) [] n)
    as (cpts & ref & Hrun & _ & _ & Hnodup & Hkeys & _ & Hlast & Hvalues).
  eexists _, ref, _. split; [exact Hrun|].
  split; [apply Hnodup; constructor|]. split.
  { intros title. rewrite Hkeys. split; [|by right].
    intros [H|H]; [|done]. exfalso. exact (proj1 (elem_of_nil title) H). }
  split.
  { intros before c after E Hafter. unfold dict_item.
    by rewrite (Hlast before c after E Hafter). }
  intros title u. unfold dict_item.
  destruct (dict_get ref title) as [u'|] eqn:E; [|discriminate].
  intros [= ->]. destruct (Hvalues title u E) as [H|H]; [discriminate|].
  exact H.
Qed.

Lemma component_ref_last_title_wins_witness :
  exists si ref n',
    OscalSSP.add_components sample_uuid4 project_both_implement [] 2%nat
    = Ok ((si, ref), n') /\
    dict_item ref "Cool Component" = Ok 1003%N.
Proof.
  destruct (component_ref_last_title_wins sample_uuid4 project_both_implement
              [] 2%nat) as (si & ref & n' & Hrun & _ & _ & Hlast & _).
  exists si, ref, n'. split; [exact Hrun|].
  apply (Hlast [ociso] cool []); [reflexivity|].
  apply not_elem_of_nil.
Defined.

Section entries.
Variable uuid4_values : nat -> UUID.
Variable uuid5 : UUID -> string -> UUID.
Context {Tools : Type}.
Variable ComponentTools : json -> result Tools.
Variable get_control_by_id : Tools -> string -> result (list json).

Lemma by_components_loop_entries (control_id : string) (address : nat)
    (component_ref : list (string * UUID))
    (components : list models.Component.t)
    (st st' : OscalSSP.Requirements) (n n' : nat) :
  OscalSSP.by_components_loop uuid4_values ComponentTools get_control_by_id
    control_id address component_ref components st n = Ok (st', n') ->
  exists new,
    Forall2 (by_component_from ComponentTools get_control_by_id component_ref
               control_id)
      (implementing control_id components) new /\
    ssp.ByComponent.uuid <$> new = uuid4_values <$> seq n (length new) /\
    n' = (n + length new)%nat /\
    OscalSSP.objects st' =
      alter (append_by_components new) address (OscalSSP.objects st) /\
    OscalSSP.listed st' = OscalSSP.listed st ++ replicate (length new) address.
Proof.
  revert st n. induction components as [|component rest IH]; intros st n.
  - intros [= <- <-]. exists []. split; [constructor|]. split; [done|].
    split; [simpl; lia|]. split.
    + symmetry. apply list_alter_id. apply append_by_components_nil.
    + simpl. by rewrite app_nil_r.
  - cbn [OscalSSP.by_components_loop]. unfold implementing.
    cbn [List.filter].
    intros (cmp & n1 & [Hcmp ->]%lift_Ok & Hrun)%bind_Ok.
    destruct (existsb _ (models.Component.controls component)) eqn:Hlisted.
    + apply bind_Ok in Hrun as (ctrl & n1 & [Hctrl ->]%lift_Ok & Hrun).
      apply bind_Ok in Hrun as (cu & n1 & [Hcu ->]%lift_Ok & Hrun).
      apply bind_Ok in Hrun as (first & n1 & [Hfirst ->]%lift_Ok & Hrun).
      apply bind_Ok in Hrun as (description & n1 & [Hd ->]%lift_Ok & Hrun).
      apply bind_Ok in Hrun as (uuid & n1 & [= <- <-] & Hrun).
      apply IH in Hrun as (new & Hnew & Huuid & -> & Hobjects & Hlist).
      exists (ssp.ByComponent.mk (uuid4_values n) cu description :: new).
      split; [|split; [|split; [|split]]].
      * constructor; [|exact Hnew]. split; [exact Hlisted|]. split.
        -- unfold dict_item in Hcu. simpl.
           destruct (dict_get component_ref _); [|discriminate].
           by injection Hcu as ->.
        -- by exists cmp, ctrl, first.
      * cbn [fmap list_fmap length seq]. by f_equal.
      * simpl. lia.
      * rewrite Hobjects. simpl. rewrite list_alter_alter_eq.
        apply list_alter_ext; [|done]. intros r _.
        unfold append_by_components,
          ssp.ImplementedRequirement.add_by_component. simpl.
        by rewrite <- app_assoc.
      * rewrite Hlist. simpl. by rewrite <- app_assoc.
    + apply IH in Hrun as (new & Hnew & Huuid & -> & Hobjects & Hlist).
      by exists new.
Qed.

Lemma controls_loop_entries (component_ref : list (string * UUID))
    (components : list models.Component.t)
    (controls : list models.Control.t)
    (st st' : OscalSSP.Requirements) (n n' : nat) :
  OscalSSP.controls_loop uuid4_values ComponentTools get_control_by_id
    component_ref components controls st n = Ok (st', n') ->
  exists new,
    OscalSSP.objects st' = OscalSSP.objects st ++ new /\
    ssp.ImplementedRequirement.control_id <$> new
    = models.Control.control_id <$> controls /\
    Forall (fun r =>
              Forall2 (by_component_from ComponentTools get_control_by_id
                         component_ref (ssp.ImplementedRequirement.control_id r))
                (implementing (ssp.ImplementedRequirement.control_id r)
                   components)
                (ssp.ImplementedRequirement.by_components r)) new.
Proof.
  revert st n. induction controls as [|control rest IH]; intros st n.
  - intros [= <- <-]. exists []. by rewrite app_nil_r.
  - cbn [OscalSSP.controls_loop].
    intros (uuid & n1 & [= <- <-] & Hrun)%bind_Ok.
    apply bind_Ok in Hrun as (st1 & n1 & Hinner & Hrest).
    apply by_components_loop_entries in Hinner
      as (new & Hnew & _ & _ & Hobjects & _).
    simpl in Hobjects.
    rewrite <- (Nat.add_0_r (length (OscalSSP.objects st))) in Hobjects at 1.
    rewrite alter_app_r in Hobjects. simpl in Hobjects.
    apply IH in Hrest as (more & Hmore & Hids & Hentries).
    exists (ssp.ImplementedRequirement.mk (uuid4_values n)
              (models.Control.control_id control) new :: more).
    split; [|split].
    + rewrite Hmore, Hobjects. by rewrite <- app_assoc.
    + cbn [fmap list_fmap]. by f_equal.
    + constructor; [exact Hnew|exact Hentries].
Qed.

Lemma elem_of_resolve (reqs : OscalSSP.Requirements)
    (r : ssp.ImplementedRequirement.t) :
  r ∈ OscalSSP.resolve reqs -> r ∈ OscalSSP.objects reqs.
Proof.
  unfold OscalSSP.resolve. rewrite list_elem_of_omap.
  intros (address & _ & H). by apply list_elem_of_lookup_2 in H.
Qed.

(** What a successful download is made of: the system implementation and
    the dictionary of [add_components], and requirements whose entries
    come from the implementing components. *)
Lemma download_entries (project : models.Project.t) (extras : Extras)
    (document : ssp.Model.t) :
  OscalSSP.download uuid4_values uuid5 ComponentTools get_control_by_id
    project extras = Ok document ->
  exists users n si ref n',
    OscalSSP.add_components uuid4_values project users n = Ok ((si, ref), n') /\
    ssp.SystemSecurityPlan.system_implementation
      (ssp.Model.system_security_plan document) = si /\
    forall r, r ∈ listed_requirements document ->
      ssp.ImplementedRequirement.control_id r
        ∈ models.Control.control_id <$> models.Project.controls project /\
      Forall2 (by_component_from ComponentTools get_control_by_id ref
                 (ssp.ImplementedRequirement.control_id r))
        (implementing (ssp.ImplementedRequirement.control_id r)
           (models.Project.components project))
        (ssp.ImplementedRequirement.by_components r).
Proof.
  unfold OscalSSP.download.
  destruct ((OscalSSP.init uuid4_values _ _ project extras ≫= _) 0%nat)
    as [[doc n]|e] eqn:Hrun; [|discriminate]. intros [= ->].
  apply bind_Ok in Hrun as (self & n1 & Hinit & Hssp).
  unfold OscalSSP.init in Hinit.
  apply bind_Ok in Hinit as ([metadata users] & n2 & _ & Hinit).
  apply bind_Ok in Hinit as ([si ref] & n3 & Hadd & Hinit).
  apply bind_Ok in Hinit as ([description reqs] & n4 & Hreqs & [= <- <-]).
  unfold OscalSSP.add_implemented_requirements in Hreqs.
  apply bind_Ok in Hreqs as (reqs' & n5 & Hloop & [= <- <- <-]).
  apply controls_loop_entries in Hloop as (new & Hobjects & Hids & Hentries).
  unfold OscalSSP.get_ssp in Hssp.
  apply bind_Ok in Hssp as (sc & n6 & _ & Hssp).
  apply bind_Ok in Hssp as (bm & n7 & _ & Hssp).
  apply bind_Ok in Hssp as (u & n8 & _ & [= <- <-]).
  exists users, n2, si, ref, n3. split; [exact Hadd|]. split; [done|].
  unfold listed_requirements. simpl. intros r Hr%elem_of_resolve.
  rewrite Hobjects in Hr. simpl in Hr. split.
  - rewrite <- Hids. apply list_elem_of_fmap. by exists r.
  - rewrite Forall_forall in Hentries. by apply Hentries.
Qed.

Lemma last_occurrence {A : Type} (f : A -> string) (l : list A) (k : string) :
  k ∈ f <$> l ->
  exists before x after, l = before ++ x :: after /\ f x = k /\ k ∉ f <$> after.
Proof.
  induction l as [|x l IH]; [by intros H%elem_of_nil|].
  destruct (decide (k ∈ f <$> l)) as [Hin|Hnotin].
  - intros _. destruct (IH Hin) as (before & y & after & -> & Hy & Hafter).
    by exists (x :: before), y, after.
  - rewrite fmap_cons, elem_of_cons. intros [->|?]; [|done].
    by exists [], x, l.
Qed.

Lemma elem_of_implementing (control_id : string)
    (components : list models.Component.t) (c : models.Component.t) :
  c ∈ implementing control_id components -> c ∈ components.
Proof.
  unfold implementing. rewrite !list_elem_of_In, filter_In. tauto.
Qed.

(** X15.  In a downloaded plan every by-component entry refers to a
    component of the plan's system implementation: the one that
    [add_components] made for the last attached component bearing the
    title of the implementing component.  With pairwise distinct titles
    that is the implementing component's own; components that share a
    title all refer to the last of them. *)
Theorem by_component_refers_to_component
    (project : models.Project.t) (extras : Extras) (document : ssp.Model.t) :
  OscalSSP.download uuid4_values uuid5 ComponentTools get_control_by_id
    project extras = Ok document ->
  forall r, r ∈ listed_requirements document ->
    Forall2 (fun c b =>
               exists before c' after cpt,
                 models.Project.components project = before ++ c' :: after /\
                 models.Component.title c' = models.Component.title c /\
                 (models.Component.title c ∉ models.Component.title <$> after) /\
                 ssp.SystemImplementation.components
                   (ssp.SystemSecurityPlan.system_implementation
                      (ssp.Model.system_security_plan document))
                 !! length before = Some cpt /\
                 ssp.ByComponent.component_uuid b = ssp.Component.uuid cpt)
      (implementing (ssp.ImplementedRequirement.control_id r)
         (models.Project.components project))
      (ssp.ImplementedRequirement.by_components r).
Proof.
  intros (users & n & si & ref & n' & Hadd & <- & Hentries)%download_entries
    r Hr.
  destruct (Hentries r Hr) as [_ Hfrom]. clear Hentries Hr.
  unfold OscalSSP.add_components in Hadd.
  destruct (components_loop_spec uuid4_values project
              (models.Project.components project)
              (ssp.SystemImplementation.mk users []) [] n)
    as (cpts & ref' & Hrun & _ & Huuid & _ & _ & _ & Hlast & _).
  rewrite Hrun in Hadd. injection Hadd as <- <- <-. simpl.
  assert (forall c, c ∈ implementing (ssp.ImplementedRequirement.control_id r)
                         (models.Project.components project) ->
                    c ∈ models.Project.components project) as Hsub
    by (intros c; apply elem_of_implementing).
  induction Hfrom as [|c b cs bs (_ & Hget & _) _ IH]; constructor.
  - assert (models.Component.title c
              ∈ models.Component.title <$> models.Project.components project)
      as Hin.
    { apply list_elem_of_fmap. exists c. split; [done|].
      apply Hsub, list_elem_of_here. }
    apply last_occurrence in Hin as (before & c' & after & E & Htitle & Hafter).
    rewrite <- Htitle in Hafter.
    pose proof (Hlast before c' after E Hafter) as Hu.
    rewrite Htitle, Hget in Hu. injection Hu as Hu.
    assert ((ssp.Component.uuid <$> cpts) !! length before
            = Some (uuid4_values (n + length before)%nat)) as Hat.
    { rewrite Huuid, list_lookup_fmap, E.
      rewrite lookup_seq_lt; [done|]. rewrite length_app. simpl. lia. }
    rewrite list_lookup_fmap in Hat.
    destruct (cpts !! length before) as [cpt|] eqn:Hcpt; [|discriminate].
    injection Hat as Hat.
    exists before, c', after, cpt. rewrite Htitle in Hafter.
    split; [done|]. split; [done|]. split; [done|]. split; [done|]. congruence.
  - apply IH. intros c' Hc'. apply Hsub. by apply list_elem_of_further.
Qed.

(** X16.  In a downloaded plan every listed requirement is the requirement
    of a tracked control, and its by-component entries correspond, in
    order, to the attached components whose [controls] hold the control
    id: the description of each entry is the description of the first
    control that the component's tools return for that id. *)
Theorem by_components_carry_first_description
    (project : models.Project.t) (extras : Extras) (document : ssp.Model.t) :
  OscalSSP.download uuid4_values uuid5 ComponentTools get_control_by_id
    project extras = Ok document ->
  forall r, r ∈ listed_requirements document ->
    ssp.ImplementedRequirement.control_id r
      ∈ models.Control.control_id <$> models.Project.controls project /\
    Forall2 (fun c b =>
               exists tools first rest,
                 ComponentTools (models.Component.component_json c) = Ok tools /\
                 get_control_by_id tools
                   (ssp.ImplementedRequirement.control_id r)
                 = Ok (first :: rest) /\
                 OscalSSP.control_description first
                 = Ok (ssp.ByComponent.description b))
      (List.filter
         (fun c => existsb (String.eqb (ssp.ImplementedRequirement.control_id r))
                     (models.Component.controls c))
         (models.Project.components project))
      (ssp.ImplementedRequirement.by_components r).
Proof.
  intros (users & n & si & ref & n' & _ & _ & Hentries)%download_entries r Hr.
  destruct (Hentries r Hr) as [Hid Hfrom]. split; [exact Hid|].
  eapply Forall2_impl; [exact Hfrom|].
  intros c b (_ & _ & tools & ctrl & first & Htools & Hctrl & Hfirst & Hd).
  destruct ctrl as [|first' rest]; [discriminate|]. injection Hfirst as ->.
  by exists tools, first, rest.
Qed.
End entries.

Lemma by_component_refers_to_component_witness :
  exists document,
    sample_download sample_uuid4 project_both_implement = Ok document /\
    forall r, r ∈ listed_requirements document ->
      length (ssp.ImplementedRequirement.by_components r) = 2%nat.
Proof.
  eexists. split; [vm_compute; reflexivity|].
  intros r Hr.
  assert (length (implementing (ssp.ImplementedRequirement.control_id r)
                    (models.Project.components project_both_implement))
          = length (ssp.ImplementedRequirement.by_components r)) as <-.
  { eapply Forall2_length.
    eapply (by_component_refers_to_component sample_uuid4 sample_uuid5
              sample_ComponentTools sample_get_control_by_id
              project_both_implement (mkExtras (Some sample_stakeholders)));
      [vm_compute; reflexivity|exact Hr]. }
  apply elem_of_cons in Hr as [->|Hr]; [reflexivity|].
  apply elem_of_cons in Hr as [->|Hr]; [reflexivity|].
  exfalso. exact (proj1 (elem_of_nil r) Hr).
Defined.

Lemma by_components_carry_first_description_witness :
  exists document,
    sample_download sample_uuid4 project_one_implements = Ok document /\
    forall r, r ∈ listed_requirements document ->
      ssp.ImplementedRequirement.control_id r ∈ ["ac-2"].
Proof.
  eexists. split; [vm_compute; reflexivity|].
  intros r Hr.
  eapply (by_components_carry_first_description sample_uuid4 sample_uuid5
            sample_ComponentTools sample_get_control_by_id
            project_one_implements (mkExtras (Some sample_stakeholders)));
    [vm_compute; reflexivity|exact Hr].
Defined.

Section outcome.
Variable uuid4_values : nat -> UUID.
Variable uuid5 : UUID -> string -> UUID.
Context {Tools : Type}.
Variable ComponentTools : json -> result Tools.
Variable get_control_by_id : Tools -> string -> result (list json).




Lemma by_components_loop_builds_tools (control_id : string) (address : nat)
    (component_ref : list (string * UUID))
    (components : list models.Component.t)
    (st st' : OscalSSP.Requirements) (n n' : nat) :
  OscalSSP.by_components_loop uuid4_values ComponentTools get_control_by_id
    control_id address component_ref components st n = Ok (st', n') ->
  forall c, c ∈ components ->
    exists tools, ComponentTools (models.Component.component_json c) = Ok tools.
Proof.
  revert st n. induction components as [|component rest IH]; intros st n.
  - intros _ c Hc. exfalso. exact (proj1 (elem_of_nil c) Hc).
  - cbn [OscalSSP.by_components_loop].
    intros (cmp & n1 & [Hcmp ->]%lift_Ok & Hrun)%bind_Ok c Hc.
    apply elem_of_cons in Hc as [->|Hc]; [by exists cmp|].
    destruct (existsb _ (models.Component.controls component)).
    + apply bind_Ok in Hrun as (ctrl & n1 & [_ ->]%lift_Ok & Hrun).
      apply bind_Ok in Hrun as (cu & n1 & [_ ->]%lift_Ok & Hrun).
      apply bind_Ok in Hrun as (first & n1 & [_ ->]%lift_Ok & Hrun).
      apply bind_Ok in Hrun as (description & n1 & [_ ->]%lift_Ok & Hrun).
      apply bind_Ok in Hrun as (uuid & n1 & [= <- <-] & Hrun).
      by apply (IH _ _ Hrun).
    + by apply (IH _ _ Hrun).
Qed.

(** X19.  [ComponentTools] is built for every attached component and every
    tracked control before the component's [controls] are looked at: when
    the project tracks a control, a download succeeds only if the tools of
    every attached component can be built, whether or not the component
    implements anything. *)
Theorem download_builds_tools_of_every_component
    (project : models.Project.t) (extras : Extras) (document : ssp.Model.t) :
  OscalSSP.download uuid4_values uuid5 ComponentTools get_control_by_id
    project extras = Ok document ->
  models.Project.controls project <> [] ->
  forall c, c ∈ models.Project.components project ->
    exists tools, ComponentTools (models.Component.component_json c) = Ok tools.
Proof.
  unfold OscalSSP.download.
  destruct ((OscalSSP.init uuid4_values _ _ project extras ≫= _) 0%nat)
    as [[doc n]|e] eqn:Hrun; [|discriminate]. intros _ Hcontrols.
  apply bind_Ok in Hrun as (self & n1 & Hinit & _).
  unfold OscalSSP.init in Hinit.
  apply bind_Ok in Hinit as ([metadata users] & n2 & _ & Hinit).
  apply bind_Ok in Hinit as ([si ref] & n3 & _ & Hinit).
  apply bind_Ok in Hinit as ([description reqs] & n4 & Hreqs & _).
  unfold OscalSSP.add_implemented_requirements in Hreqs.
  apply bind_Ok in Hreqs as (reqs' & n5 & Hloop & _).
  destruct (models.Project.controls project) as [|control rest]; [done|].
  cbn [OscalSSP.controls_loop] in Hloop.
  apply bind_Ok in Hloop as (uuid & n6 & _ & Hloop).
  apply bind_Ok in Hloop as (st1 & n7 & Hinner & _).
  exact (by_components_loop_builds_tools _ _ _ _ _ _ _ _ Hinner).
Qed.
End outcome.


Lemma download_builds_tools_of_every_component_witness :
  exists tools,
    sample_ComponentTools (models.Component.component_json bare) = Ok tools.
Proof.
  eapply (download_builds_tools_of_every_component sample_uuid4 sample_uuid5
            sample_ComponentTools sample_get_control_by_id
            project_one_implements (mkExtras (Some sample_stakeholders))).
  - vm_compute. reflexivity.
  - discriminate.
  - apply list_elem_of_further, list_elem_of_here.
Defined.

Lemma listed_once_per_implementing_component_witness :
  exists document,
    sample_download sample_uuid4 project_both_implement = Ok document /\
    requirement_shape <$> listed_requirements document
    = [("ac-2", 2%nat); ("ac-2", 2%nat)].
Proof.
  eexists. split; [vm_compute; reflexivity|].
  eapply eq_trans.
  - eapply (listed_once_per_implementing_component sample_uuid4 sample_uuid5
              sample_ComponentTools sample_get_control_by_id
              project_both_implement (mkExtras (Some sample_stakeholders))).
    vm_compute. reflexivity.
  - reflexivity.
Defined.

Section document.
Variable uuid4_values : nat -> UUID.
Variable uuid5 : UUID -> string -> UUID.
Context {Tools : Type}.
Variable ComponentTools : json -> result Tools.
Variable get_control_by_id : Tools -> string -> result (list json).

Lemma init_fields (project : models.Project.t) (extras : Extras)
    (self : OscalSSP.t) (n n' : nat) :
  OscalSSP.init uuid4_values ComponentTools get_control_by_id project extras n
  = Ok (self, n') ->
  OscalSSP.project self = project /\
  OscalSSP.control_implementations_description self
  = "[INSERT SYSTEM DESCRIPTION HERE]" /\
  ssp.Metadata.title (OscalSSP.metadata self) = models.Project.title project /\
  ssp.Metadata.version (OscalSSP.metadata self) = "0.1" /\
  ssp.Metadata.oscal_version (OscalSSP.metadata self) = "1.0.2" /\
  ssp.SystemImplementation.users (OscalSSP.system_implementation self)
  = OscalSSP.users self.
Proof.
  unfold OscalSSP.init.
  intros ([metadata users] & n2 & Hroles & Hinit)%bind_Ok.
  apply bind_Ok in Hinit as ([si ref] & n3 & Hadd & Hinit).
  apply bind_Ok in Hinit as ([description reqs] & n4 & Hreqs & [= <- <-]).
  apply set_roles_Ok in Hroles as (roles & -> & _).
  unfold OscalSSP.add_implemented_requirements in Hreqs.
  apply bind_Ok in Hreqs as (reqs' & n6 & _ & [= <- <- <-]).
  destruct (add_components_users uuid4_values project users n2)
    as (cpts & ref' & n7 & Hadd').
  rewrite Hadd' in Hadd. injection Hadd as <- <- <-. done.
Qed.

(** X20.  Whatever the components and stakeholders are, a downloaded plan
    carries the project's data in fixed places: the metadata has the
    project title, version 0.1 and OSCAL version 1.0.2; the import profile
    is the catalog source; the system is named by the title and described
    by the acronym; the sensitivity level is the impact level, and the
    three security objectives and the three impacts of the one information
    type are all [fips-199-] followed by that level; the control
    implementation has the placeholder description; the back matter holds
    the one resource [Test Resource]; and the users of the system
    implementation go with the roles of the metadata. *)
Theorem download_fixed_parts (project : models.Project.t) (extras : Extras)
    (document : ssp.Model.t) :
  OscalSSP.download uuid4_values uuid5 ComponentTools get_control_by_id
    project extras = Ok document ->
  let plan := ssp.Model.system_security_plan document in
  let level := "fips-199-" +:+ models.Project.impact_level project in
  (exists roles,
     ssp.SystemSecurityPlan.metadata plan
     = ssp.Metadata.mk (models.Project.title project) "0.1" "1.0.2" (Some roles) /\
     length (ssp.SystemImplementation.users
               (ssp.SystemSecurityPlan.system_implementation plan))
     = length roles) /\
  ssp.SystemSecurityPlan.import_profile plan
  = ssp.ImportProfile.mk
      (models.Catalog.source (models.Project.catalog project)) /\
  (exists u,
     ssp.SystemSecurityPlan.system_characteristics plan
     = ssp.SystemCharacteristics.mk
         [ssp.SystemId.mk
            (uuid5 OscalSSP.NAMESPACE_OID (models.Project.title project))
            "https://ietf.org/rfc/rfc4122"]
         (models.Project.title project) (models.Project.acronym project)
         (models.Project.impact_level project)
         (ssp.SystemInformation.mk
            [ssp.InformationType.mk u (models.Project.title project)
               (models.Project.title project) (ssp.Impact.mk level)
               (ssp.Impact.mk level) (ssp.Impact.mk level)])
         (ssp.SecurityImpactLevel.mk level level level)
         (ssp.NetworkDiagram.mk "INSERT AUTHORIZATION BOUNDARY")
         (ssp.SystemStatus.mk "operational")) /\
  ssp.ControlImplementation.description
    (ssp.SystemSecurityPlan.control_implementation plan)
  = "[INSERT SYSTEM DESCRIPTION HERE]" /\
  (exists u,
     ssp.SystemSecurityPlan.back_matter plan
     = ssp.BackMatter.mk [ssp.Resource.mk u "Test Resource"]).
Proof.
  unfold OscalSSP.download.
  destruct ((OscalSSP.init uuid4_values _ _ project extras ≫= _) 0%nat)
    as [[doc n]|e] eqn:Hrun; [|discriminate]. intros [= ->].
  apply bind_Ok in Hrun as (self & n1 & Hinit & Hssp).
  pose proof Hinit as Hinit'.
  apply init_fields in Hinit as (Hproject & Hdescription & Ht & Hv & Ho & Hu).
  unfold OscalSSP.init in Hinit'.
  apply bind_Ok in Hinit' as ([metadata users] & n2 & Hroles & Hinit').
  apply bind_Ok in Hinit' as ([si ref] & n3 & Hadd & Hinit').
  apply bind_Ok in Hinit' as ([description reqs] & n4 & Hreqs & [= Hself _]).
  apply set_roles_Ok in Hroles as (rs & -> & Hlen).
  unfold OscalSSP.get_ssp, OscalSSP.get_system_characteristics,
    OscalSSP.get_system_information, OscalSSP.get_information_type,
    OscalSSP.get_back_matter, OscalSSP.get_impact_level,
    OscalSSP.get_import_profile, OscalSSP.fips_199 in Hssp.
  revert Hssp. gen_unfold. intros [= <-]. simpl.
  rewrite Hproject, Hdescription, Hu. subst self. simpl.
  split; [by exists rs|]. split; [done|]. split; [by eexists|].
  split; [done|]. by eexists.
Qed.
End document.

Lemma download_fixed_parts_witness :
  exists document,
    sample_download sample_uuid4 project_one_implements = Ok document /\
    ssp.SystemSecurityPlan.import_profile
      (ssp.Model.system_security_plan document)
    = ssp.ImportProfile.mk "https://raw.githubusercontent.com/NIST/catalog.json".
Proof.
  eexists. split; [vm_compute; reflexivity|].
  eapply (download_fixed_parts sample_uuid4 sample_uuid5 sample_ComponentTools
            sample_get_control_by_id project_one_implements
            (mkExtras (Some sample_stakeholders))).
  vm_compute. reflexivity.
Defined.

(** * Properties of [catalogs/models.py] *)

(** X21.  When a catalog is deleted, [auto_delete_file_on_delete] removes
    the file of its [file_name] from the disk and nothing else: the table
    is untouched, every other file stays, no file appears, and a catalog
    without a file name removes nothing.  Running the receiver again
    changes nothing more. *)
Theorem auto_delete_file_on_delete_removes_own_file (path : string -> string)
    (instance : catalogs.Catalog.t) (w : catalogs.World) :
  let w' := catalogs.auto_delete_file_on_delete path instance w in
  catalogs.table w' = catalogs.table w /\
  (forall p,
     p ∈ catalogs.files w' <->
     p ∈ catalogs.files w /\
     (catalogs.Catalog.file_name instance = "" \/
      p <> path (catalogs.Catalog.file_name instance))) /\
  catalogs.auto_delete_file_on_delete path instance w' = w'.
Proof.
  unfold catalogs.auto_delete_file_on_delete.
  destruct (String.eqb_spec (catalogs.Catalog.file_name instance) "") as [E|E];
    simpl.
  - split; [done|]. split; [|done]. intros p. split; [by auto|by intros [? _]].
  - destruct (bool_decide (path (catalogs.Catalog.file_name instance)
                             ∈ catalogs.files w)) eqn:Hfile; simpl.
    + split; [done|]. split.
      * intros p. rewrite elem_of_difference, elem_of_singleton.
        split; [intros [? ?]; by auto|].
        intros [? [?|?]]; [done|by split].
      * rewrite bool_decide_eq_false_2; [done|].
        rewrite elem_of_difference, elem_of_singleton. by intros [_ ?].
    + rewrite Hfile. split; [done|]. split; [|done].
      apply bool_decide_eq_false in Hfile. intros p. split.
      * intros Hp. split; [done|]. right. by intros ->.
      * by intros [? _].
Qed.

(** X22.  [auto_delete_file_on_change] never removes a file.  For an
    instance that has no primary key yet, or whose key has no saved row, it
    returns [False] and leaves the table and the disk alone; for every
    saved catalog it raises [AttributeError] on [instance.file], an
    attribute that [Catalog] does not have, before it compares or removes
    anything. *)
Theorem auto_delete_file_on_change_removes_nothing (path : string -> string)
    (instance : catalogs.Catalog.t) (w : catalogs.World) :
  match catalogs.auto_delete_file_on_change path instance w with
  | Ok (returned, w') =>
      returned = Some false /\ w' = w /\
      (catalogs.pk_falsy instance = true \/
       catalogs.table w !! default 0 (catalogs.Catalog.pk instance) = None)
  | Raise e =>
      e = AttributeError "'Catalog' object has no attribute 'file'" /\
      exists key saved,
        catalogs.Catalog.pk instance = Some key /\ key <> 0 /\
        catalogs.table w !! key = Some saved
  end.
Proof.
  unfold catalogs.auto_delete_file_on_change, catalogs.pk_falsy.
  destruct (catalogs.Catalog.pk instance) as [key|]; simpl; [|by auto].
  destruct (Z.eqb_spec key 0) as [->|Hkey]; [by auto|].
  destruct (catalogs.table w !! key) as [saved|] eqn:Hrow; simpl; [|by auto].
  split; [done|]. by exists key, saved.
Qed.
